(** * AppOperation: the HTTP wrapper of tanstack-appoperation-kit

    A shallow embedding of [src/AppOperation.ts].  The class is an object
    holding a base URL, a registry of requests, a record of static headers, an
    optional resolver of dynamic headers and an optional toast handler; its
    entry point [getRequest] dispatches on the registered verb and funnels
    into the private [sendRequest].

    The platform pieces the class calls (JS values and their coercions, the
    [Headers] class, [fetch], [Response.json], [JSON.stringify]) are modelled
    in the modules [JS] and [Headers] below; the effects of one call (toasts,
    provider invocation, serialisation, the network call) are recorded in a
    trace of events.

    The class is embedded twice.  The first embedding takes the resolver
    and the toast handler at their declared signatures and the thrown
    values as [Error] objects; the module [Full] drops both assumptions:
    there a callback may throw and anything may be thrown.  [up_getRequest]
    relates the two. *)

From Stdlib Require Import List String Ascii ZArith Bool Lia DecimalString.
From Stdlib Require Import NArith Sorted.
Import ListNotations.
Local Open Scope string_scope.

(** ** Strings *)

Module Str.

(** [s.includes(t)]: [t] occurs in [s] as a contiguous substring. *)
Fixpoint includes (s t : string) : bool :=
  String.prefix t s ||
  match s with
  | EmptyString => false
  | String _ s' => includes s' t
  end.

(** [Array.prototype.join] on strings. *)
Fixpoint join (sep : string) (l : list string) : string :=
  match l with
  | [] => ""
  | [x] => x
  | x :: l' => x ++ sep ++ join sep l'
  end.

Definition lower_ascii (c : ascii) : ascii :=
  let n := nat_of_ascii c in
  if andb (Nat.leb 65 n) (Nat.leb n 90) then ascii_of_nat (n + 32) else c.

(** Byte-lowercasing, as used to compare header names. *)
Fixpoint lower (s : string) : string :=
  match s with
  | EmptyString => EmptyString
  | String c s' => String (lower_ascii c) (lower s')
  end.

Fixpoint forallb (p : ascii -> bool) (s : string) : bool :=
  match s with
  | EmptyString => true
  | String c s' => p c && forallb p s'
  end.

Fixpoint drop_while (p : ascii -> bool) (s : string) : string :=
  match s with
  | EmptyString => EmptyString
  | String c s' => if p c then drop_while p s' else s
  end.

Fixpoint rev_acc (s acc : string) : string :=
  match s with
  | EmptyString => acc
  | String c s' => rev_acc s' (String c acc)
  end.

Definition rev (s : string) : string := rev_acc s EmptyString.

Definition is_empty (s : string) : bool :=
  match s with EmptyString => true | _ => false end.

End Str.

(** ** JavaScript values *)

Module JS.

(** The values that flow through the class: parsed JSON bodies, query
    parameter values, toast messages.  An object is the list of its own
    enumerable properties in enumeration order (the order of [Object.keys]);
    numbers are the integer-valued ones, which is what the class compares
    statuses with and what it prints in paths and query strings. *)
#[warnings="-register-all"]
Inductive value : Type :=
| Undefined
| Null
| Bool (b : bool)
| Num (n : Z)
| Str (s : string)
| Arr (elems : list value)
| Obj (props : list (string * value)).

Definition obj := list (string * value).

(** An [Error] object, which is what the platform throws and rejects with;
    the class reads only its [message]. *)
Record exn : Type := mkExn { name : string; message : string }.

Definition TypeError (m : string) : exn := mkExn "TypeError" m.
Definition Error (m : string) : exn := mkExn "Error" m.

(** Result of an evaluation that may throw. *)
Inductive outcome (A : Type) : Type :=
| Return (a : A)
| Throw (e : exn).
Arguments Return {A} a.
Arguments Throw {A} e.

(** Property lookup in a record: the first (only) entry under the key. *)
Fixpoint lookup {A : Type} (k : string) (o : list (string * A)) : option A :=
  match o with
  | [] => None
  | (k', v) :: o' => if String.eqb k k' then Some v else lookup k o'
  end.

Definition keys {A : Type} (o : list (string * A)) : list string := map fst o.

(** ToString of an integer-valued number (of magnitude below 10^21, where
    JavaScript prints the plain decimal digits). *)
Definition string_of_Z (n : Z) : string := NilZero.string_of_int (Z.to_int n).

(** ToString, as performed by string concatenation and template literals. *)
Fixpoint to_string (v : value) : string :=
  match v with
  | Undefined => "undefined"
  | Null => "null"
  | Bool true => "true"
  | Bool false => "false"
  | Num n => string_of_Z n
  | Str s => s
  | Arr l =>
      Str.join ","
        (map (fun x => match x with
                       | Undefined | Null => ""
                       | _ => to_string x
                       end) l)
  | Obj _ => "[object Object]"
  end.

(** ToBoolean. *)
Definition truthy (v : value) : bool :=
  match v with
  | Undefined | Null => false
  | Bool b => b
  | Num n => negb (Z.eqb n 0)
  | Str s => negb (Str.is_empty s)
  | Arr _ | Obj _ => true
  end.

(** [v !== undefined && v !== null]. *)
Definition not_nullish (v : value) : bool :=
  match v with
  | Undefined | Null => false
  | _ => true
  end.

(** [v === n] for a number literal [n]. *)
Definition is_num (v : value) (n : Z) : bool :=
  match v with
  | Num m => Z.eqb m n
  | _ => false
  end.

(** Canonical array index denoted by a property key, if any. *)
Definition index_of_key (k : string) : option nat :=
  match NilZero.uint_of_string k with
  | Some d =>
      let n := Nat.of_uint d in
      if String.eqb (string_of_Z (Z.of_nat n)) k then Some n else None
  | None => None
  end.

Definition opt_value (o : option value) : value :=
  match o with Some v => v | None => Undefined end.

(** The one-character string at position [i] of [s], or [undefined]. *)
Definition char_at (s : string) (i : nat) : value :=
  match String.get i s with
  | Some c => Str (String c EmptyString)
  | None => Undefined
  end.

(** [v[k]] for a property key [k] other than [length] and the inherited
    method names: reading a property of [undefined] or [null] throws (the
    message is worded as V8 words it), a primitive or an array has only its
    indices. *)
Definition get_prop (v : value) (k : string) : outcome value :=
  match v with
  | Undefined =>
      Throw (TypeError ("Cannot read properties of undefined (reading '" ++ k ++ "')"))
  | Null =>
      Throw (TypeError ("Cannot read properties of null (reading '" ++ k ++ "')"))
  | Bool _ | Num _ => Return Undefined
  | Str s =>
      Return (match index_of_key k with
              | Some i => char_at s i
              | None => Undefined
              end)
  | Arr l =>
      Return (match index_of_key k with
              | Some i => opt_value (nth_error l i)
              | None => Undefined
              end)
  | Obj o => Return (opt_value (lookup k o))
  end.

(** [v?.k]. *)
Definition get_prop_opt (v : value) (k : string) : value :=
  match get_prop v k with
  | Return x => x
  | Throw _ => Undefined
  end.

(** [Object.keys(v)] of a value that is not [undefined] or [null]. *)
Definition object_keys (v : value) : list string :=
  match v with
  | Obj o => keys o
  | Arr l => map (fun i => string_of_Z (Z.of_nat i)) (seq 0 (List.length l))
  | Str s => map (fun i => string_of_Z (Z.of_nat i)) (seq 0 (String.length s))
  | _ => []
  end.

(** [v[k]] where the key [k] is itself a value (ToPropertyKey). *)
Definition get_elem (v k : value) : outcome value := get_prop v (to_string k).

End JS.

(** ** The Fetch platform: [Headers], [RequestInit], [Response] *)

Import JS.

(** The [Headers] class of the Fetch standard. *)
Module Headers.

Definition code (c : ascii) : nat := nat_of_ascii c.

(** HTTP whitespace: tab, line feed, carriage return, space. *)
Definition is_http_whitespace (c : ascii) : bool :=
  let n := code c in
  Nat.eqb n 9 || Nat.eqb n 10 || Nat.eqb n 13 || Nat.eqb n 32.

Definition is_alphanum (c : ascii) : bool :=
  let n := code c in
  (Nat.leb 48 n && Nat.leb n 57) || (Nat.leb 65 n && Nat.leb n 90)
  || (Nat.leb 97 n && Nat.leb n 122).

(** A token character of a field name. *)
Definition is_token_char (c : ascii) : bool :=
  is_alphanum c || Str.includes "!#$%&'*+-.^_`|~" (String c EmptyString).

Definition is_header_name (s : string) : bool :=
  negb (Str.is_empty s) && Str.forallb is_token_char s.

(** Normalising a value strips leading and trailing HTTP whitespace. *)
Definition normalize (v : string) : string :=
  Str.rev (Str.drop_while is_http_whitespace
             (Str.rev (Str.drop_while is_http_whitespace v))).

(** A normalised value is a header value when it has no NUL, LF or CR. *)
Definition is_header_value (v : string) : bool :=
  Str.forallb (fun c => let n := code c in
                        negb (Nat.eqb n 0 || Nat.eqb n 10 || Nat.eqb n 13)) v.

(** The header list of a [Headers] object, in insertion order. *)
Definition t := list (string * string).

(** Header names match byte-case-insensitively. *)
Definition name_eq (a b : string) : bool :=
  String.eqb (Str.lower a) (Str.lower b).

Definition matches (name : string) (h : string * string) : bool :=
  name_eq (fst h) name.

(** [headers.append(name, value)] on a [Headers] object with guard "none":
    an invalid name or value throws; otherwise the pair is added at the end
    of the list, under the spelling of the first header of the same name. *)
Definition append (l : t) (name value : string) : outcome t :=
  let value := normalize value in
  if is_header_name name && is_header_value value then
    let name :=
      match find (matches name) l with
      | Some (first, _) => first
      | None => name
      end in
    Return (l ++ [(name, value)])%list
  else Throw (TypeError "Failed to execute 'append' on 'Headers': Invalid name or value").

(** [headers.delete(name)]: removes every header of that name. *)
Definition delete (l : t) (name : string) : outcome t :=
  if is_header_name name then
    Return (filter (fun h => negb (matches name h)) l)
  else Throw (TypeError "Failed to execute 'delete' on 'Headers': Invalid name").

(** The values stored under a name, in insertion order. *)
Definition values (l : t) (name : string) : list string :=
  map snd (filter (matches name) l).

(** [headers.get(name)] of a valid name: the values of all headers of that
    name joined by a comma and a space, or [null] when there is none. *)
Definition get (l : t) (name : string) : option string :=
  match values l name with
  | [] => None
  | vs => Some (Str.join ", " vs)
  end.

End Headers.

(** A multipart form payload; its fields are opaque to the class. *)
Inductive FormData : Type := mkFormData (fields : list (string * string)).

Inductive BodyInit : Type :=
| BodyFormData (fd : FormData)
| BodyString (s : string).

Inductive Method : Type := GET | POST | PUT | PATCH | DELETE.

(** The [options] object handed to [fetch]. *)
Record RequestInit : Type := mkRequestInit {
  method : Method;
  headers : Headers.t;
  body : option BodyInit
}.

(** A response, as far as the class uses it: [response.json()] resolves
    with the parsed body or rejects. *)
Record Response : Type := mkResponse { json : unit -> outcome value }.

(** ** Effects of a call *)

Inductive ToastType : Type := success | error.

(** What one call does to the outside world, in order. *)
Inductive event : Type :=
| Toast (type : ToastType) (message : value)
| DynamicHeaders
| Stringify (body : value)
| FetchCall (url : string) (options : RequestInit)
| JsonCall.

(** A computation: the events it performed and how it ended.  A rejected
    promise of an [async] function is a [Throw]. *)
Definition M (A : Type) : Type := list event * outcome A.

Definition ret {A : Type} (a : A) : M A := ([], Return a).

Definition emit (ev : event) : M unit := ([ev], Return tt).

Definition lift {A : Type} (o : outcome A) : M A := ([], o).

Definition bind {A B : Type} (m : M A) (k : A -> M B) : M B :=
  match m with
  | (t, Return a) => let (t', r) := k a in ((t ++ t')%list, r)
  | (t, Throw e) => (t, Throw e)
  end.

(** [try { m } catch (e) { handler e }]. *)
Definition try_catch {A : Type} (m : M A) (handler : exn -> M A) : M A :=
  match m with
  | (t, Return a) => (t, Return a)
  | (t, Throw e) => let (t', r) := handler e in ((t ++ t')%list, r)
  end.

Notation "x <- m ;; k" := (bind m (fun x => k))
  (at level 61, m at next level, right associativity).
Notation "m ;;; k" := (bind m (fun _ => k))
  (at level 61, right associativity).

Definition trace {A : Type} (m : M A) : list event := fst m.
Definition result {A : Type} (m : M A) : outcome A := snd m.

Definition is_toast (ev : event) : bool :=
  match ev with Toast _ _ => true | _ => false end.

Definition is_fetch (ev : event) : bool :=
  match ev with FetchCall _ _ => true | _ => false end.

Definition is_stringify (ev : event) : bool :=
  match ev with Stringify _ => true | _ => false end.

(** ** The class *)

Record AppOperationRequest : Type := mkRequest {
  req_method : string;
  url : string
}.

(** The platform functions the class calls. *)
Record Platform : Type := mkPlatform {
  JSON_stringify : value -> outcome string;
  fetch : string -> RequestInit -> outcome Response
}.

(** The fields of an [AppOperation] object.  The resolver and the handler
    are taken at their declared signatures: a call to them returns.  (For
    callbacks that throw see the module [Full].) *)
Record AppOperation : Type := mkAppOperation {
  baseUrl : string;
  requests : list (string * AppOperationRequest);
  staticHeaders : list (string * string);
  getDynamicHeaders : option (unit -> option (list (string * string)));
  showToast : option (ToastType -> value -> unit)
}.

(** The [body] argument: a [FormData] or another object. *)
Inductive Body : Type :=
| FormBody (fd : FormData)
| ObjectBody (v : value).

Inductive Id : Type :=
| IdNumber (n : Z)
| IdString (s : string).

Definition string_of_id (i : Id) : string :=
  match i with
  | IdNumber n => string_of_Z n
  | IdString s => s
  end.

(** The argument object of [getRequest]; an absent field is [None]. *)
Record Args : Type := mkArgs {
  arg_body : option Body;
  arg_params : option obj;
  arg_id : option Id;
  request : string;
  arg_suppressToast : option bool;
  arg_pathExtension : option string
}.

(** A parameter default: [x = d] in a parameter list. *)
Definition default {A : Type} (d : A) (x : option A) : A :=
  match x with Some a => a | None => d end.

Section Class.

Variable P : Platform.
Variable this : AppOperation.

(** [this.showToast?.(type, message)]. *)
Definition toast (type : ToastType) (message : value) : M unit :=
  match showToast this with
  | Some handler => let _ := handler type message in emit (Toast type message)
  | None => ret tt
  end.

(** [Object.entries(record).forEach(([key, value]) => headers.append(key, value))]. *)
Fixpoint append_all (headers : Headers.t) (record : list (string * string))
  : outcome Headers.t :=
  match record with
  | [] => Return headers
  | (key, value) :: rest =>
      match Headers.append headers key value with
      | Return headers' => append_all headers' rest
      | Throw e => Throw e
      end
  end.

(** The [forEach] over the retained keys: the first one is introduced by
    [?], every later one by [&]. *)
Fixpoint appendParams (params : obj) (ks : list string) (i : nat)
    (parsedParams : string) : string :=
  match ks with
  | [] => parsedParams
  | key :: ks' =>
      let v := to_string (opt_value (lookup key params)) in
      appendParams params ks' (S i)
        (parsedParams ++
           (if Nat.eqb i 0 then "?" ++ key ++ "=" ++ v
            else "&" ++ key ++ "=" ++ v))
  end.

(** The query string built from [params]. *)
Definition parseParams (params : obj) : string :=
  appendParams params
    (filter (fun key => not_nullish (opt_value (lookup key params)))
            (keys params))
    0 "".

(** The toasts decided from a parsed body. *)
Definition notify (suppressToast : bool) (data : value) : M unit :=
  (if negb suppressToast then
     status <- lift (get_prop data "status") ;;
     if is_num status 200 || is_num status 201 then
       if truthy (get_prop_opt data "message") then
         message <- lift (get_prop data "message") ;;
         toast success message
       else ret tt
     else ret tt
   else ret tt) ;;;
  status <- lift (get_prop data "status") ;;
  if is_num status 422 && negb suppressToast then
    message <-
      (if truthy (get_prop_opt data "errors") then
         errors <- lift (get_prop data "errors") ;;
         let first := match object_keys errors with
                      | k :: _ => Str k
                      | [] => Undefined
                      end in
         entry <- lift (get_elem errors first) ;;
         lift (get_prop entry "0")
       else ret (get_prop_opt data "message")) ;;
    if truthy message then toast error message else ret tt
  else if is_num status 400 && negb suppressToast
          && truthy (get_prop_opt data "message") then
    message <- lift (get_prop data "message") ;;
    toast error message
  else if is_num status 500 && negb suppressToast
          && truthy (get_prop_opt data "message") then
    message <- lift (get_prop data "message") ;;
    toast error message
  else ret tt.

(** The user message chosen in the [catch] block. *)
Definition userMessage (errorMessage : string) : string :=
  if Str.includes errorMessage "Network request failed"
     || Str.includes errorMessage "Failed to fetch"
  then "Network error. Please check your connection."
  else if Str.includes errorMessage "JSON"
  then "Invalid response from server"
  else "Something went wrong".

(** The [catch] block. *)
Definition on_error (suppressToast : bool) (_error : exn) : M value :=
  let errorMessage :=
    if Str.is_empty (message _error) then "Unknown error"
    else message _error in
  (if negb suppressToast
   then toast error (Str (userMessage errorMessage))
   else ret tt) ;;;
  ret (Obj [("status", Num 500);
            ("message", Str (userMessage errorMessage));
            ("error", Str errorMessage)]).

(** Everything [sendRequest] does before the [try] block, once the base URL
    is known to be set: the headers, the options and the query string. *)
Definition prepare (method : Method) (params : option obj)
    (body : option Body) : M (RequestInit * string) :=
  headers <- lift (Headers.append [] "Content-Type" "application/json") ;;
  headers <- lift (append_all headers (staticHeaders this)) ;;
  dynamicHeaders <-
    match getDynamicHeaders this with
    | Some resolver => emit DynamicHeaders ;;; ret (default [] (resolver tt))
    | None => ret []
    end ;;
  headers <- lift (append_all headers dynamicHeaders) ;;
  options <-
    match body with
    | Some (FormBody fd) =>
        headers <- lift (Headers.delete headers "Content-Type") ;;
        headers <- lift (Headers.append headers "Content-Type" "multipart/form-data") ;;
        ret (mkRequestInit method headers (Some (BodyFormData fd)))
    | Some (ObjectBody v) =>
        if truthy v then
          emit (Stringify v) ;;;
          s <- lift (JSON_stringify P v) ;;
          ret (mkRequestInit method headers (Some (BodyString s)))
        else ret (mkRequestInit method headers None)
    | None => ret (mkRequestInit method headers None)
    end ;;
  let parsedParams :=
    match params with
    | Some params => parseParams params
    | None => ""
    end in
  ret (options, parsedParams).

(** The [try] block: the network call, the parse, the toasts. *)
Definition attempt (suppressToast : bool) (url : string)
    (options : RequestInit) (parsedParams : string) : M value :=
  let fullUrl := baseUrl this ++ url ++ parsedParams in
  response <- (emit (FetchCall fullUrl options) ;;;
               lift (fetch P fullUrl options)) ;;
  data <- (emit JsonCall ;;; lift (json response tt)) ;;
  notify suppressToast data ;;;
  ret data.

(** The low-level request handler. *)
Definition sendRequest (url : string) (method : Method)
    (suppressToast : option bool) (params : option obj) (body : option Body)
  : M value :=
  let suppressToast := default false suppressToast in
  if Str.is_empty (baseUrl this) then
    let errorMsg := "API base URL is not configured. Please set the baseUrl when constructing AppOperation." in
    (if negb suppressToast
     then toast error (Str "API configuration error")
     else ret tt) ;;;
    ret (Obj [("status", Num 500); ("message", Str errorMsg)])
  else
    prepared <- prepare method params body ;;
    let (options, parsedParams) := prepared in
    try_catch (attempt suppressToast url options parsedParams)
              (on_error suppressToast).

(** The convenience wrappers. *)
Definition delete (url : string) (suppressToast : option bool) : M value :=
  sendRequest url DELETE suppressToast None None.

Definition get (url : string) (params : option obj) : M value :=
  sendRequest url GET (Some true) params None.

Definition patch (url : string) (body : option Body)
    (suppressToast : option bool) : M value :=
  sendRequest url PATCH suppressToast None body.

Definition post (url : string) (body : option Body)
    (suppressToast : option bool) : M value :=
  sendRequest url POST suppressToast None body.

Definition put (url : string) (body : option Body)
    (suppressToast : option bool) : M value :=
  sendRequest url PUT suppressToast None body.

(** The property names every object inherits from [Object.prototype]:
    [this.requests[request]] is defined for them even when the registry has
    no such entry, and its [url] and [method] are then [undefined]. *)
Definition inherited_keys : list string :=
  ["constructor"; "__defineGetter__"; "__defineSetter__"; "hasOwnProperty";
   "__lookupGetter__"; "__lookupSetter__"; "isPrototypeOf";
   "propertyIsEnumerable"; "toString"; "valueOf"; "__proto__";
   "toLocaleString"].

(** The generic entry point. *)
Definition getRequest (a : Args) : M value :=
  let id := default (IdString "") (arg_id a) in
  let suppressToast := default false (arg_suppressToast a) in
  let pathExtension := default "" (arg_pathExtension a) in
  match lookup (request a) (requests this) with
  | Some entry =>
      let basePath := url entry ++ string_of_id id ++ pathExtension in
      if String.eqb (req_method entry) "DELETE" then
        delete basePath (Some suppressToast)
      else if String.eqb (req_method entry) "GET" then
        get basePath (arg_params a)
      else if String.eqb (req_method entry) "PATCH" then
        patch basePath (arg_body a) (Some suppressToast)
      else if String.eqb (req_method entry) "POST" then
        post basePath (arg_body a) (Some suppressToast)
      else if String.eqb (req_method entry) "PUT" then
        put basePath (arg_body a) (Some suppressToast)
      else
        lift (Throw (Error ("Unsupported method " ++ req_method entry)))
  | None =>
      if existsb (String.eqb (request a)) inherited_keys then
        lift (Throw (Error "Unsupported method undefined"))
      else
        lift (Throw (TypeError "Cannot read properties of undefined (reading 'url')"))
  end.

End Class.

(** ** The instance exported by the kit ([api.ts]) *)

Module Api.

Definition LOGIN : string := "login".
Definition GET_PROFILE : string := "get_profile".

Definition requests : list (string * AppOperationRequest) :=
  [(LOGIN, mkRequest "POST" "auth/login");
   (GET_PROFILE, mkRequest "GET" "profile/")].

(** [DEFAULT_API_URL] where the environment does not set
    [EXPO_PUBLIC_API_URL]; for the other environments see [Kit]. *)
Definition DEFAULT_API_URL : string := "https://example.com/api/v1/".

(** [appOperation], for a given value of the system key of such an
    environment. *)
Definition appOperation (DEFAULT_SYSTEM_KEY : option string) : AppOperation :=
  mkAppOperation DEFAULT_API_URL requests
    (match DEFAULT_SYSTEM_KEY with
     | Some key => if Str.is_empty key then [] else [("System-Key", key)]
     | None => []
     end)
    None None.

End Api.

(** ** Reading a trace *)

(** The network calls of a trace: URL and options of each [fetch]. *)
Fixpoint fetch_calls (t : list event) : list (string * RequestInit) :=
  match t with
  | [] => []
  | FetchCall u o :: t' => (u, o) :: fetch_calls t'
  | _ :: t' => fetch_calls t'
  end.

(** The notifications of a trace: the calls of the toast handler. *)
Definition toasts (t : list event) : list event := filter is_toast t.

(** The bodies [JSON.stringify] was called on. *)
Definition stringified (t : list event) : list event := filter is_stringify t.

(** Every event of a computation satisfies [Q]. *)
Definition all {A : Type} (Q : event -> Prop) (m : M A) : Prop :=
  Forall Q (trace m).

(** ** What the specification says, in its own words *)

(** [t] occurs inside [s]. *)
Definition contains (s t : string) : Prop :=
  exists a b, s = a ++ t ++ b.

(** "A leading [?key=value&key=value...] string, dropping nullish values,
    preserving iteration order, no URL-encoding performed." *)
Definition queryString (params : obj) : string :=
  match filter (fun kv => not_nullish (snd kv)) params with
  | [] => ""
  | kept =>
      "?" ++ Str.join "&"
               (map (fun kv => fst kv ++ "=" ++ to_string (snd kv)) kept)
  end.

(** The values a record of headers holds under a name, as they are stored. *)
Definition record_values (name : string) (record : list (string * string))
  : list string :=
  map (fun kv => Headers.normalize (snd kv))
      (filter (Headers.matches name) record).

(** The dynamic headers of a call. *)
Definition dynamicHeaders (this : AppOperation) : list (string * string) :=
  match getDynamicHeaders this with
  | Some resolver => default [] (resolver tt)
  | None => []
  end.

(** A record whose every entry [Headers.append] accepts. *)
Definition valid_headers (record : list (string * string)) : Prop :=
  Forall (fun kv => Headers.is_header_name (fst kv) = true /\
                    Headers.is_header_value (Headers.normalize (snd kv)) = true)
         record.

(** The five verbs [getRequest] dispatches on. *)
Definition supported (m : string) : Prop :=
  In m ["DELETE"; "GET"; "PATCH"; "POST"; "PUT"].

Definition with_body (a : Args) (b : option Body) : Args :=
  mkArgs b (arg_params a) (arg_id a) (request a) (arg_suppressToast a)
         (arg_pathExtension a).

Definition with_suppressToast (a : Args) (s : option bool) : Args :=
  mkArgs (arg_body a) (arg_params a) (arg_id a) (request a) s
         (arg_pathExtension a).

(** The path [getRequest] builds for a registry entry. *)
Definition basePath (entry : AppOperationRequest) (a : Args) : string :=
  url entry ++ string_of_id (default (IdString "") (arg_id a))
            ++ default "" (arg_pathExtension a).

(** The loop of [parseParams] unrolled: one [key=value] pair as it is
    printed. *)
Definition pair_of (params : obj) (key : string) : string :=
  key ++ "=" ++ to_string (opt_value (lookup key params)).

(** The pairs after the first, each introduced by [&]. *)
Fixpoint rest_of (l : list string) : string :=
  match l with
  | [] => ""
  | x :: l' => "&" ++ x ++ rest_of l'
  end.

(** ** Own properties of an object: assignment and [delete] *)

Module Object.

(** An array index: a canonical numeric string below 2^32 - 1.  Own
    properties whose keys are array indices are enumerated first, in
    ascending order; all other string keys follow in insertion order. *)
Definition array_index (k : string) : option N :=
  match NilZero.uint_of_string k with
  | Some d =>
      let n := N.of_uint d in
      if String.eqb (NilZero.string_of_uint (N.to_uint n)) k
         && N.ltb n 4294967295
      then Some n else None
  | None => None
  end.

(** [k] may be enumerated before [k']. *)
Definition precedes (k k' : string) : bool :=
  match array_index k, array_index k' with
  | Some n, Some n' => N.ltb n n'
  | Some _, None => true
  | None, Some _ => false
  | None, None => true
  end.

(** An object: distinct keys, listed in enumeration order. *)
Definition wf {A : Type} (o : list (string * A)) : Prop :=
  NoDup (keys o) /\
  StronglySorted (fun k k' => precedes k k' = true) (keys o).

(** Assignment to an existing property: it keeps its place. *)
Fixpoint update {A : Type} (key : string) (v : A) (o : list (string * A))
  : list (string * A) :=
  match o with
  | [] => []
  | (k, x) :: o' =>
      if String.eqb key k then (k, v) :: o' else (k, x) :: update key v o'
  end.

(** A new property whose key is the array index [n]: it goes before the
    first property that is not an array index or is a larger one. *)
Fixpoint insert_index {A : Type} (n : N) (key : string) (v : A)
    (o : list (string * A)) : list (string * A) :=
  match o with
  | [] => [(key, v)]
  | (k, x) :: o' =>
      match array_index k with
      | Some n' =>
          if N.ltb n n' then (key, v) :: o
          else (k, x) :: insert_index n key v o'
      | None => (key, v) :: o
      end
  end.

(** [o[key] = v] for a value [v] that is not an object, such as the string
    of a header.  Where [o] has no own property [__proto__], that key
    reaches the setter every object inherits, which ignores such a value. *)
Definition set {A : Type} (key : string) (v : A) (o : list (string * A))
  : list (string * A) :=
  match lookup key o with
  | Some _ => update key v o
  | None =>
      if String.eqb key "__proto__" then o
      else
        match array_index key with
        | Some n => insert_index n key v o
        | None => (o ++ [(key, v)])%list
        end
  end.

(** [delete o[key]]. *)
Definition remove {A : Type} (key : string) (o : list (string * A))
  : list (string * A) :=
  filter (fun kv => negb (String.eqb key (fst kv))) o.

End Object.

(** ** The constructor and the mutators of the class *)

(** The [options] argument of the constructor; an absent field is [None]. *)
Record Options : Type := mkOptions {
  opt_staticHeaders : option (list (string * string));
  opt_getDynamicHeaders : option (unit -> option (list (string * string)));
  opt_showToast : option (ToastType -> value -> unit)
}.

(** [new AppOperation(baseUrl, requests, options)]. *)
Definition constructor (baseUrl : string)
    (requests : list (string * AppOperationRequest))
    (options : option Options) : AppOperation :=
  mkAppOperation baseUrl requests
    (default []
       (match options with
        | Some o => opt_staticHeaders o
        | None => None
        end))
    (match options with
     | Some o => opt_getDynamicHeaders o
     | None => None
     end)
    (match options with
     | Some o => opt_showToast o
     | None => None
     end).

(** [this.staticHeaders[key] = value]. *)
Definition setStaticHeader (this : AppOperation) (key value : string)
  : AppOperation :=
  mkAppOperation (baseUrl this) (requests this)
    (Object.set key value (staticHeaders this))
    (getDynamicHeaders this) (showToast this).

(** [delete this.staticHeaders[key]]. *)
Definition deleteStaticHeader (this : AppOperation) (key : string)
  : AppOperation :=
  mkAppOperation (baseUrl this) (requests this)
    (Object.remove key (staticHeaders this))
    (getDynamicHeaders this) (showToast this).

(** [this.getDynamicHeaders = resolver]. *)
Definition setDynamicHeadersResolver (this : AppOperation)
    (resolver : unit -> option (list (string * string))) : AppOperation :=
  mkAppOperation (baseUrl this) (requests this) (staticHeaders this)
    (Some resolver) (showToast this).

(** [this.showToast = handler]. *)
Definition setToastHandler (this : AppOperation)
    (handler : ToastType -> value -> unit) : AppOperation :=
  mkAppOperation (baseUrl this) (requests this) (staticHeaders this)
    (getDynamicHeaders this) (Some handler).

(** ** More readings of a trace *)

(** The verb as the registry spells it. *)
Definition method_name (m : Method) : string :=
  match m with
  | GET => "GET"
  | POST => "POST"
  | PUT => "PUT"
  | PATCH => "PATCH"
  | DELETE => "DELETE"
  end.

Definition is_dynamic (ev : event) : bool :=
  match ev with DynamicHeaders => true | _ => false end.

Definition is_json (ev : event) : bool :=
  match ev with JsonCall => true | _ => false end.

(** The invocations of the dynamic-header resolver. *)
Definition resolver_calls (t : list event) : list event := filter is_dynamic t.

(** The calls of [response.json()]. *)
Definition json_calls (t : list event) : list event := filter is_json t.

(** The toast a handler, if there is one, is called with. *)
Definition shown (this : AppOperation) (type : ToastType) (message : value)
  : list event :=
  match showToast this with
  | Some _ => [Toast type message]
  | None => []
  end.

(** The text of a validation error, as the 422 branch computes it:
    [data?.errors ? data.errors[Object.keys(data.errors)[0]][0] : data?.message]. *)
Definition first_error (data : value) : outcome value :=
  let errors := get_prop_opt data "errors" in
  if truthy errors then
    match get_elem errors
            (match object_keys errors with
             | k :: _ => Str k
             | [] => Undefined
             end) with
    | Return entry => get_prop entry "0"
    | Throw e => Throw e
    end
  else Return (get_prop_opt data "message").

(** The statuses the toast logic reacts to. *)
Definition noted (status : value) : bool :=
  is_num status 200 || is_num status 201 || is_num status 400
  || is_num status 422 || is_num status 500.

(** ** Example platforms, objects and calls *)

Module Examples.

(** A platform whose server answers every request with [data]; its
    serialiser is only ever given the empty object. *)
Definition server (data : value) : Platform :=
  mkPlatform (fun _ => Return "{}")
             (fun _ _ => Return (mkResponse (fun _ => Return data))).

(** A platform whose [fetch] rejects with a [TypeError]. *)
Definition offline (m : string) : Platform :=
  mkPlatform (fun _ => Return "{}") (fun _ _ => Throw (TypeError m)).

(** The kit's registry behind an object that sets the language both as a
    static and as a dynamic header and has a toast handler. *)
Definition localized : AppOperation :=
  mkAppOperation Api.DEFAULT_API_URL Api.requests
    [("Accept-Language", "en")]
    (Some (fun _ => Some [("Accept-Language", "ku")]))
    (Some (fun _ _ => tt)).


(** [getRequest({ request })]. *)
Definition call (request : string) : Args :=
  mkArgs None None None request None None.

(** The options of the profile request of [localized]. *)
Definition profile_options : RequestInit :=
  mkRequestInit GET
    [("Content-Type", "application/json"); ("Accept-Language", "en");
     ("Accept-Language", "ku")]
    None.

(** The parameters of the specification's example. *)
Definition abc : obj := [("a", Num 1); ("b", Undefined); ("c", Str "y")].

(** The profile of user 7, with the parameters of the example. *)
Definition profile_call : Args :=
  mkArgs None (Some abc) (Some (IdNumber 7)) Api.GET_PROFILE None (Some "/x").

(** A login with an empty object as body, and what is sent for it. *)
Definition login_call : Args :=
  mkArgs (Some (ObjectBody (Obj []))) None None Api.LOGIN None None.

Definition login_options : RequestInit :=
  mkRequestInit POST
    [("Content-Type", "application/json"); ("Accept-Language", "en");
     ("Accept-Language", "ku")]
    (Some (BodyString "{}")).

(** A validation error without any field error. *)
Definition invalid : value :=
  Obj [("status", Num 422); ("message", Str "Invalid"); ("errors", Arr [])].

End Examples.

(** ** More platforms, objects and bodies *)

Module Cases.

(** A platform that cannot serialise the body it is given. *)
Definition unserialisable : Platform :=
  mkPlatform
    (fun _ => Throw (TypeError "Converting circular structure to JSON"))
    (fun _ _ => Return (mkResponse (fun _ => Return (Obj [])))).

(** The kit's registry behind an object with a toast handler and no
    headers of its own. *)
Definition plain : AppOperation :=
  mkAppOperation Api.DEFAULT_API_URL Api.requests [] None
                 (Some (fun _ _ => tt)).

(** An object whose static header has a space in its name. *)
Definition misnamed : AppOperation :=
  mkAppOperation Api.DEFAULT_API_URL Api.requests [("System Key", "k")]
                 None None.

(** An object that configures a Content-Type of its own. *)
Definition texty : AppOperation :=
  mkAppOperation Api.DEFAULT_API_URL Api.requests
                 [("content-type", "text/plain")] None None.

(** An object whose registry spells a verb in lower case. *)
Definition lowercase : AppOperation :=
  mkAppOperation Api.DEFAULT_API_URL [("ping", mkRequest "get" "ping")]
                 [] None None.

Definition json_headers : Headers.t := [("Content-Type", "application/json")].

(** What [plain] sends for a login with the empty object as body. *)
Definition login_request : RequestInit :=
  mkRequestInit POST json_headers (Some (BodyString "{}")).

Definition login_url : string := "https://example.com/api/v1/auth/login".

Definition empty_body : option Body := Some (ObjectBody (Obj [])).

Definition upload : FormData := mkFormData [("avatar", "me.png")].

Definition answer (data : value) : Response :=
  mkResponse (fun _ => Return data).

Definition welcome : value :=
  Obj [("status", Num 200); ("message", Str "Welcome")].




Definition not_found : value :=
  Obj [("status", Num 404); ("message", Str "Not found")].

End Cases.

(** ** The class when callbacks throw and anything is thrown

    The class above takes the resolver and the toast handler at their
    declared signatures and the thrown values as [Error] objects.  JavaScript
    holds a callback to neither: a handler or a resolver may throw, and
    [fetch] or [response.json()] may reject with any value.  This module
    embeds [sendRequest] and [getRequest] once more with exactly that
    freedom; [up_getRequest] below shows that the class above is this one
    restricted to callbacks that return and to thrown [Error] objects. *)

Module Full.

(** How an evaluation ends: normally, or abruptly with the value thrown. *)
Inductive completion (A : Type) : Type :=
| Normal (a : A)
| Abrupt (thrown : value).
Arguments Normal {A} a.
Arguments Abrupt {A} thrown.

(** An [Error] object as a value. *)
Definition of_exn (e : exn) : value :=
  Obj [("name", Str (name e)); ("message", Str (message e))].

(** An operation of the platform model that throws an [Error]. *)
Definition raise {A : Type} (o : outcome A) : completion A :=
  match o with
  | Return a => Normal a
  | Throw e => Abrupt (of_exn e)
  end.

Definition M (A : Type) : Type := list event * completion A.

Definition ret {A : Type} (a : A) : M A := ([], Normal a).

Definition emit (ev : event) : M unit := ([ev], Normal tt).

Definition lift {A : Type} (c : completion A) : M A := ([], c).

Definition bind {A B : Type} (m : M A) (k : A -> M B) : M B :=
  match m with
  | (t, Normal a) => let (t', r) := k a in ((t ++ t')%list, r)
  | (t, Abrupt v) => (t, Abrupt v)
  end.

(** [try { m } catch (e) { handler e }]. *)
Definition try_catch {A : Type} (m : M A) (handler : value -> M A) : M A :=
  match m with
  | (t, Normal a) => (t, Normal a)
  | (t, Abrupt v) => let (t', r) := handler v in ((t ++ t')%list, r)
  end.

Notation "x <~ m ;; k" := (bind m (fun x => k))
  (at level 61, m at next level, right associativity).
Notation "m ;;~ k" := (bind m (fun _ => k))
  (at level 61, right associativity).

Definition trace {A : Type} (m : M A) : list event := fst m.
Definition result {A : Type} (m : M A) : completion A := snd m.

Record Response : Type := mkResponse { json : unit -> completion value }.

Record Platform : Type := mkPlatform {
  JSON_stringify : value -> completion string;
  fetch : string -> RequestInit -> completion Response
}.

(** The fields of an [AppOperation] object; a call of the resolver or of the
    handler returns or throws. *)
Record AppOperation : Type := mkAppOperation {
  baseUrl : string;
  requests : list (string * AppOperationRequest);
  staticHeaders : list (string * string);
  getDynamicHeaders : option (unit -> completion (option (list (string * string))));
  showToast : option (ToastType -> value -> completion unit)
}.

(** [errorMessage.includes(searchString)]: strings and arrays have the
    method; on any other value (none of which holds a function) the call
    throws. *)
Definition includes (errorMessage : value) (searchString : string)
  : completion bool :=
  match errorMessage with
  | Str s => Normal (Str.includes s searchString)
  | Arr l =>
      Normal (existsb (fun x => match x with
                                | Str s => String.eqb s searchString
                                | _ => false
                                end) l)
  | _ => Abrupt (of_exn (TypeError "errorMessage.includes is not a function"))
  end.

(** [_error?.message || "Unknown error"]. *)
Definition errorMessage (_error : value) : value :=
  if truthy (get_prop_opt _error "message")
  then get_prop_opt _error "message"
  else Str "Unknown error".

(** The user message chosen in the [catch] block, where choosing it does
    not throw. *)
Definition userMessage (errorMessage : value) : completion string :=
  match includes errorMessage "Network request failed" with
  | Abrupt v => Abrupt v
  | Normal true => Normal "Network error. Please check your connection."
  | Normal false =>
      match includes errorMessage "Failed to fetch" with
      | Abrupt v => Abrupt v
      | Normal true => Normal "Network error. Please check your connection."
      | Normal false =>
          match includes errorMessage "JSON" with
          | Abrupt v => Abrupt v
          | Normal true => Normal "Invalid response from server"
          | Normal false => Normal "Something went wrong"
          end
      end
  end.

Section Class.

Variable P : Platform.
Variable this : AppOperation.

(** [this.showToast?.(type, message)]. *)
Definition toast (type : ToastType) (message : value) : M unit :=
  match showToast this with
  | Some handler => emit (Toast type message) ;;~ lift (handler type message)
  | None => ret tt
  end.

(** The toasts decided from a parsed body. *)
Definition notify (suppressToast : bool) (data : value) : M unit :=
  (if negb suppressToast then
     status <~ lift (raise (get_prop data "status")) ;;
     if is_num status 200 || is_num status 201 then
       if truthy (get_prop_opt data "message") then
         message <~ lift (raise (get_prop data "message")) ;;
         toast success message
       else ret tt
     else ret tt
   else ret tt) ;;~
  status <~ lift (raise (get_prop data "status")) ;;
  if is_num status 422 && negb suppressToast then
    message <~
      (if truthy (get_prop_opt data "errors") then
         errors <~ lift (raise (get_prop data "errors")) ;;
         let first := match object_keys errors with
                      | k :: _ => Str k
                      | [] => Undefined
                      end in
         entry <~ lift (raise (get_elem errors first)) ;;
         lift (raise (get_prop entry "0"))
       else ret (get_prop_opt data "message")) ;;
    if truthy message then toast error message else ret tt
  else if is_num status 400 && negb suppressToast
          && truthy (get_prop_opt data "message") then
    message <~ lift (raise (get_prop data "message")) ;;
    toast error message
  else if is_num status 500 && negb suppressToast
          && truthy (get_prop_opt data "message") then
    message <~ lift (raise (get_prop data "message")) ;;
    toast error message
  else ret tt.

(** The [catch] block. *)
Definition on_error (suppressToast : bool) (_error : value) : M value :=
  let errorMessage := errorMessage _error in
  userMessage <~ lift (userMessage errorMessage) ;;
  (if negb suppressToast
   then toast error (Str userMessage)
   else ret tt) ;;~
  ret (Obj [("status", Num 500);
            ("message", Str userMessage);
            ("error", errorMessage)]).

(** Everything [sendRequest] does before the [try] block, once the base URL
    is known to be set. *)
Definition prepare (method : Method) (params : option obj)
    (body : option Body) : M (RequestInit * string) :=
  headers <~ lift (raise (Headers.append [] "Content-Type" "application/json")) ;;
  headers <~ lift (raise (append_all headers (staticHeaders this))) ;;
  dynamicHeaders <~
    match getDynamicHeaders this with
    | Some resolver =>
        emit DynamicHeaders ;;~
        returned <~ lift (resolver tt) ;;
        ret (default [] returned)
    | None => ret []
    end ;;
  headers <~ lift (raise (append_all headers dynamicHeaders)) ;;
  options <~
    match body with
    | Some (FormBody fd) =>
        headers <~ lift (raise (Headers.delete headers "Content-Type")) ;;
        headers <~ lift (raise (Headers.append headers "Content-Type" "multipart/form-data")) ;;
        ret (mkRequestInit method headers (Some (BodyFormData fd)))
    | Some (ObjectBody v) =>
        if truthy v then
          emit (Stringify v) ;;~
          s <~ lift (JSON_stringify P v) ;;
          ret (mkRequestInit method headers (Some (BodyString s)))
        else ret (mkRequestInit method headers None)
    | None => ret (mkRequestInit method headers None)
    end ;;
  let parsedParams :=
    match params with
    | Some params => parseParams params
    | None => ""
    end in
  ret (options, parsedParams).

(** The [try] block: the network call, the parse, the toasts. *)
Definition attempt (suppressToast : bool) (url : string)
    (options : RequestInit) (parsedParams : string) : M value :=
  let fullUrl := baseUrl this ++ url ++ parsedParams in
  response <~ (emit (FetchCall fullUrl options) ;;~
               lift (fetch P fullUrl options)) ;;
  data <~ (emit JsonCall ;;~ lift (json response tt)) ;;
  notify suppressToast data ;;~
  ret data.

(** The low-level request handler. *)
Definition sendRequest (url : string) (method : Method)
    (suppressToast : option bool) (params : option obj) (body : option Body)
  : M value :=
  let suppressToast := default false suppressToast in
  if Str.is_empty (baseUrl this) then
    let errorMsg := "API base URL is not configured. Please set the baseUrl when constructing AppOperation." in
    (if negb suppressToast
     then toast error (Str "API configuration error")
     else ret tt) ;;~
    ret (Obj [("status", Num 500); ("message", Str errorMsg)])
  else
    prepared <~ prepare method params body ;;
    let (options, parsedParams) := prepared in
    try_catch (attempt suppressToast url options parsedParams)
              (on_error suppressToast).

(** The convenience wrappers. *)
Definition delete (url : string) (suppressToast : option bool) : M value :=
  sendRequest url DELETE suppressToast None None.

Definition get (url : string) (params : option obj) : M value :=
  sendRequest url GET (Some true) params None.

Definition patch (url : string) (body : option Body)
    (suppressToast : option bool) : M value :=
  sendRequest url PATCH suppressToast None body.

Definition post (url : string) (body : option Body)
    (suppressToast : option bool) : M value :=
  sendRequest url POST suppressToast None body.

Definition put (url : string) (body : option Body)
    (suppressToast : option bool) : M value :=
  sendRequest url PUT suppressToast None body.

(** The generic entry point. *)
Definition getRequest (a : Args) : M value :=
  let id := default (IdString "") (arg_id a) in
  let suppressToast := default false (arg_suppressToast a) in
  let pathExtension := default "" (arg_pathExtension a) in
  match lookup (request a) (requests this) with
  | Some entry =>
      let basePath := url entry ++ string_of_id id ++ pathExtension in
      if String.eqb (req_method entry) "DELETE" then
        delete basePath (Some suppressToast)
      else if String.eqb (req_method entry) "GET" then
        get basePath (arg_params a)
      else if String.eqb (req_method entry) "PATCH" then
        patch basePath (arg_body a) (Some suppressToast)
      else if String.eqb (req_method entry) "POST" then
        post basePath (arg_body a) (Some suppressToast)
      else if String.eqb (req_method entry) "PUT" then
        put basePath (arg_body a) (Some suppressToast)
      else
        lift (raise (Throw (Error ("Unsupported method " ++ req_method entry))))
  | None =>
      if existsb (String.eqb (request a)) inherited_keys then
        lift (raise (Throw (Error "Unsupported method undefined")))
      else
        lift (raise (Throw (TypeError "Cannot read properties of undefined (reading 'url')")))
  end.

End Class.

(** [this.showToast = handler]. *)
Definition setToastHandler (this : AppOperation)
    (handler : ToastType -> value -> completion unit) : AppOperation :=
  mkAppOperation (baseUrl this) (requests this) (staticHeaders this)
    (getDynamicHeaders this) (Some handler).

(** Every event of a computation satisfies [Q]. *)
Definition all {A : Type} (Q : event -> Prop) (m : M A) : Prop :=
  Forall Q (trace m).

(** A value that has an [includes] method: a string or an array. *)
Definition searchable (v : value) : Prop :=
  match v with
  | Str _ | Arr _ => True
  | _ => False
  end.

(** A handler that returns from every call. *)
Definition handler_returns (this : AppOperation) : Prop :=
  forall handler type message,
    showToast this = Some handler -> handler type message = Normal tt.


End Full.

(** ** From the class whose callbacks return to the one where they throw *)

Definition up {A : Type} (m : M A) : Full.M A := (fst m, Full.raise (snd m)).

Definition up_response (r : Response) : Full.Response :=
  Full.mkResponse (fun u => Full.raise (json r u)).

Definition up_platform (P : Platform) : Full.Platform :=
  Full.mkPlatform
    (fun v => Full.raise (JSON_stringify P v))
    (fun u o =>
       match fetch P u o with
       | Return r => Full.Normal (up_response r)
       | Throw e => Full.Abrupt (Full.of_exn e)
       end).

Definition up_object (this : AppOperation) : Full.AppOperation :=
  Full.mkAppOperation (baseUrl this) (requests this) (staticHeaders this)
    (match getDynamicHeaders this with
     | Some resolver => Some (fun u => Full.Normal (resolver u))
     | None => None
     end)
    (match showToast this with
     | Some handler => Some (fun type message => Full.Normal (handler type message))
     | None => None
     end).

(** ** Callbacks that throw, rejections that are no [Error] *)

Module Throwing.

(** A platform whose [fetch] rejects with [thrown]. *)
Definition rejecting (thrown : value) : Full.Platform :=
  Full.mkPlatform (fun _ => Full.Normal "{}") (fun _ _ => Full.Abrupt thrown).

Definition no_container : value :=
  Full.of_exn (Error "Toast container is not mounted").

(** The kit's registry behind an object whose handler throws. *)
Definition touchy : Full.AppOperation :=
  Full.mkAppOperation Api.DEFAULT_API_URL Api.requests [] None
    (Some (fun _ _ => Full.Abrupt no_container)).

(** The same object constructed with an empty base URL. *)
Definition touchy_unconfigured : Full.AppOperation :=
  Full.mkAppOperation "" Api.requests [] None
    (Some (fun _ _ => Full.Abrupt no_container)).

(** An object whose handler throws on a success toast only. *)
Definition fussy : Full.AppOperation :=
  Full.mkAppOperation Api.DEFAULT_API_URL Api.requests [] None
    (Some (fun type _ =>
             match type with
             | success => Full.Abrupt no_container
             | error => Full.Normal tt
             end)).

(** An object whose resolver throws. *)
Definition signed_out : Full.AppOperation :=
  Full.mkAppOperation Api.DEFAULT_API_URL Api.requests [] 
    (Some (fun _ => Full.Abrupt (Full.of_exn (Error "No session"))))
    (Some (fun _ _ => Full.Normal tt)).

(** A rejection [{ message: 404 }]. *)
Definition status_only : value := Obj [("message", Num 404)].

End Throwing.

(** ** The exported instance in its environment *)

(** The two variables of [process.env] that [api.ts] reads; an unset
    variable is [None]. *)
Record Env : Type := mkEnv {
  EXPO_PUBLIC_API_URL : option string;
  EXPO_PUBLIC_SYSTEM_KEY : option string
}.

Module Kit.

(** [process.env.EXPO_PUBLIC_API_URL ?? "https://example.com/api/v1/"]. *)
Definition DEFAULT_API_URL (env : Env) : string :=
  default "https://example.com/api/v1/" (EXPO_PUBLIC_API_URL env).

Definition DEFAULT_SYSTEM_KEY (env : Env) : option string :=
  EXPO_PUBLIC_SYSTEM_KEY env.

(** [new AppOperation(DEFAULT_API_URL, requests, { staticHeaders: ... })]. *)
Definition appOperation (env : Env) : AppOperation :=
  constructor (DEFAULT_API_URL env) Api.requests
    (Some (mkOptions
             (Some (match DEFAULT_SYSTEM_KEY env with
                    | Some key =>
                        if Str.is_empty key then [] else [("System-Key", key)]
                    | None => []
                    end))
             None None)).

(** An environment that overrides the URL and sets the key. *)
Definition staging : Env :=
  mkEnv (Some "https://staging.example.com/") (Some "abc").

(** An environment whose URL variable is set to the empty string. *)
Definition blank : Env := mkEnv (Some "") (Some "abc").

End Kit.

(** ** Strings: [includes] decides [contains] *)

Lemma prefix_contains (t s : string) :
  String.prefix t s = true -> exists b, s = t ++ b.
Proof.
  revert s; induction t as [|c t IH]; intros s H.
  - exists s; reflexivity.
  - destruct s as [|d s]; simpl in H; [discriminate|].
    destruct (Ascii.ascii_dec c d) as [->|]; [|discriminate].
    destruct (IH s H) as [b ->]. exists b; reflexivity.
Qed.

Lemma prefix_app (t b : string) : String.prefix t (t ++ b) = true.
Proof.
  induction t as [|c t IH]; simpl.
  - destruct b; reflexivity.
  - destruct (Ascii.ascii_dec c c); [exact IH|congruence].
Qed.

Lemma includes_contains (s t : string) :
  Str.includes s t = true <-> contains s t.
Proof.
  split.
  - induction s as [|c s IH]; cbn [Str.includes]; intros H.
    + apply orb_true_iff in H as [H|H]; [|discriminate].
      apply prefix_contains in H as [b ->]. exists "", b; reflexivity.
    + apply orb_true_iff in H as [H|H].
      * apply prefix_contains in H as [b ->]. exists "", b; reflexivity.
      * destruct (IH H) as (a & b & ->). exists (String c a), b; reflexivity.
  - intros (a & b & ->). induction a as [|c a IH].
    + change ("" ++ t ++ b) with (t ++ b).
      destruct (t ++ b) eqn:E; cbn [Str.includes];
        rewrite <- E, prefix_app; reflexivity.
    + change (String c a ++ t ++ b) with (String c (a ++ t ++ b)).
      cbn [Str.includes]. rewrite IH. apply orb_true_r.
Qed.

Lemma includes_not_contains (s t : string) :
  Str.includes s t = false <-> ~ contains s t.
Proof.
  rewrite <- includes_contains. destruct (Str.includes s t); split; congruence.
Qed.

(** ** Computations and their traces *)

Lemma trace_bind {A B : Type} (m : M A) (k : A -> M B) :
  trace (bind m k) =
  (trace m ++ match result m with
              | Return a => trace (k a)
              | Throw _ => []
              end)%list.
Proof.
  destruct m as [t [a|e]]; simpl.
  - destruct (k a); reflexivity.
  - symmetry; apply app_nil_r.
Qed.

Lemma result_bind {A B : Type} (m : M A) (k : A -> M B) :
  result (bind m k) =
  match result m with
  | Return a => result (k a)
  | Throw e => Throw e
  end.
Proof.
  destruct m as [t [a|e]]; simpl; [destruct (k a)|]; reflexivity.
Qed.

Lemma trace_try_catch {A : Type} (m : M A) (h : exn -> M A) :
  trace (try_catch m h) =
  (trace m ++ match result m with
              | Return _ => []
              | Throw e => trace (h e)
              end)%list.
Proof.
  destruct m as [t [a|e]]; simpl.
  - symmetry; apply app_nil_r.
  - destruct (h e); reflexivity.
Qed.

Lemma result_try_catch {A : Type} (m : M A) (h : exn -> M A) :
  result (try_catch m h) =
  match result m with
  | Return a => Return a
  | Throw e => result (h e)
  end.
Proof.
  destruct m as [t [a|e]]; simpl; [|destruct (h e)]; reflexivity.
Qed.

Lemma emit_lift {A : Type} (ev : event) (o : outcome A) :
  (emit ev ;;; lift o) = ([ev], o).
Proof. reflexivity. Qed.

Lemma trace_pair {A : Type} (t : list event) (o : outcome A) :
  trace (t, o) = t.
Proof. reflexivity. Qed.

Lemma result_pair {A : Type} (t : list event) (o : outcome A) :
  result (t, o) = o.
Proof. reflexivity. Qed.

Lemma trace_lift {A : Type} (o : outcome A) : trace (lift o) = [].
Proof. reflexivity. Qed.

Lemma result_lift {A : Type} (o : outcome A) : result (lift o) = o.
Proof. reflexivity. Qed.

Lemma fetch_calls_app (t1 t2 : list event) :
  fetch_calls (t1 ++ t2) = (fetch_calls t1 ++ fetch_calls t2)%list.
Proof.
  induction t1 as [|ev t1 IH]; simpl; [reflexivity|].
  destruct ev; simpl; rewrite IH; reflexivity.
Qed.

Lemma fetch_calls_In (t : list event) (u : string) (o : RequestInit) :
  In (FetchCall u o) t <-> In (u, o) (fetch_calls t).
Proof.
  induction t as [|ev t IH]; simpl; [tauto|].
  destruct ev; simpl; rewrite <- IH; split; intros H;
    try (destruct H as [H|H]); try discriminate;
    try (inversion H; subst); auto.
Qed.

Lemma toasts_app (t1 t2 : list event) :
  toasts (t1 ++ t2) = (toasts t1 ++ toasts t2)%list.
Proof. apply filter_app. Qed.

Lemma stringified_app (t1 t2 : list event) :
  stringified (t1 ++ t2) = (stringified t1 ++ stringified t2)%list.
Proof. apply filter_app. Qed.

Lemma all_bind {A B : Type} (Q : event -> Prop) (m : M A) (k : A -> M B) :
  all Q m -> (forall a, all Q (k a)) -> all Q (bind m k).
Proof.
  unfold all; intros Hm Hk. rewrite trace_bind. apply Forall_app; split; auto.
  destruct (result m); [apply Hk|constructor].
Qed.

Lemma all_try_catch {A : Type} (Q : event -> Prop) (m : M A) (h : exn -> M A) :
  all Q m -> (forall e, all Q (h e)) -> all Q (try_catch m h).
Proof.
  unfold all; intros Hm Hh. rewrite trace_try_catch.
  apply Forall_app; split; auto.
  destruct (result m); [constructor|apply Hh].
Qed.

Lemma all_lift {A : Type} (Q : event -> Prop) (o : outcome A) : all Q (lift o).
Proof. constructor. Qed.

Lemma all_ret {A : Type} (Q : event -> Prop) (a : A) : all Q (ret a).
Proof. constructor. Qed.

Lemma all_emit (Q : event -> Prop) (ev : event) : Q ev -> all Q (emit ev).
Proof. intros H; repeat constructor; exact H. Qed.

Lemma all_toasts_quiet (t : list event) :
  Forall (fun ev => is_toast ev = true) t ->
  fetch_calls t = [] /\ stringified t = [].
Proof.
  induction 1 as [|ev t Hev _ [IH1 IH2]]; [split; reflexivity|].
  destruct ev; try discriminate; simpl; auto.
Qed.

Lemma none_toasts (t : list event) :
  Forall (fun ev => is_toast ev = false) t -> toasts t = [].
Proof.
  induction 1 as [|ev t Hev _ IH]; [reflexivity|].
  unfold toasts in *; simpl; rewrite Hev; exact IH.
Qed.

Lemma none_fetch (t : list event) :
  Forall (fun ev => is_fetch ev = false) t -> fetch_calls t = [].
Proof.
  induction 1 as [|ev t Hev _ IH]; [reflexivity|].
  destruct ev; try discriminate; simpl; auto.
Qed.

(** ** The header list *)

Module HeadersFacts.
Import Headers.

Lemma name_eq_true (a b : string) :
  name_eq a b = true -> forall c, name_eq a c = name_eq b c.
Proof.
  unfold name_eq; intros H c. apply String.eqb_eq in H. rewrite H; reflexivity.
Qed.

Lemma name_eq_sym (a b : string) : name_eq a b = name_eq b a.
Proof. apply String.eqb_sym. Qed.

Lemma values_app (l1 l2 : t) (name : string) :
  values (l1 ++ l2)%list name = (values l1 name ++ values l2 name)%list.
Proof. unfold values; rewrite filter_app, map_app; reflexivity. Qed.

(** The spelling [append] stores a header under still names that header. *)
Lemma stored_name (l : t) (key : string) :
  name_eq (match find (matches key) l with
           | Some (first, _) => first
           | None => key
           end) key = true.
Proof.
  destruct (find (matches key) l) as [[first v]|] eqn:E.
  - apply find_some in E as [_ E]; exact E.
  - apply String.eqb_refl.
Qed.

(** [append] adds the normalised value after the values already there. *)
Lemma append_values (l l' : t) (key value name : string) :
  append l key value = Return l' ->
  values l' name =
  (values l name ++ if name_eq key name then [normalize value] else [])%list.
Proof.
  unfold append.
  destruct (is_header_name key && is_header_value (normalize value));
    [|discriminate].
  intros H; inversion H; subst l'; clear H.
  rewrite values_app; f_equal.
  pose proof (name_eq_true _ _ (stored_name l key) name) as E.
  unfold values, matches in *; cbn [filter fst]. rewrite E.
  destruct (name_eq key name); reflexivity.
Qed.

Lemma append_valid (l : t) (key value : string) :
  is_header_name key = true ->
  is_header_value (normalize value) = true ->
  exists l', append l key value = Return l'.
Proof.
  intros Hk Hv; unfold append; rewrite Hk, Hv; cbn [andb]. eexists; reflexivity.
Qed.

(** [delete] removes the values of the deleted name and no other. *)
Lemma delete_values (l l' : t) (key name : string) :
  delete l key = Return l' ->
  values l' name = if name_eq key name then [] else values l name.
Proof.
  unfold delete. destruct (is_header_name key); [|discriminate].
  intros H; inversion H; subst l'; clear H.
  unfold values. induction l as [|h l IH]; cbn [filter map].
  - destruct (name_eq key name); reflexivity.
  - destruct (matches key h) eqn:Eq; cbn [negb filter].
    + rewrite IH. unfold matches in *.
      rewrite (name_eq_true _ _ Eq name).
      destruct (name_eq key name); reflexivity.
    + destruct (matches name h) eqn:Ep; cbn [map]; rewrite IH; [|reflexivity].
      unfold matches in *.
      rewrite (name_eq_true _ _ Ep key), name_eq_sym in Eq.
      rewrite Eq; reflexivity.
Qed.

End HeadersFacts.

(** ** The parts of [sendRequest] *)

Ltac events :=
  repeat first
    [ apply all_lift | apply all_ret
    | apply all_emit; reflexivity
    | apply all_bind; [|intro]
    | match goal with
      | |- all _ (if ?b then _ else _) => destruct b
      | |- all _ (match ?x with _ => _ end) => destruct x
      | |- all _ (let (_, _) := ?x in _) => destruct x
      end ].

Section Parts.

Variable P : Platform.
Variable this : AppOperation.

Lemma toast_result (type : ToastType) (m : value) :
  result (toast this type m) = Return tt.
Proof. unfold toast; destruct (showToast this); reflexivity. Qed.

Lemma toast_trace (type : ToastType) (m : value) :
  trace (toast this type m) =
  match showToast this with
  | Some _ => [Toast type m]
  | None => []
  end.
Proof. unfold toast; destruct (showToast this); reflexivity. Qed.

Lemma all_toast (Q : event -> Prop) (type : ToastType) (m : value) :
  Q (Toast type m) -> all Q (toast this type m).
Proof.
  intros H; unfold all; rewrite toast_trace.
  destruct (showToast this); repeat constructor; exact H.
Qed.

(** With notifications suppressed the toast logic performs nothing. *)
Lemma notify_suppressed (data : value) :
  trace (notify this true data) = [].
Proof.
  unfold notify. rewrite trace_bind. cbn [negb trace ret fst result snd app].
  rewrite trace_bind, trace_lift, result_lift. cbn [app].
  destruct (get_prop data "status") as [st|e]; [|reflexivity].
  destruct (is_num st 422), (is_num st 400), (is_num st 500); reflexivity.
Qed.

(** The toast logic calls the handler and nothing else. *)
Lemma notify_only_toasts (s : bool) (data : value) :
  all (fun ev => is_toast ev = true) (notify this s data).
Proof.
  unfold notify. events; apply all_toast; reflexivity.
Qed.

Lemma on_error_only_toasts (s : bool) (e : exn) :
  all (fun ev => is_toast ev = true) (on_error this s e).
Proof.
  unfold on_error. events; apply all_toast; reflexivity.
Qed.

Lemma on_error_suppressed (e : exn) : trace (on_error this true e) = [].
Proof. reflexivity. Qed.

(** The [catch] block always returns the synthesized envelope. *)
Lemma on_error_result (s : bool) (e : exn) :
  result (on_error this s e) =
  Return (Obj [("status", Num 500);
               ("message",
                Str (userMessage (if Str.is_empty (message e)
                                  then "Unknown error" else message e)));
               ("error",
                Str (if Str.is_empty (message e)
                     then "Unknown error" else message e))]).
Proof.
  unfold on_error. rewrite result_bind.
  destruct s; cbn [negb]; [reflexivity|].
  rewrite toast_result; reflexivity.
Qed.

(** Before the [try] block nothing is notified and nothing is fetched. *)
Lemma prepare_silent (method : Method) (params : option obj)
    (body : option Body) :
  all (fun ev => is_toast ev = false /\ is_fetch ev = false)
      (prepare P this method params body).
Proof.
  unfold prepare. events; apply all_emit; split; reflexivity.
Qed.

Lemma append_all_values (record : list (string * string)) :
  forall (h h' : Headers.t) (name : string),
    append_all h record = Return h' ->
    Headers.values h' name =
    (Headers.values h name ++ record_values name record)%list.
Proof.
  induction record as [|[key value] record IH]; intros h h' name H.
  - inversion H; subst. symmetry; apply app_nil_r.
  - cbn [append_all] in H.
    destruct (Headers.append h key value) as [h1|e] eqn:E; [|discriminate].
    rewrite (IH _ _ name H), (HeadersFacts.append_values _ _ _ _ name E).
    rewrite <- app_assoc; f_equal.
    unfold record_values, Headers.matches; cbn [filter fst].
    destruct (Headers.name_eq key name); reflexivity.
Qed.

Lemma append_all_valid (record : list (string * string)) :
  valid_headers record ->
  forall h, exists h', append_all h record = Return h'.
Proof.
  induction 1 as [|[key value] record [Hk Hv] _ IH]; intros h.
  - exists h; reflexivity.
  - cbn [append_all].
    destruct (HeadersFacts.append_valid h key value Hk Hv) as [h1 ->].
    apply IH.
Qed.

Lemma append_content_type :
  Headers.append [] "Content-Type" "application/json" =
  Return [("Content-Type", "application/json")].
Proof. reflexivity. Qed.

Lemma prepare_dynamic_result :
  result (match getDynamicHeaders this with
          | Some resolver =>
              emit DynamicHeaders ;;; ret (default [] (resolver tt))
          | None => ret []
          end) = Return (dynamicHeaders this).
Proof. unfold dynamicHeaders; destruct (getDynamicHeaders this); reflexivity. Qed.

(** What [prepare] has computed when it returns. *)
Lemma prepare_inv (m : Method) (params : option obj) (b : option Body)
    (o : RequestInit) (pp : string) :
  result (prepare P this m params b) = Return (o, pp) ->
  exists h1 h2,
    append_all [("Content-Type", "application/json")] (staticHeaders this)
      = Return h1 /\
    append_all h1 (dynamicHeaders this) = Return h2 /\
    pp = match params with Some p => parseParams p | None => "" end /\
    method o = m /\
    match b with
    | Some (FormBody fd) =>
        exists h3, Headers.delete h2 "Content-Type" = Return h3 /\
          Headers.append h3 "Content-Type" "multipart/form-data"
            = Return (headers o) /\
          body o = Some (BodyFormData fd)
    | Some (ObjectBody v) =>
        headers o = h2 /\
        if truthy v
        then exists s, JSON_stringify P v = Return s /\
                       body o = Some (BodyString s)
        else body o = None
    | None => headers o = h2 /\ body o = None
    end.
Proof.
  unfold prepare; intros H.
  rewrite result_bind, result_lift, append_content_type in H.
  rewrite result_bind, result_lift in H.
  destruct (append_all _ (staticHeaders this)) as [h1|e] eqn:E1; [|discriminate].
  rewrite result_bind, prepare_dynamic_result in H.
  rewrite result_bind, result_lift in H.
  destruct (append_all h1 (dynamicHeaders this)) as [h2|e] eqn:E2; [|discriminate].
  exists h1, h2. split; [reflexivity|]. split; [exact E2|].
  rewrite result_bind in H.
  destruct b as [[fd|v]|].
  - rewrite ?result_bind, ?result_lift in H.
    destruct (Headers.delete h2 "Content-Type") as [h3|e] eqn:E3; [|discriminate].
    rewrite ?result_bind, ?result_lift in H.
    destruct (Headers.append h3 _ _) as [h4|e] eqn:E4; [|discriminate].
    inversion H; subst. cbn. repeat split. exists h3; auto.
  - destruct (truthy v).
    + rewrite ?result_bind, ?result_lift in H. cbn [result emit snd] in H.
      rewrite ?result_bind, ?result_lift in H.
      destruct (JSON_stringify P v) as [s|e] eqn:E3; [|discriminate].
      inversion H; subst. cbn. repeat split. exists s; auto.
    + inversion H; subst. cbn. auto.
  - inversion H; subst. cbn. auto.
Qed.

(** The [try] block, step by step. *)
Lemma attempt_trace (s : bool) (u : string) (o : RequestInit) (pp : string) :
  trace (attempt P this s u o pp) =
  FetchCall (baseUrl this ++ u ++ pp) o ::
  match fetch P (baseUrl this ++ u ++ pp) o with
  | Return response =>
      JsonCall ::
      match json response tt with
      | Return data => trace (notify this s data)
      | Throw _ => []
      end
  | Throw _ => []
  end.
Proof.
  unfold attempt. rewrite emit_lift, trace_bind, trace_pair, result_pair.
  cbn [app]. f_equal. destruct (fetch P _ o) as [response|e]; [|reflexivity].
  rewrite emit_lift, trace_bind, trace_pair, result_pair.
  cbn [app]. f_equal. destruct (json response tt) as [data|e]; [|reflexivity].
  rewrite trace_bind.
  destruct (result (notify this s data)); apply app_nil_r.
Qed.

Lemma attempt_result (s : bool) (u : string) (o : RequestInit) (pp : string) :
  result (attempt P this s u o pp) =
  match fetch P (baseUrl this ++ u ++ pp) o with
  | Return response =>
      match json response tt with
      | Return data =>
          match result (notify this s data) with
          | Return _ => Return data
          | Throw e => Throw e
          end
      | Throw e => Throw e
      end
  | Throw e => Throw e
  end.
Proof.
  unfold attempt. rewrite emit_lift, result_bind, result_pair.
  destruct (fetch P _ o) as [response|e]; [|reflexivity].
  rewrite emit_lift, result_bind, result_pair.
  destruct (json response tt) as [data|e]; [|reflexivity].
  rewrite result_bind. reflexivity.
Qed.

Lemma attempt_fetch_calls (s : bool) (u : string) (o : RequestInit)
    (pp : string) :
  fetch_calls (trace (attempt P this s u o pp)) =
  [(baseUrl this ++ u ++ pp, o)].
Proof.
  rewrite attempt_trace. cbn [fetch_calls]. f_equal.
  destruct (fetch P _ o) as [response|e]; [|reflexivity].
  cbn [fetch_calls].
  destruct (json response tt) as [data|e]; [|reflexivity].
  apply all_toasts_quiet, notify_only_toasts.
Qed.

Lemma attempt_suppressed (u : string) (o : RequestInit) (pp : string) :
  toasts (trace (attempt P this true u o pp)) = [].
Proof.
  rewrite attempt_trace. unfold toasts; cbn [filter is_toast].
  destruct (fetch P _ o) as [response|e]; [|reflexivity].
  cbn [filter is_toast].
  destruct (json response tt) as [data|e]; [|reflexivity].
  rewrite notify_suppressed; reflexivity.
Qed.

Lemma attempt_stringified (s : bool) (u : string) (o : RequestInit)
    (pp : string) :
  stringified (trace (attempt P this s u o pp)) = [].
Proof.
  rewrite attempt_trace. unfold stringified; cbn [filter is_stringify].
  destruct (fetch P _ o) as [response|e]; [|reflexivity].
  cbn [filter is_stringify].
  destruct (json response tt) as [data|e]; [|reflexivity].
  apply all_toasts_quiet, notify_only_toasts.
Qed.

(** [sendRequest] when the base URL is empty. *)
Lemma sendRequest_unset (u : string) (m : Method) (s : option bool)
    (params : option obj) (b : option Body) :
  Str.is_empty (baseUrl this) = true ->
  sendRequest P this u m s params b =
  ((if default false s then []
    else match showToast this with
         | Some _ => [Toast error (Str "API configuration error")]
         | None => []
         end),
   Return (Obj [("status", Num 500);
                ("message", Str "API base URL is not configured. Please set the baseUrl when constructing AppOperation.")])).
Proof.
  intros H; unfold sendRequest; rewrite H.
  destruct (default false s); cbn [negb]; [reflexivity|].
  unfold toast; destruct (showToast this); reflexivity.
Qed.

(** [sendRequest] when the base URL is set. *)
Lemma sendRequest_set (u : string) (m : Method) (s : option bool)
    (params : option obj) (b : option Body) :
  Str.is_empty (baseUrl this) = false ->
  sendRequest P this u m s params b =
  (prepared <- prepare P this m params b ;;
   let (options, parsedParams) := prepared in
   try_catch (attempt P this (default false s) u options parsedParams)
             (on_error this (default false s))).
Proof. intros H; unfold sendRequest; rewrite H; reflexivity. Qed.

(** The network calls of [sendRequest]: none, or the one of the [try] block. *)
Lemma sendRequest_fetch_calls (u : string) (m : Method) (s : option bool)
    (params : option obj) (b : option Body) :
  fetch_calls (trace (sendRequest P this u m s params b)) =
  if Str.is_empty (baseUrl this) then []
  else match result (prepare P this m params b) with
       | Return (o, pp) => [(baseUrl this ++ u ++ pp, o)]
       | Throw _ => []
       end.
Proof.
  destruct (Str.is_empty (baseUrl this)) eqn:E.
  - rewrite sendRequest_unset by exact E. cbn [trace fst].
    destruct (default false s), (showToast this); reflexivity.
  - rewrite sendRequest_set by exact E.
    rewrite trace_bind, fetch_calls_app.
    rewrite (none_fetch (trace (prepare P this m params b))).
    + destruct (result (prepare P this m params b)) as [[o pp]|e]; [|reflexivity].
      rewrite trace_try_catch, fetch_calls_app, attempt_fetch_calls.
      destruct (result (attempt _ _ _ _ _ _)); cbn [app]; [reflexivity|].
      f_equal. apply all_toasts_quiet, on_error_only_toasts.
    + eapply Forall_impl; [|apply prepare_silent]. intros ev [_ H]; exact H.
Qed.

(** The result of [sendRequest] once [prepare] has returned. *)
Lemma sendRequest_result (u : string) (m : Method) (s : option bool)
    (params : option obj) (b : option Body) (o : RequestInit) (pp : string) :
  Str.is_empty (baseUrl this) = false ->
  result (prepare P this m params b) = Return (o, pp) ->
  result (sendRequest P this u m s params b) =
  match result (attempt P this (default false s) u o pp) with
  | Return data => Return data
  | Throw e => result (on_error this (default false s) e)
  end.
Proof.
  intros E H. rewrite sendRequest_set by exact E.
  rewrite result_bind, H, result_try_catch. reflexivity.
Qed.

(** With the flag set, [sendRequest] never calls the toast handler. *)
Lemma sendRequest_suppressed (u : string) (m : Method)
    (params : option obj) (b : option Body) :
  toasts (trace (sendRequest P this u m (Some true) params b)) = [].
Proof.
  destruct (Str.is_empty (baseUrl this)) eqn:E.
  - rewrite sendRequest_unset by exact E. reflexivity.
  - rewrite sendRequest_set by exact E. cbn [default].
    rewrite trace_bind, toasts_app.
    rewrite (none_toasts (trace (prepare P this m params b))).
    + destruct (result (prepare P this m params b)) as [[o pp]|e]; [|reflexivity].
      rewrite trace_try_catch, toasts_app, attempt_suppressed.
      destruct (result (attempt _ _ _ _ _ _)); reflexivity.
    + eapply Forall_impl; [|apply prepare_silent]. intros ev [H _]; exact H.
Qed.

Lemma prepare_no_body (m : Method) (params : option obj) :
  all (fun ev => is_stringify ev = false) (prepare P this m params None).
Proof. unfold prepare. events. Qed.

(** Without a body nothing is serialised and the request carries none. *)
Lemma sendRequest_no_body (u : string) (m : Method) (s : option bool)
    (params : option obj) :
  stringified (trace (sendRequest P this u m s params None)) = [] /\
  forall u' o, In (FetchCall u' o) (trace (sendRequest P this u m s params None)) ->
               body o = None.
Proof.
  split.
  - destruct (Str.is_empty (baseUrl this)) eqn:E.
    + rewrite sendRequest_unset by exact E. cbn [trace fst].
      destruct (default false s), (showToast this); reflexivity.
    + rewrite sendRequest_set by exact E.
      rewrite trace_bind, stringified_app.
      replace (stringified (trace (prepare P this m params None))) with (@nil event).
      * destruct (result (prepare P this m params None)) as [[o pp]|e];
          [|reflexivity].
        rewrite trace_try_catch, stringified_app, attempt_stringified.
        destruct (result (attempt _ _ _ _ _ _)); [reflexivity|].
        apply all_toasts_quiet, on_error_only_toasts.
      * symmetry. pose proof (prepare_no_body m params) as H. unfold all in H.
        induction H as [|ev t Hev _ IH]; [reflexivity|].
        unfold stringified in *; cbn [filter]; rewrite Hev; exact IH.
  - intros u' o H. apply fetch_calls_In in H.
    rewrite sendRequest_fetch_calls in H.
    destruct (Str.is_empty (baseUrl this)); [contradiction|].
    destruct (result (prepare P this m params None)) as [[o' pp]|e] eqn:E;
      [|contradiction].
    destruct H as [H|[]]; inversion H; subst.
    apply prepare_inv in E as (h1 & h2 & _ & _ & _ & _ & _ & E). exact E.
Qed.

Lemma unregistered_lookup (a : Args) :
  lookup (request a) (requests this) = None ->
  getRequest P this a =
    ([], Throw (TypeError "Cannot read properties of undefined (reading 'url')"))
  \/ getRequest P this a = ([], Throw (Error "Unsupported method undefined")).
Proof.
  intros H; unfold getRequest; rewrite H.
  destruct (existsb _ _); [right|left]; reflexivity.
Qed.

(** A network call of [sendRequest] is the one its [try] block makes, with
    the options and the query string that [prepare] returned. *)
Lemma fetch_prepared (u : string) (m : Method) (s : option bool)
    (params : option obj) (b : option Body) (u' : string) (o : RequestInit) :
  In (FetchCall u' o) (trace (sendRequest P this u m s params b)) ->
  Str.is_empty (baseUrl this) = false /\
  exists pp, result (prepare P this m params b) = Return (o, pp) /\
             u' = baseUrl this ++ u ++ pp.
Proof.
  intros H. apply fetch_calls_In in H. rewrite sendRequest_fetch_calls in H.
  destruct (Str.is_empty (baseUrl this)); [contradiction|].
  destruct (result (prepare P this m params b)) as [[o' pp]|e] eqn:E;
    [|contradiction].
  destruct H as [H|[]]; inversion H; subst. split; [reflexivity|].
  exists pp; split; reflexivity.
Qed.

(** The values of every header of the outgoing request. *)
Lemma outgoing_header_values (u : string) (m : Method) (s : option bool)
    (params : option obj) (b : option Body) (u' : string) (o : RequestInit)
    (name : string) :
  In (FetchCall u' o) (trace (sendRequest P this u m s params b)) ->
  Headers.values (headers o) name =
  if Headers.name_eq "Content-Type" name then
    match b with
    | Some (FormBody _) => ["multipart/form-data"]
    | _ => ("application/json" :: record_values name (staticHeaders this)
              ++ record_values name (dynamicHeaders this))%list
    end
  else (record_values name (staticHeaders this)
          ++ record_values name (dynamicHeaders this))%list.
Proof.
  intros H. apply fetch_prepared in H as (_ & pp & H & _).
  apply prepare_inv in H as (h1 & h2 & E1 & E2 & _ & _ & Hb).
  assert (V2 : Headers.values h2 name =
               ((if Headers.name_eq "Content-Type" name
                 then ["application/json"] else [])
                ++ record_values name (staticHeaders this)
                ++ record_values name (dynamicHeaders this))%list).
  { rewrite (append_all_values _ _ _ name E2).
    rewrite (append_all_values _ _ _ name E1).
    rewrite <- app_assoc. f_equal.
    unfold Headers.values, Headers.matches; cbn [filter fst].
    destruct (Headers.name_eq "Content-Type" name); reflexivity. }
  destruct b as [[fd|v]|].
  - destruct Hb as (h3 & E3 & E4 & _).
    rewrite (HeadersFacts.append_values _ _ _ _ name E4).
    rewrite (HeadersFacts.delete_values _ _ _ name E3), V2.
    destruct (Headers.name_eq "Content-Type" name);
      [reflexivity|apply app_nil_r].
  - destruct Hb as [-> _]. rewrite V2.
    destruct (Headers.name_eq "Content-Type" name); reflexivity.
  - destruct Hb as [-> _]. rewrite V2.
    destruct (Headers.name_eq "Content-Type" name); reflexivity.
Qed.

(** An exception of the network call or of the parse ends in the [catch]
    block. *)
Lemma sendRequest_caught (u : string) (m : Method) (s : option bool)
    (params : option obj) (b : option Body) (u' : string) (o : RequestInit)
    (e : exn) :
  In (FetchCall u' o) (trace (sendRequest P this u m s params b)) ->
  fetch P u' o = Throw e \/
    (exists r, fetch P u' o = Return r /\ json r tt = Throw e) ->
  result (sendRequest P this u m s params b) =
  result (on_error this (default false s) e).
Proof.
  intros H Hthrow. apply fetch_prepared in H as (E & pp & H & ->).
  rewrite (sendRequest_result _ _ _ _ _ _ _ E H), attempt_result.
  destruct Hthrow as [->|(r & -> & ->)]; reflexivity.
Qed.

(** A parsed body is returned as it is unless the toast logic throws. *)
Lemma sendRequest_parsed (u : string) (m : Method) (s : option bool)
    (params : option obj) (b : option Body) (u' : string) (o : RequestInit)
    (r : Response) (data : value) :
  In (FetchCall u' o) (trace (sendRequest P this u m s params b)) ->
  fetch P u' o = Return r ->
  json r tt = Return data ->
  result (sendRequest P this u m s params b) =
  match result (notify this (default false s) data) with
  | Return _ => Return data
  | Throw e => result (on_error this (default false s) e)
  end.
Proof.
  intros H Hr Hd. apply fetch_prepared in H as (E & pp & H & ->).
  rewrite (sendRequest_result _ _ _ _ _ _ _ E H), attempt_result, Hr, Hd.
  destruct (result (notify _ _ _)); reflexivity.
Qed.

(** The toast logic returns on an object whose status is not 422. *)
Lemma notify_returns (s : bool) (o : obj) :
  is_num (opt_value (lookup "status" o)) 422 = false ->
  result (notify this s (Obj o)) = Return tt.
Proof.
  intros H. unfold notify.
  rewrite result_bind.
  assert (H1 : result
                 (if negb s
                  then status <- lift (get_prop (Obj o) "status") ;;
                       if is_num status 200 || is_num status 201
                       then if truthy (get_prop_opt (Obj o) "message")
                            then message <- lift (get_prop (Obj o) "message") ;;
                                 toast this success message
                            else ret tt
                       else ret tt
                  else ret tt) = Return tt).
  { destruct (negb s); [|reflexivity].
    rewrite result_bind, result_lift. cbn [get_prop].
    destruct (_ || _); [|reflexivity].
    destruct (truthy _); [|reflexivity].
    rewrite result_bind, result_lift. apply toast_result. }
  rewrite H1, result_bind, result_lift. cbn [get_prop]. rewrite H. cbn [andb].
  destruct (_ && _ && _).
  - rewrite result_bind, result_lift. apply toast_result.
  - destruct (_ && _ && _); [|reflexivity].
    rewrite result_bind, result_lift. apply toast_result.
Qed.

(** An object body whose status is not 422 is returned as it was parsed. *)
Lemma object_body_returned_verbatim (u : string) (m : Method)
    (s : option bool) (params : option obj) (b : option Body) (u' : string)
    (o : RequestInit) (r : Response) (data : obj) :
  In (FetchCall u' o) (trace (sendRequest P this u m s params b)) ->
  fetch P u' o = Return r ->
  json r tt = Return (Obj data) ->
  is_num (opt_value (lookup "status" data)) 422 = false ->
  result (sendRequest P this u m s params b) = Return (Obj data).
Proof.
  intros Hin Hr Hd Hst.
  rewrite (sendRequest_parsed _ _ _ _ _ _ _ _ _ Hin Hr Hd).
  rewrite (notify_returns _ _ Hst). reflexivity.
Qed.

(** The dispatch of [getRequest] on a registered entry. *)
Lemma getRequest_registered (a : Args) (entry : AppOperationRequest) :
  lookup (request a) (requests this) = Some entry ->
  getRequest P this a =
  let s := Some (default false (arg_suppressToast a)) in
  if String.eqb (req_method entry) "DELETE" then
    sendRequest P this (basePath entry a) DELETE s None None
  else if String.eqb (req_method entry) "GET" then
    sendRequest P this (basePath entry a) GET (Some true) (arg_params a) None
  else if String.eqb (req_method entry) "PATCH" then
    sendRequest P this (basePath entry a) PATCH s None (arg_body a)
  else if String.eqb (req_method entry) "POST" then
    sendRequest P this (basePath entry a) POST s None (arg_body a)
  else if String.eqb (req_method entry) "PUT" then
    sendRequest P this (basePath entry a) PUT s None (arg_body a)
  else lift (Throw (Error ("Unsupported method " ++ req_method entry))).
Proof. intros H; unfold getRequest; rewrite H; reflexivity. Qed.

End Parts.

(** ** The query string *)

Lemma append_assoc (a b c : string) : (a ++ b) ++ c = a ++ b ++ c.
Proof. induction a as [|x a IH]; cbn; [|rewrite IH]; reflexivity. Qed.

Lemma append_nil_r (a : string) : a ++ "" = a.
Proof. induction a as [|x a IH]; cbn; [|rewrite IH]; reflexivity. Qed.

Section Query.

Variable params : obj.

Lemma appendParams_rest (ks : list string) :
  forall (i : nat) (acc : string),
    appendParams params ks (S i) acc = acc ++ rest_of (map (pair_of params) ks).
Proof.
  induction ks as [|k ks IH]; intros i acc; cbn [appendParams map rest_of].
  - symmetry; apply append_nil_r.
  - rewrite IH. cbn [Nat.eqb]. rewrite append_assoc. reflexivity.
Qed.

Lemma join_rest (x : string) (l : list string) :
  Str.join "&" (x :: l) = x ++ rest_of l.
Proof.
  revert x; induction l as [|y l IH]; intros x.
  - symmetry; apply append_nil_r.
  - change (Str.join "&" (x :: y :: l)) with (x ++ "&" ++ Str.join "&" (y :: l)).
    rewrite IH. reflexivity.
Qed.

Lemma appendParams_join (ks : list string) :
  appendParams params ks 0 "" =
  match ks with
  | [] => ""
  | _ => "?" ++ Str.join "&" (map (pair_of params) ks)
  end.
Proof.
  destruct ks as [|k ks]; [reflexivity|].
  cbn [appendParams map Nat.eqb]. rewrite appendParams_rest, join_rest.
  reflexivity.
Qed.

Lemma lookup_NoDup (k : string) (v : value) :
  NoDup (keys params) -> In (k, v) params -> lookup k params = Some v.
Proof.
  unfold keys. induction params as [|[k' v'] o IH]; intros Hnd Hin; [contradiction|].
  cbn [map fst] in Hnd. inversion Hnd as [|? ? Hnot Hnd']; subst.
  cbn [lookup]. destruct Hin as [Hin|Hin].
  - inversion Hin; subst. rewrite String.eqb_refl. reflexivity.
  - destruct (String.eqb k k') eqn:E.
    + apply String.eqb_eq in E; subst. exfalso; apply Hnot.
      apply (in_map fst) in Hin. exact Hin.
    + apply IH; assumption.
Qed.

(** On an object, whose keys are distinct, the loop of [sendRequest]
    builds the query string of the specification. *)
Lemma parseParams_queryString :
  NoDup (keys params) -> parseParams params = queryString params.
Proof.
  intros Hnd. unfold parseParams, queryString. rewrite appendParams_join.
  unfold keys.
  rewrite filter_map_swap.
  rewrite (filter_ext_in
             (fun kv => not_nullish (opt_value (lookup (fst kv) params)))
             (fun kv => not_nullish (snd kv))).
  2:{ intros [k v] Hin. cbn [fst snd].
      rewrite (lookup_NoDup k v Hnd Hin). reflexivity. }
  set (kept := filter (fun kv => not_nullish (snd kv)) params).
  assert (Hmap : map (pair_of params) (map fst kept) =
                 map (fun kv => fst kv ++ "=" ++ to_string (snd kv)) kept).
  { rewrite map_map. apply map_ext_in. intros [k v] Hin.
    apply filter_In in Hin as [Hin _]. unfold pair_of. cbn [fst snd].
    rewrite (lookup_NoDup k v Hnd Hin). reflexivity. }
  rewrite Hmap. destruct kept; reflexivity.
Qed.

End Query.

(** * The claims *)

Section Claims.

Variable P : Platform.
Variable this : AppOperation.

(** C3.  For an operation identifier absent from the registry, [getRequest]
    fails with a thrown error: the [TypeError] of reading [url] of
    [undefined] or, for a name every object inherits, the "Unsupported
    method" error.  It does so before anything else happens: the trace of
    the call is empty, so no header or body work has been done and no
    network call attempted. *)
Theorem unregistered_operation_throws (a : Args) :
  lookup (request a) (requests this) = None ->
  getRequest P this a =
    ([], Throw (TypeError "Cannot read properties of undefined (reading 'url')"))
  \/ getRequest P this a = ([], Throw (Error "Unsupported method undefined")).
Proof.
  intros H; unfold getRequest; rewrite H.
  destruct (existsb _ _); [right|left]; reflexivity.
Qed.


(** C7.  A call of [getRequest] with [suppressToast: true] never invokes the
    toast handler, whatever the registry entry, the response, a transport or
    parse failure, or an empty base URL. *)
Theorem suppressed_call_never_toasts (a : Args) :
  arg_suppressToast a = Some true ->
  toasts (trace (getRequest P this a)) = [].
Proof.
  intros H. destruct (lookup (request a) (requests this)) as [entry|] eqn:E.
  - rewrite (getRequest_registered P this a entry E), H. cbn [default].
    cbv zeta.
    repeat match goal with
           | |- context [if ?c then _ else _] => destruct c
           end; try apply sendRequest_suppressed. reflexivity.
  - destruct (unregistered_lookup P this a E) as [-> | ->]; reflexivity.
Qed.

(** C9.  For an operation registered as GET the toast handler is never
    invoked, on any outcome, and the caller's [suppressToast] is ignored:
    the call behaves the same whatever value is passed. *)
Theorem get_never_toasts (a : Args) (entry : AppOperationRequest) :
  lookup (request a) (requests this) = Some entry ->
  req_method entry = "GET" ->
  toasts (trace (getRequest P this a)) = [] /\
  forall s, getRequest P this (with_suppressToast a s) = getRequest P this a.
Proof.
  intros E Hm. split.
  - rewrite (getRequest_registered P this a entry E), Hm. cbn [String.eqb].
    apply sendRequest_suppressed.
  - intros s.
    rewrite (getRequest_registered P this a entry E).
    rewrite (getRequest_registered P this (with_suppressToast a s) entry E).
    rewrite Hm. reflexivity.
Qed.

(** C10.  For an operation registered as GET or DELETE a body supplied by
    the caller is discarded: the call behaves the same with any body or
    none, [JSON.stringify] is never called, and the request handed to
    [fetch] has no body. *)
Theorem get_delete_discard_body (a : Args) (entry : AppOperationRequest) :
  lookup (request a) (requests this) = Some entry ->
  req_method entry = "GET" \/ req_method entry = "DELETE" ->
  (forall b, getRequest P this (with_body a b) = getRequest P this a) /\
  stringified (trace (getRequest P this a)) = [] /\
  (forall u o, In (FetchCall u o) (trace (getRequest P this a)) ->
               body o = None).
Proof.
  intros E Hm. split; [|split].
  - intros b.
    rewrite (getRequest_registered P this a entry E).
    rewrite (getRequest_registered P this (with_body a b) entry E).
    destruct Hm as [Hm|Hm]; rewrite Hm; reflexivity.
  - rewrite (getRequest_registered P this a entry E).
    destruct Hm as [Hm|Hm]; rewrite Hm; cbn [String.eqb];
      apply sendRequest_no_body.
  - intros u o. rewrite (getRequest_registered P this a entry E).
    destruct Hm as [Hm|Hm]; rewrite Hm; cbn [String.eqb];
      apply sendRequest_no_body.
Qed.

(** C1 (amended).  A dynamic header does not replace a static header of
    the same name: in the header list of the outgoing request the values of
    a name, other than Content-Type, are the static ones followed by the
    dynamic ones, and where each record has one value for the name the
    header reads "static, dynamic". *)
Theorem dynamic_header_follows_static (u : string) (m : Method)
    (s : option bool) (params : option obj) (b : option Body)
    (u' : string) (o : RequestInit) (name : string) :
  In (FetchCall u' o) (trace (sendRequest P this u m s params b)) ->
  Headers.name_eq "Content-Type" name = false ->
  Headers.values (headers o) name =
    (record_values name (staticHeaders this)
       ++ record_values name (dynamicHeaders this))%list /\
  forall vs vd,
    record_values name (staticHeaders this) = [vs] ->
    record_values name (dynamicHeaders this) = [vd] ->
    Headers.get (headers o) name = Some (vs ++ ", " ++ vd).
Proof.
  intros H Hct.
  pose proof (outgoing_header_values P this u m s params b u' o name H) as V.
  rewrite Hct in V. split; [exact V|].
  intros vs vd Hs Hd. unfold Headers.get. rewrite V, Hs, Hd. reflexivity.
Qed.

(** C2 (amended).  Query parameters are honoured for operations
    registered as GET only: there the transport is invoked on
    [baseUrl + path + queryString], where the query string drops nullish
    values, keeps the iteration order and escapes nothing.  For every other
    verb the parameters are discarded and the URL is [baseUrl + path]. *)
Theorem query_parameters_of_get (a : Args) (entry : AppOperationRequest)
    (u : string) (o : RequestInit) :
  lookup (request a) (requests this) = Some entry ->
  In (FetchCall u o) (trace (getRequest P this a)) ->
  (req_method entry = "GET" ->
   forall params, arg_params a = Some params -> NoDup (keys params) ->
     u = baseUrl this ++ basePath entry a ++ queryString params) /\
  (req_method entry <> "GET" -> u = baseUrl this ++ basePath entry a).
Proof.
  intros E H. rewrite (getRequest_registered P this a entry E) in H.
  cbv zeta in H. split.
  - intros Hm params Hp Hnd. rewrite Hm, Hp in H.
    cbv [String.eqb Ascii.eqb Bool.eqb] in H.
    apply fetch_prepared in H as (_ & pp & H & ->).
    apply prepare_inv in H as (_ & _ & _ & _ & -> & _).
    rewrite parseParams_queryString by exact Hnd. reflexivity.
  - intros Hm. apply String.eqb_neq in Hm. rewrite Hm in H.
    repeat match type of H with
           | context [if ?c then _ else _] => destruct c
           end;
      try (apply fetch_prepared in H as (_ & pp & H & ->);
           apply prepare_inv in H as (_ & _ & _ & _ & -> & _);
           rewrite append_nil_r; reflexivity).
    contradiction.
Qed.

(** C5 (amended).  When the network call or the JSON parse throws, the
    envelope carries in [error] the message of the thrown error, or
    "Unknown error" when that message is empty, and in [message] the
    network-error text when this message contains "Network request failed"
    or "Failed to fetch", otherwise the invalid-response text when it
    contains "JSON", otherwise the generic text. *)
Theorem thrown_error_classified (u : string) (m : Method) (s : option bool)
    (params : option obj) (b : option Body) (u' : string) (o : RequestInit)
    (e : exn) :
  In (FetchCall u' o) (trace (sendRequest P this u m s params b)) ->
  fetch P u' o = Throw e \/
    (exists r, fetch P u' o = Return r /\ json r tt = Throw e) ->
  let errorMessage :=
    if Str.is_empty (message e) then "Unknown error" else message e in
  exists text,
    result (sendRequest P this u m s params b) =
      Return (Obj [("status", Num 500); ("message", Str text);
                   ("error", Str errorMessage)]) /\
    (contains errorMessage "Network request failed" \/
     contains errorMessage "Failed to fetch" ->
     text = "Network error. Please check your connection.") /\
    (~ contains errorMessage "Network request failed" ->
     ~ contains errorMessage "Failed to fetch" ->
     contains errorMessage "JSON" ->
     text = "Invalid response from server") /\
    (~ contains errorMessage "Network request failed" ->
     ~ contains errorMessage "Failed to fetch" ->
     ~ contains errorMessage "JSON" ->
     text = "Something went wrong").
Proof.
  intros Hin Hthrow errorMessage. exists (userMessage errorMessage).
  split.
  - rewrite (sendRequest_caught P this _ _ _ _ _ u' o e Hin Hthrow).
    apply on_error_result.
  - unfold userMessage. repeat split.
    + intros [H|H]; apply includes_contains in H; rewrite H;
        [reflexivity|rewrite orb_true_r; reflexivity].
    + intros H1 H2 H3.
      apply includes_not_contains in H1, H2. apply includes_contains in H3.
      rewrite H1, H2, H3. reflexivity.
    + intros H1 H2 H3. apply includes_not_contains in H1, H2, H3.
      rewrite H1, H2, H3. reflexivity.
Qed.

End Claims.

(** * Concrete calls *)

Import Examples.

(** C1, counterexample.  [localized] sends Accept-Language "en" statically
    and "ku" dynamically; the one request it makes for the profile carries
    "en, ku" under that name, not "ku". *)
Lemma dynamic_header_does_not_override :
  lookup "Accept-Language" (staticHeaders localized) = Some "en" /\
  lookup "Accept-Language" (dynamicHeaders localized) = Some "ku" /\
  map (fun c => Headers.get (headers (snd c)) "Accept-Language")
      (fetch_calls (trace (getRequest (server (Obj [])) localized
                                      (call Api.GET_PROFILE))))
    = [Some "en, ku"] /\
  Some "en, ku" <> Some "ku".
Proof. repeat split; discriminate. Qed.

(** C1 at the profile request of [localized]: the header reads "en, ku". *)
Lemma dynamic_header_follows_static_witness :
  In (FetchCall "https://example.com/api/v1/profile/" profile_options)
     (trace (sendRequest (server (Obj [])) localized "profile/" GET
                         (Some true) None None)) /\
  Headers.name_eq "Content-Type" "Accept-Language" = false /\
  Headers.get (headers profile_options) "Accept-Language" = Some "en, ku".
Proof.
  assert (H : In (FetchCall "https://example.com/api/v1/profile/"
                            profile_options)
                 (trace (sendRequest (server (Obj [])) localized "profile/"
                                     GET (Some true) None None)))
    by (right; left; reflexivity).
  split; [exact H|]. split; [reflexivity|].
  exact (proj2 (dynamic_header_follows_static (server (Obj [])) localized
                  "profile/" GET (Some true) None None _ _ "Accept-Language"
                  H eq_refl)
               "en" "ku" eq_refl eq_refl).
Defined.

(** C2, counterexample.  The login operation is a POST: called with the
    parameters [{a: 1}] it requests the bare path, without [?a=1]. *)
Lemma post_ignores_query_parameters :
  map fst (fetch_calls
             (trace (getRequest (server (Obj [])) (Api.appOperation None)
                       (mkArgs None (Some [("a", Num 1)]) None Api.LOGIN
                               None None))))
    = ["https://example.com/api/v1/auth/login"] /\
  Api.DEFAULT_API_URL ++ "auth/login" ++ queryString [("a", Num 1)]
    = "https://example.com/api/v1/auth/login?a=1" /\
  "https://example.com/api/v1/auth/login"
    <> "https://example.com/api/v1/auth/login?a=1".
Proof. repeat split; discriminate. Qed.

(** C2 at the profile of user 7 with the parameters
    [{a: 1, b: undefined, c: "y"}]: the URL ends in [?a=1&c=y]. *)
Lemma query_parameters_of_get_witness :
  lookup (request profile_call) (requests localized)
    = Some (mkRequest "GET" "profile/") /\
  In (FetchCall "https://example.com/api/v1/profile/7/x?a=1&c=y"
                profile_options)
     (trace (getRequest (server (Obj [])) localized profile_call)) /\
  NoDup (keys abc) /\
  "https://example.com/api/v1/profile/7/x?a=1&c=y"
    = baseUrl localized
      ++ basePath (mkRequest "GET" "profile/") profile_call
      ++ queryString abc /\
  queryString abc = "?a=1&c=y".
Proof.
  assert (Hin : In (FetchCall "https://example.com/api/v1/profile/7/x?a=1&c=y"
                              profile_options)
                   (trace (getRequest (server (Obj [])) localized
                                      profile_call)))
    by (right; left; reflexivity).
  assert (Hnd : NoDup (keys abc)).
  { repeat constructor; cbn; intuition discriminate. }
  split; [reflexivity|]. split; [exact Hin|]. split; [exact Hnd|].
  split; [|reflexivity].
  exact (proj1 (query_parameters_of_get (server (Obj [])) localized
                  profile_call (mkRequest "GET" "profile/") _ _ eq_refl Hin)
               eq_refl abc eq_refl Hnd).
Defined.

(** C3 at the operation "does-not-exist" of the kit's registry. *)
Lemma unregistered_operation_throws_witness :
  lookup (request (call "does-not-exist")) (requests (Api.appOperation None))
    = None /\
  (getRequest (server (Obj [])) (Api.appOperation None)
              (call "does-not-exist")
     = ([], Throw (TypeError "Cannot read properties of undefined (reading 'url')"))
   \/ getRequest (server (Obj [])) (Api.appOperation None)
                 (call "does-not-exist")
     = ([], Throw (Error "Unsupported method undefined"))).
Proof.
  split; [reflexivity|].
  exact (unregistered_operation_throws (server (Obj []))
           (Api.appOperation None) (call "does-not-exist") eq_refl).
Defined.


(** A header name that is not a token throws as well, outside the [try]
    block, for a registered operation. *)
Lemma invalid_header_name_propagates :
  exists e,
    result (getRequest (server (Obj []))
              (mkAppOperation Api.DEFAULT_API_URL Api.requests
                 [("System Key", "k")] None None)
              (call Api.GET_PROFILE)) = Throw e.
Proof. eexists; reflexivity. Qed.

(** C5, counterexample.  A thrown error whose message is "Network request
    failed" contains neither "Failed to fetch" nor "JSON", and yet it is
    answered with the network-error text, not with the generic one. *)
Lemma other_network_phrase_is_not_generic :
  result (getRequest (offline "Network request failed") localized
                     (call Api.GET_PROFILE))
    = Return (Obj [("status", Num 500);
                   ("message",
                    Str "Network error. Please check your connection.");
                   ("error", Str "Network request failed")]) /\
  ~ contains "Network request failed" "Failed to fetch" /\
  ~ contains "Network request failed" "JSON" /\
  "Network error. Please check your connection." <> "Something went wrong".
Proof.
  split; [reflexivity|].
  split; [apply includes_not_contains; reflexivity|].
  split; [apply includes_not_contains; reflexivity|discriminate].
Qed.

(** A message with both a network phrase and "JSON" is a network error. *)
Lemma network_phrase_precedes_json :
  result (getRequest (offline "Failed to fetch JSON") localized
                     (call Api.GET_PROFILE))
    = Return (Obj [("status", Num 500);
                   ("message",
                    Str "Network error. Please check your connection.");
                   ("error", Str "Failed to fetch JSON")]).
Proof. reflexivity. Qed.

(** An empty message is not carried: [error] reads "Unknown error". *)
Lemma empty_message_is_unknown_error :
  result (getRequest (offline "") localized (call Api.GET_PROFILE))
    = Return (Obj [("status", Num 500);
                   ("message", Str "Something went wrong");
                   ("error", Str "Unknown error")]).
Proof. reflexivity. Qed.

(** C5 at a profile request whose [fetch] rejects with "Failed to fetch". *)
Lemma thrown_error_classified_witness :
  In (FetchCall "https://example.com/api/v1/profile/" profile_options)
     (trace (sendRequest (offline "Failed to fetch") localized "profile/" GET
                         (Some true) None None)) /\
  fetch (offline "Failed to fetch") "https://example.com/api/v1/profile/"
        profile_options = Throw (TypeError "Failed to fetch") /\
  result (sendRequest (offline "Failed to fetch") localized "profile/" GET
                      (Some true) None None)
    = Return (Obj [("status", Num 500);
                   ("message",
                    Str "Network error. Please check your connection.");
                   ("error", Str "Failed to fetch")]).
Proof.
  assert (Hin : In (FetchCall "https://example.com/api/v1/profile/"
                              profile_options)
                   (trace (sendRequest (offline "Failed to fetch") localized
                                       "profile/" GET (Some true) None None)))
    by (right; left; reflexivity).
  split; [exact Hin|]. split; [reflexivity|].
  destruct (thrown_error_classified (offline "Failed to fetch") localized
              "profile/" GET (Some true) None None _ _
              (TypeError "Failed to fetch") Hin (or_introl eq_refl))
    as (text & Hres & Hnet & _).
  rewrite Hres, Hnet; [reflexivity|].
  right. apply includes_contains. reflexivity.
Defined.


(** C7 at a suppressed login answered with a validation error. *)
Lemma suppressed_call_never_toasts_witness :
  arg_suppressToast (with_suppressToast login_call (Some true)) = Some true /\
  toasts (trace (getRequest (server invalid) localized
                            (with_suppressToast login_call (Some true)))) = [].
Proof.
  split; [reflexivity|].
  exact (suppressed_call_never_toasts (server invalid) localized
           (with_suppressToast login_call (Some true)) eq_refl).
Defined.

(** C8, at a failing input.  The server answers a login with a parsed body
    of status 422 whose [errors] is empty.  The caller does not get that
    body but a synthesized envelope of status 500, and the toast reads
    "Something went wrong"; the same call with notifications suppressed
    does return the body, so the notification work has altered what is
    returned. *)
Theorem empty_errors_body_is_replaced :
  fetch_calls (trace (getRequest (server invalid) localized login_call))
    = [("https://example.com/api/v1/auth/login", login_options)]
  /\ result (getRequest (server invalid) localized login_call)
     = Return (Obj [("status", Num 500);
                    ("message", Str "Something went wrong");
                    ("error",
                     Str "Cannot read properties of undefined (reading '0')")])
  /\ result (getRequest (server invalid) localized login_call)
     <> Return invalid
  /\ toasts (trace (getRequest (server invalid) localized login_call))
     = [Toast error (Str "Something went wrong")]
  /\ result (getRequest (server invalid) localized
                        (with_suppressToast login_call (Some true)))
     = Return invalid.
Proof. repeat split; discriminate. Qed.

(** The same happens to the body [null], whether or not notifications are
    suppressed. *)
Lemma null_body_is_replaced :
  result (getRequest (server Null) localized (call Api.GET_PROFILE))
    = Return (Obj [("status", Num 500);
                   ("message", Str "Something went wrong");
                   ("error",
                    Str "Cannot read properties of null (reading 'status')")]).
Proof. reflexivity. Qed.

(** C9 at the profile request answered with a validation error. *)
Lemma get_never_toasts_witness :
  lookup (request profile_call) (requests localized)
    = Some (mkRequest "GET" "profile/") /\
  toasts (trace (getRequest (server invalid) localized profile_call)) = [] /\
  forall s, getRequest (server invalid) localized
                       (with_suppressToast profile_call s)
            = getRequest (server invalid) localized profile_call.
Proof.
  split; [reflexivity|].
  exact (get_never_toasts (server invalid) localized profile_call
           (mkRequest "GET" "profile/") eq_refl eq_refl).
Defined.

(** C10 at the profile request. *)
Lemma get_delete_discard_body_witness :
  lookup (request profile_call) (requests localized)
    = Some (mkRequest "GET" "profile/") /\
  (forall b, getRequest (server invalid) localized (with_body profile_call b)
             = getRequest (server invalid) localized profile_call) /\
  stringified (trace (getRequest (server invalid) localized profile_call))
    = [] /\
  (forall u o,
     In (FetchCall u o)
        (trace (getRequest (server invalid) localized profile_call)) ->
     body o = None).
Proof.
  split; [reflexivity|].
  exact (get_delete_discard_body (server invalid) localized profile_call
           (mkRequest "GET" "profile/") eq_refl (or_introl eq_refl)).
Defined.

(** * Further properties of the class *)

(** ** Assignment and [delete] on an object *)

Module ObjectFacts.
Import Object.

Section Props.

Context {A : Type}.
Implicit Types (o : list (string * A)) (key k : string) (v x : A).

Lemma lookup_None_keys o key : lookup key o = None <-> ~ In key (keys o).
Proof.
  unfold keys. induction o as [|[k x] o IH]; cbn [lookup map fst In]; [tauto|].
  destruct (String.eqb key k) eqn:E.
  - apply String.eqb_eq in E. subst. split; [discriminate|tauto].
  - apply String.eqb_neq in E. rewrite IH. split; [intros H [H'|H']|];
      [congruence|tauto|tauto].
Qed.

Lemma keys_update o key v : keys (update key v o) = keys o.
Proof.
  unfold keys. induction o as [|[k x] o IH]; [reflexivity|].
  cbn [update]. destruct (String.eqb key k); cbn [map fst]; [|rewrite IH];
    reflexivity.
Qed.

Lemma lookup_update o key v k :
  lookup k (update key v o) =
  if String.eqb k key then
    match lookup key o with Some _ => Some v | None => None end
  else lookup k o.
Proof.
  induction o as [|[k' x] o IH]; cbn [update lookup].
  - destruct (String.eqb k key); reflexivity.
  - destruct (String.eqb key k') eqn:E; cbn [lookup].
    + apply String.eqb_eq in E; subst k'.
      destruct (String.eqb k key); reflexivity.
    + rewrite IH. destruct (String.eqb k key) eqn:E'; [|reflexivity].
      apply String.eqb_eq in E'; subst k. rewrite E. reflexivity.
Qed.

Lemma lookup_insert_index o n key v k :
  lookup key o = None ->
  lookup k (insert_index n key v o) =
  if String.eqb k key then Some v else lookup k o.
Proof.
  induction o as [|[k' x] o IH]; intros H; cbn [insert_index lookup].
  - destruct (String.eqb k key); reflexivity.
  - cbn [lookup] in H. destruct (String.eqb key k') eqn:E; [discriminate|].
    destruct (array_index k') as [n'|]; [destruct (N.ltb n n')|];
      cbn [lookup]; try reflexivity.
    rewrite (IH H). destruct (String.eqb k key) eqn:E'; [|reflexivity].
    apply String.eqb_eq in E'; subst k. rewrite E. reflexivity.
Qed.

Lemma lookup_app_end o key v k :
  lookup key o = None ->
  lookup k (o ++ [(key, v)])%list =
  if String.eqb k key then Some v else lookup k o.
Proof.
  induction o as [|[k' x] o IH]; intros H; cbn [app lookup].
  - destruct (String.eqb k key); reflexivity.
  - cbn [lookup] in H. destruct (String.eqb key k') eqn:E; [discriminate|].
    rewrite (IH H). destruct (String.eqb k key) eqn:E'; [|reflexivity].
    apply String.eqb_eq in E'; subst k. rewrite E. reflexivity.
Qed.

(** Reading after an assignment. *)
Lemma lookup_set o key v k :
  key <> "__proto__" ->
  lookup k (set key v o) = if String.eqb k key then Some v else lookup k o.
Proof.
  intros Hp. apply String.eqb_neq in Hp.
  unfold set. destruct (lookup key o) as [x|] eqn:E.
  - rewrite lookup_update, E. reflexivity.
  - rewrite Hp. destruct (array_index key) as [n|].
    + apply lookup_insert_index; exact E.
    + apply lookup_app_end; exact E.
Qed.

(** Reading the assigned key after an assignment that was not ignored. *)
Lemma lookup_set_same o key v :
  key <> "__proto__" \/ lookup key o <> None ->
  lookup key (set key v o) = Some v.
Proof.
  intros H. unfold set. destruct (lookup key o) as [x|] eqn:E.
  - rewrite lookup_update, E, String.eqb_refl. reflexivity.
  - destruct H as [H|H]; [|congruence]. apply String.eqb_neq in H. rewrite H.
    destruct (array_index key) as [n|].
    + rewrite lookup_insert_index by exact E. rewrite String.eqb_refl.
      reflexivity.
    + rewrite lookup_app_end by exact E. rewrite String.eqb_refl.
      reflexivity.
Qed.

(** Reading after a [delete]. *)
Lemma lookup_remove o key k :
  lookup k (remove key o) = if String.eqb k key then None else lookup k o.
Proof.
  unfold remove. induction o as [|[k' x] o IH]; cbn [filter lookup fst].
  - destruct (String.eqb k key); reflexivity.
  - destruct (String.eqb key k') eqn:E; cbn [negb lookup].
    + apply String.eqb_eq in E; subst k'. rewrite IH.
      destruct (String.eqb k key); reflexivity.
    + rewrite IH. destruct (String.eqb k key) eqn:E'; [|reflexivity].
      apply String.eqb_eq in E'; subst k. rewrite E. reflexivity.
Qed.

Lemma update_same o key v : lookup key o = Some v -> update key v o = o.
Proof.
  induction o as [|[k x] o IH]; intros H; [reflexivity|].
  cbn [lookup update] in *. destruct (String.eqb key k).
  - inversion H; subst; reflexivity.
  - rewrite (IH H); reflexivity.
Qed.

Lemma remove_absent o key : lookup key o = None -> remove key o = o.
Proof.
  unfold remove. induction o as [|[k x] o IH]; intros H; [reflexivity|].
  cbn [lookup filter fst] in *. destruct (String.eqb key k); [discriminate|].
  cbn [negb]. rewrite (IH H); reflexivity.
Qed.

Lemma remove_insert_index o n key v :
  lookup key o = None -> remove key (insert_index n key v o) = o.
Proof.
  assert (Hhead : forall o', lookup key o' = None ->
                             remove key ((key, v) :: o') = o').
  { intros o' H. unfold remove; cbn [filter fst]. rewrite String.eqb_refl.
    cbn [negb]. apply remove_absent; exact H. }
  induction o as [|[k x] o IH]; intros H; cbn [insert_index].
  - apply (Hhead [] eq_refl).
  - pose proof H as H'. cbn [lookup] in H'.
    destruct (String.eqb key k) eqn:E; [discriminate|].
    destruct (array_index k) as [n'|]; [destruct (N.ltb n n')|];
      try (apply Hhead; exact H).
    unfold remove; cbn [filter fst]. rewrite E; cbn [negb].
    f_equal. apply IH; exact H'.
Qed.

Lemma remove_app_end o key v :
  lookup key o = None -> remove key (o ++ [(key, v)])%list = o.
Proof.
  intros H. unfold remove. rewrite filter_app. cbn [filter fst].
  rewrite String.eqb_refl. cbn [negb]. rewrite app_nil_r.
  apply remove_absent; exact H.
Qed.

Lemma keys_insert_index o n key v k :
  In k (keys (insert_index n key v o)) <-> k = key \/ In k (keys o).
Proof.
  unfold keys. induction o as [|[k' x] o IH]; cbn [insert_index map fst In].
  - intuition.
  - destruct (array_index k') as [n'|]; [destruct (N.ltb n n')|];
      cbn [map fst In]; try rewrite IH; intuition.
Qed.

Lemma keys_remove o key :
  keys (remove key o) = filter (fun k => negb (String.eqb key k)) (keys o).
Proof.
  unfold keys, remove. induction o as [|[k x] o IH]; [reflexivity|].
  cbn [filter map fst]. destruct (String.eqb key k); cbn [negb map fst];
    rewrite IH; reflexivity.
Qed.

End Props.

(** An array index determines its key. *)
Lemma array_index_inj (k k' : string) (n : N) :
  array_index k = Some n -> array_index k' = Some n -> k = k'.
Proof.
  unfold array_index. intros H H'.
  destruct (NilZero.uint_of_string k) as [d|]; [|discriminate].
  destruct (NilZero.uint_of_string k') as [d'|]; [|discriminate].
  destruct (_ && _) eqn:E in H; [|discriminate].
  destruct (_ && _) eqn:E' in H'; [|discriminate].
  inversion H; inversion H'; subst.
  apply andb_true_iff in E as [E _]. apply andb_true_iff in E' as [E' _].
  apply String.eqb_eq in E, E'. rewrite <- E, <- E', H2. reflexivity.
Qed.

Lemma precedes_non_index_r (k key : string) :
  array_index key = None -> precedes k key = true.
Proof. unfold precedes; intros ->. destruct (array_index k); reflexivity. Qed.

Lemma sorted_app_end (l : list string) (key : string) :
  StronglySorted (fun k k' => precedes k k' = true) l ->
  array_index key = None ->
  StronglySorted (fun k k' => precedes k k' = true) (l ++ [key]).
Proof.
  intros H Hk. induction H as [|a l Hl IH Ha]; cbn [app].
  - repeat constructor.
  - constructor; [exact IH|]. apply Forall_app; split; [exact Ha|].
    repeat constructor. apply precedes_non_index_r; exact Hk.
Qed.

Lemma sorted_filter (p : string -> bool) (l : list string) :
  StronglySorted (fun k k' => precedes k k' = true) l ->
  StronglySorted (fun k k' => precedes k k' = true) (filter p l).
Proof.
  induction 1 as [|a l Hl IH Ha]; cbn [filter]; [constructor|].
  destruct (p a); [|exact IH]. constructor; [exact IH|].
  apply Forall_forall. intros k Hk. apply filter_In in Hk as [Hk _].
  revert k Hk. apply Forall_forall. exact Ha.
Qed.

Lemma sorted_insert_index {A : Type} (o : list (string * A)) (n : N)
    (key : string) (v : A) :
  array_index key = Some n ->
  ~ In key (keys o) ->
  StronglySorted (fun k k' => precedes k k' = true) (keys o) ->
  StronglySorted (fun k k' => precedes k k' = true)
                 (keys (insert_index n key v o)).
Proof.
  intros Hn. induction o as [|[k x] o IH]; intros Hnot Hs;
    cbn [insert_index].
  - repeat constructor.
  - change (keys ((k, x) :: o)) with (k :: keys o) in *.
    apply StronglySorted_inv in Hs as [Hs Hk].
    assert (Hhead : (forall k', In k' (keys o) -> precedes key k' = true) ->
                    precedes key k = true ->
                    StronglySorted (fun k k' => precedes k k' = true)
                                   (key :: k :: keys o)).
    { intros H1 H2. constructor; [constructor; assumption|].
      constructor; [exact H2|]. apply Forall_forall; exact H1. }
    destruct (array_index k) as [n'|] eqn:Ek.
    + destruct (N.ltb n n') eqn:El.
      * apply Hhead.
        -- intros k' Hin. rewrite Forall_forall in Hk. specialize (Hk k' Hin).
           unfold precedes in *. rewrite Hn. rewrite Ek in Hk.
           destruct (array_index k') as [n''|]; [|reflexivity].
           apply N.ltb_lt in El, Hk. apply N.ltb_lt. lia.
        -- unfold precedes. rewrite Hn, Ek. exact El.
      * change (keys ((k, x) :: insert_index n key v o))
          with (k :: keys (insert_index n key v o)).
        constructor.
        -- apply IH; [|exact Hs]. intros Hin; apply Hnot; right; exact Hin.
        -- apply Forall_forall. intros k' Hin.
           apply keys_insert_index in Hin as [->|Hin].
           ++ unfold precedes. rewrite Hn, Ek. apply N.ltb_lt.
              apply N.ltb_ge in El.
              assert (n <> n').
              { intros ->. apply Hnot. left.
                apply (array_index_inj _ _ _ Ek Hn). }
              lia.
           ++ rewrite Forall_forall in Hk. apply Hk; exact Hin.
    + apply Hhead.
      * intros k' Hin. rewrite Forall_forall in Hk. specialize (Hk k' Hin).
        unfold precedes in *. rewrite Hn. rewrite Ek in Hk.
        destruct (array_index k'); [discriminate|reflexivity].
      * unfold precedes. rewrite Hn, Ek. reflexivity.
Qed.

(** Assignment keeps an object an object. *)
Lemma wf_set {A : Type} (o : list (string * A)) (key : string) (v : A) :
  wf o -> wf (set key v o).
Proof.
  intros [Hnd Hs]. unfold set. destruct (lookup key o) as [x|] eqn:E.
  - unfold wf. rewrite keys_update. split; assumption.
  - destruct (String.eqb key "__proto__"); [split; assumption|].
    apply lookup_None_keys in E.
    destruct (array_index key) as [n|] eqn:Ek.
    + split.
      * clear Hs. unfold keys in *.
        induction o as [|[k x] o IH]; cbn [insert_index].
        -- repeat constructor. intros [].
        -- cbn [map fst] in *. inversion Hnd as [|? ? Hk Hnd']; subst.
           assert (Hhead : NoDup (key :: k :: map fst o))
             by (constructor; assumption).
           destruct (array_index k) as [n'|]; [destruct (N.ltb n n')|];
             try exact Hhead.
           cbn [map fst]. constructor.
           ++ intros Hin. apply (keys_insert_index o n key v k) in Hin.
              destruct Hin as [->|Hin]; [apply E; left; reflexivity|].
              apply Hk; exact Hin.
           ++ apply IH; [exact Hnd'|]. intros Hin; apply E; right; exact Hin.
      * apply sorted_insert_index; assumption.
    + split.
      * unfold keys in *. rewrite map_app. cbn [map fst].
        apply NoDup_app. repeat split; try assumption.
        -- repeat constructor. intros [].
        -- intros k Hin [<-|[]]. apply E; exact Hin.
      * unfold keys in *. rewrite map_app. cbn [map fst].
        apply sorted_app_end; assumption.
Qed.

(** [delete] keeps an object an object. *)
Lemma wf_remove {A : Type} (o : list (string * A)) (key : string) :
  wf o -> wf (remove key o).
Proof.
  intros [Hnd Hs]. unfold wf. rewrite keys_remove. split.
  - apply NoDup_filter; exact Hnd.
  - apply sorted_filter; exact Hs.
Qed.

End ObjectFacts.

(** ** The trace of a call, step by step *)

Section Steps.

Variable P : Platform.
Variable this : AppOperation.

(** Whatever [getRequest] does, it does through [sendRequest], or it throws
    at once. *)
Lemma getRequest_cases (Q : M value -> Prop) (a : Args) :
  (forall u m s params b, Q (sendRequest P this u m s params b)) ->
  (forall e, Q ([], Throw e)) ->
  Q (getRequest P this a).
Proof.
  intros Hs Ht. unfold getRequest, delete, get, patch, post, put, lift.
  destruct (lookup (request a) (requests this));
    repeat match goal with
           | |- context [if ?c then _ else _] => destruct c
           end; auto.
Qed.

(** The events of [prepare]: the resolver, then the serialisation. *)
Lemma prepare_trace (m : Method) (params : option obj) (b : option Body) :
  trace (prepare P this m params b) =
  match append_all [("Content-Type", "application/json")] (staticHeaders this) with
  | Throw _ => []
  | Return h1 =>
      (match getDynamicHeaders this with
       | Some _ => [DynamicHeaders]
       | None => []
       end ++
       match append_all h1 (dynamicHeaders this) with
       | Throw _ => []
       | Return _ =>
           match b with
           | Some (ObjectBody v) => if truthy v then [Stringify v] else []
           | _ => []
           end
       end)%list
  end.
Proof.
  unfold prepare.
  rewrite trace_bind, trace_lift, result_lift, append_content_type. cbn [app].
  rewrite trace_bind, trace_lift, result_lift. cbn [app].
  destruct (append_all _ (staticHeaders this)) as [h1|e]; [|reflexivity].
  rewrite trace_bind, prepare_dynamic_result. f_equal.
  { destruct (getDynamicHeaders this); reflexivity. }
  rewrite trace_bind, trace_lift, result_lift. cbn [app].
  destruct (append_all h1 (dynamicHeaders this)) as [h2|e]; [|reflexivity].
  rewrite trace_bind.
  destruct b as [[fd|v]|].
  - rewrite trace_bind, trace_lift, result_lift. cbn [app].
    rewrite result_bind, result_lift.
    destruct (Headers.delete h2 "Content-Type") as [h3|e]; [|reflexivity].
    rewrite trace_bind, trace_lift, result_lift. cbn [app].
    rewrite result_bind, result_lift.
    destruct (Headers.append h3 _ _); reflexivity.
  - destruct (truthy v); [|reflexivity].
    rewrite trace_bind, result_bind. cbn [trace result emit fst snd app].
    rewrite trace_bind, result_bind, trace_lift, result_lift.
    destruct (JSON_stringify P v); reflexivity.
  - reflexivity.
Qed.

(** The trace of [sendRequest] once the base URL is set. *)
Lemma sendRequest_trace (u : string) (m : Method) (s : option bool)
    (params : option obj) (b : option Body) :
  Str.is_empty (baseUrl this) = false ->
  trace (sendRequest P this u m s params b) =
  (trace (prepare P this m params b) ++
   match result (prepare P this m params b) with
   | Return (o, pp) =>
       trace (attempt P this (default false s) u o pp) ++
       match result (attempt P this (default false s) u o pp) with
       | Return _ => []
       | Throw e => trace (on_error this (default false s) e)
       end
   | Throw _ => []
   end)%list.
Proof.
  intros E. rewrite sendRequest_set by exact E. rewrite trace_bind. f_equal.
  destruct (result (prepare P this m params b)) as [[o pp]|e]; [|reflexivity].
  apply trace_try_catch.
Qed.

Lemma on_error_trace (s : bool) (e : exn) :
  trace (on_error this s e) =
  if s then []
  else shown this error
         (Str (userMessage (if Str.is_empty (message e)
                            then "Unknown error" else message e))).
Proof.
  unfold on_error. rewrite trace_bind. destruct s; cbn [negb]; [reflexivity|].
  rewrite toast_trace, toast_result. cbn [trace ret fst]. apply app_nil_r.
Qed.

Lemma get_prop_non_null (data st : value) (k k' : string) :
  get_prop data k = Return st ->
  get_prop data k' = Return (get_prop_opt data k').
Proof.
  unfold get_prop_opt. destruct data; cbn [get_prop]; try discriminate;
    reflexivity.
Qed.

Lemma toast_shown (type : ToastType) (msg : value) :
  toast this type msg = (shown this type msg, Return tt).
Proof. unfold toast, shown. destruct (showToast this); reflexivity. Qed.

(** The toast logic in closed form, for a body whose [status] can be read. *)
Lemma notify_unsuppressed (data st : value) :
  get_prop data "status" = Return st ->
  notify this false data =
  if is_num st 200 || is_num st 201 then
    if truthy (get_prop_opt data "message")
    then (shown this success (get_prop_opt data "message"), Return tt)
    else ([], Return tt)
  else if is_num st 422 then
    match first_error data with
    | Return msg =>
        if truthy msg then (shown this error msg, Return tt)
        else ([], Return tt)
    | Throw e => ([], Throw e)
    end
  else if (is_num st 400 || is_num st 500)
          && truthy (get_prop_opt data "message")
  then (shown this error (get_prop_opt data "message"), Return tt)
  else ([], Return tt).
Proof.
  intros Hst.
  pose proof (get_prop_non_null data st "status" "message" Hst) as Hm.
  pose proof (get_prop_non_null data st "status" "errors" Hst) as He.
  unfold notify, first_error. cbn [negb]. rewrite Hst, Hm, He.
  unfold bind, lift, ret. cbv beta iota. rewrite !andb_true_r.
  rewrite !toast_shown.
  assert (Hz : forall n k, Z.eqb n k = true -> n = k)
    by (intros n k H; apply Z.eqb_eq; exact H).
  destruct st as [| |bo|n| | |]; cbn [is_num orb andb app]; try reflexivity.
  destruct (Z.eqb n 200) eqn:E200; [apply Hz in E200; subst n|];
    cbn [Z.eqb Pos.eqb orb andb app].
  { destruct (truthy (get_prop_opt data "message")); cbn [app];
      rewrite ?app_nil_r; reflexivity. }
  destruct (Z.eqb n 201) eqn:E201; [apply Hz in E201; subst n|];
    cbn [Z.eqb Pos.eqb orb andb app].
  { destruct (truthy (get_prop_opt data "message")); cbn [app];
      rewrite ?app_nil_r; reflexivity. }
  destruct (Z.eqb n 422) eqn:E422; [apply Hz in E422; subst n|];
    cbn [Z.eqb Pos.eqb orb andb app].
  { destruct (truthy (get_prop_opt data "errors")).
    - destruct (get_elem _ _) as [entry|e]; [|reflexivity].
      cbn [app]. destruct (get_prop entry "0") as [msg|e]; [|reflexivity].
      destruct (truthy msg); rewrite ?toast_shown; cbn [app];
        rewrite ?app_nil_r; reflexivity.
    - destruct (truthy (get_prop_opt data "message")); rewrite ?toast_shown;
        cbn [app]; rewrite ?app_nil_r; reflexivity. }
  destruct (Z.eqb n 400) eqn:E400; [apply Hz in E400; subst n|];
    cbn [Z.eqb Pos.eqb orb andb app].
  { destruct (truthy (get_prop_opt data "message")); cbn [app];
      rewrite ?app_nil_r; reflexivity. }
  destruct (Z.eqb n 500); cbn [orb andb app]; [|reflexivity].
  destruct (truthy (get_prop_opt data "message")); cbn [app];
    rewrite ?app_nil_r; reflexivity.
Qed.

(** A body whose [status] cannot be read makes the toast logic throw. *)
Lemma notify_null (s : bool) (data : value) (e : exn) :
  get_prop data "status" = Throw e ->
  notify this s data = ([], Throw e).
Proof.
  intros H. unfold notify. rewrite H. destruct s; reflexivity.
Qed.

(** With notifications suppressed only the read of [status] remains. *)
Lemma notify_suppressed_result (data : value) :
  result (notify this true data) =
  match get_prop data "status" with
  | Return _ => Return tt
  | Throw e => Throw e
  end.
Proof.
  unfold notify. cbn [negb]. rewrite result_bind. cbn [result ret snd].
  rewrite result_bind, result_lift.
  destruct (get_prop data "status") as [st|e]; [|reflexivity].
  rewrite !andb_false_r. destruct (is_num st 422); reflexivity.
Qed.

(** The toast logic calls the handler at most once, and not at all when it
    throws. *)
Lemma notify_once (s : bool) (data : value) :
  (trace (notify this s data) = [] \/
   exists type msg, trace (notify this s data) = shown this type msg /\
                    result (notify this s data) = Return tt).
Proof.
  destruct s; [left; apply notify_suppressed|].
  destruct (get_prop data "status") as [st|e] eqn:Hst.
  - rewrite (notify_unsuppressed data st Hst).
    repeat match goal with
           | |- context [if ?c then _ else _] => destruct c
           | |- context [match first_error ?d with _ => _ end] =>
               destruct (first_error d)
           end;
      try (left; reflexivity); right; eexists _, _; split; reflexivity.
  - rewrite (notify_null false data e Hst). left; reflexivity.
Qed.

Lemma shown_length (type : ToastType) (msg : value) :
  List.length (shown this type msg) <= 1.
Proof. unfold shown; destruct (showToast this); cbn; lia. Qed.

Lemma shown_toasts (type : ToastType) (msg : value) :
  toasts (shown this type msg) = shown this type msg.
Proof. unfold shown; destruct (showToast this); reflexivity. Qed.

Lemma toasts_only (t : list event) :
  Forall (fun ev => is_toast ev = true) t -> toasts t = t.
Proof.
  induction 1 as [|ev t Hev _ IH]; [reflexivity|].
  unfold toasts in *; cbn [filter]. rewrite Hev, IH. reflexivity.
Qed.

(** The toasts of a call that got past [prepare]. *)
Lemma sendRequest_toasts (u : string) (m : Method) (s : option bool)
    (params : option obj) (b : option Body) (o : RequestInit) (pp : string) :
  Str.is_empty (baseUrl this) = false ->
  result (prepare P this m params b) = Return (o, pp) ->
  toasts (trace (sendRequest P this u m s params b)) =
  match fetch P (baseUrl this ++ u ++ pp) o with
  | Return response =>
      match json response tt with
      | Return data =>
          (trace (notify this (default false s) data) ++
           match result (notify this (default false s) data) with
           | Return _ => []
           | Throw e => trace (on_error this (default false s) e)
           end)%list
      | Throw e => trace (on_error this (default false s) e)
      end
  | Throw e => trace (on_error this (default false s) e)
  end.
Proof.
  intros E H. rewrite (sendRequest_trace u m s params b E), H, toasts_app.
  rewrite (none_toasts (trace (prepare P this m params b))).
  2:{ eapply Forall_impl; [|apply prepare_silent]. intros ev [H' _]; exact H'. }
  rewrite toasts_app, attempt_trace, attempt_result.
  assert (Ho : forall e, toasts (trace (on_error this (default false s) e))
                         = trace (on_error this (default false s) e))
    by (intros e; apply toasts_only, on_error_only_toasts).
  unfold toasts at 1; cbn [filter is_toast app]. fold (toasts).
  destruct (fetch P _ o) as [response|e]; [|apply Ho].
  unfold toasts at 1; cbn [filter is_toast app].
  destruct (json response tt) as [data|e]; [|apply Ho].
  fold (toasts (trace (notify this (default false s) data))).
  rewrite (toasts_only _ (notify_only_toasts this (default false s) data)).
  destruct (result (notify _ _ _)); [reflexivity|]. rewrite Ho; reflexivity.
Qed.

(** How often [sendRequest] does each thing. *)
Lemma sendRequest_counts (u : string) (m : Method) (s : option bool)
    (params : option obj) (b : option Body) :
  let t := trace (sendRequest P this u m s params b) in
  List.length (fetch_calls t) <= 1 /\
  List.length (json_calls t) <= List.length (fetch_calls t) /\
  List.length (resolver_calls t) <= 1 /\
  List.length (stringified t) <= 1 /\
  List.length (toasts t) <= 1.
Proof.
  cbv zeta. destruct (Str.is_empty (baseUrl this)) eqn:E.
  - rewrite sendRequest_unset by exact E. cbn [trace fst].
    destruct (default false s), (showToast this); cbn; lia.
  - rewrite (sendRequest_trace u m s params b E), prepare_trace.
    destruct (result (prepare P this m params b)) as [[o pp]|e'].
    + rewrite attempt_trace, attempt_result.
      repeat first
        [ match goal with
          | |- context [trace (notify ?t ?f ?d)] =>
              destruct (notify_once f d) as [Ht|(ty & msg & Ht & Hr)];
              rewrite Ht, ?Hr
          end
        | rewrite on_error_trace
        | match goal with
          | |- context [match ?x with _ => _ end] => destruct x
          end ];
        unfold shown; destruct (showToast this); cbn; lia.
    + repeat match goal with
             | |- context [match ?x with _ => _ end] => destruct x
             end; cbn; lia.
Qed.

(** Without a handler nothing [sendRequest] does is a toast. *)
Lemma sendRequest_no_handler (u : string) (m : Method) (s : option bool)
    (params : option obj) (b : option Body) :
  showToast this = None ->
  toasts (trace (sendRequest P this u m s params b)) = [].
Proof.
  intros Hnone.
  assert (Hs : forall type msg, shown this type msg = [])
    by (intros; unfold shown; rewrite Hnone; reflexivity).
  assert (Ho : forall f e, trace (on_error this f e) = [])
    by (intros f e; rewrite on_error_trace, Hs; destruct f; reflexivity).
  assert (Hn : forall f d, trace (notify this f d) = []).
  { intros f d. destruct (notify_once f d) as [Ht|(ty & msg & Ht & _)];
      rewrite Ht; [reflexivity|apply Hs]. }
  destruct (Str.is_empty (baseUrl this)) eqn:E.
  - rewrite sendRequest_unset by exact E. cbn [trace fst]. rewrite Hnone.
    destruct (default false s); reflexivity.
  - destruct (result (prepare P this m params b)) as [[o pp]|e] eqn:Hp.
    + rewrite (sendRequest_toasts u m s params b o pp E Hp).
      destruct (fetch P _ o) as [r|e]; [|apply Ho].
      destruct (json r tt) as [d|e]; [|apply Ho].
      rewrite Hn. destruct (result (notify _ _ _)); [reflexivity|apply Ho].
    + rewrite (sendRequest_trace u m s params b E), Hp, app_nil_r.
      apply none_toasts. eapply Forall_impl; [|apply prepare_silent].
      intros ev [H' _]; exact H'.
Qed.

(** The events that are not toasts. *)
Lemma toast_free (p : event -> bool) (t : list event) :
  (forall type msg, p (Toast type msg) = false) ->
  Forall (fun ev => is_toast ev = true) t -> filter p t = [].
Proof.
  intros Hp. induction 1 as [|ev t Hev _ IH]; [reflexivity|].
  destruct ev; try discriminate. cbn [filter]. rewrite Hp. exact IH.
Qed.

End Steps.

(** ** The request that is prepared *)

Section Prepared.

Variable P : Platform.
Variable this : AppOperation.

(** What [prepare] returns, case by case. *)
Lemma prepare_result (m : Method) (params : option obj) (b : option Body) :
  result (prepare P this m params b) =
  let pp := match params with Some p => parseParams p | None => "" end in
  match append_all [("Content-Type", "application/json")] (staticHeaders this) with
  | Throw e => Throw e
  | Return h1 =>
      match append_all h1 (dynamicHeaders this) with
      | Throw e => Throw e
      | Return h2 =>
          match b with
          | Some (FormBody fd) =>
              match Headers.delete h2 "Content-Type" with
              | Throw e => Throw e
              | Return h3 =>
                  match Headers.append h3 "Content-Type" "multipart/form-data" with
                  | Throw e => Throw e
                  | Return h4 =>
                      Return (mkRequestInit m h4 (Some (BodyFormData fd)), pp)
                  end
              end
          | Some (ObjectBody v) =>
              if truthy v then
                match JSON_stringify P v with
                | Return str =>
                    Return (mkRequestInit m h2 (Some (BodyString str)), pp)
                | Throw e => Throw e
                end
              else Return (mkRequestInit m h2 None, pp)
          | None => Return (mkRequestInit m h2 None, pp)
          end
      end
  end.
Proof.
  unfold prepare. cbv zeta.
  rewrite result_bind, result_lift, append_content_type.
  rewrite result_bind, result_lift.
  destruct (append_all _ (staticHeaders this)) as [h1|e]; [|reflexivity].
  rewrite result_bind, prepare_dynamic_result.
  rewrite result_bind, result_lift.
  destruct (append_all h1 (dynamicHeaders this)) as [h2|e]; [|reflexivity].
  rewrite result_bind.
  destruct b as [[fd|v]|].
  - rewrite ?result_bind, ?result_lift.
    destruct (Headers.delete h2 "Content-Type") as [h3|e]; [|reflexivity].
    rewrite ?result_bind, ?result_lift.
    destruct (Headers.append h3 _ _); reflexivity.
  - destruct (truthy v); [|reflexivity].
    rewrite ?result_bind, ?result_lift. cbn [result emit snd].
    rewrite ?result_bind, ?result_lift.
    destruct (JSON_stringify P v); reflexivity.
  - reflexivity.
Qed.

(** A call that [prepare] ends with a throw: the exception leaves
    [sendRequest], nothing is fetched and nothing notified. *)
Lemma sendRequest_prepare_throws (u : string) (m : Method) (s : option bool)
    (params : option obj) (b : option Body) (e : exn) :
  Str.is_empty (baseUrl this) = false ->
  result (prepare P this m params b) = Throw e ->
  result (sendRequest P this u m s params b) = Throw e /\
  trace (sendRequest P this u m s params b)
    = trace (prepare P this m params b) /\
  fetch_calls (trace (sendRequest P this u m s params b)) = [] /\
  toasts (trace (sendRequest P this u m s params b)) = [].
Proof.
  intros E H. split; [|split; [|split]].
  - rewrite sendRequest_set by exact E. rewrite result_bind, H. reflexivity.
  - rewrite (sendRequest_trace P this u m s params b E), H. apply app_nil_r.
  - rewrite sendRequest_fetch_calls, E, H. reflexivity.
  - rewrite (sendRequest_trace P this u m s params b E), H, app_nil_r.
    apply none_toasts. eapply Forall_impl; [|apply prepare_silent].
    intros ev [H' _]; exact H'.
Qed.

(** What is neither a toast, a network call nor a parse happens in
    [prepare]. *)
Lemma sendRequest_before_try (p : event -> bool) (u : string) (m : Method)
    (s : option bool) (params : option obj) (b : option Body) :
  (forall type msg, p (Toast type msg) = false) ->
  (forall u' o, p (FetchCall u' o) = false) ->
  p JsonCall = false ->
  filter p (trace (sendRequest P this u m s params b)) =
  if Str.is_empty (baseUrl this) then []
  else filter p (trace (prepare P this m params b)).
Proof.
  intros Hp Hf Hj. destruct (Str.is_empty (baseUrl this)) eqn:E.
  - rewrite sendRequest_unset by exact E. cbn [trace fst].
    destruct (default false s), (showToast this); cbn [filter]; rewrite ?Hp;
      reflexivity.
  - rewrite (sendRequest_trace P this u m s params b E), filter_app.
    destruct (result (prepare P this m params b)) as [[o pp]|e];
      [|apply app_nil_r].
    rewrite filter_app, attempt_trace. cbn [filter]. rewrite Hf.
    assert (Ho : forall f e, filter p (trace (on_error this f e)) = [])
      by (intros f e; apply (toast_free p _ Hp), on_error_only_toasts).
    assert (Hn : forall f d, filter p (trace (notify this f d)) = [])
      by (intros f d; apply (toast_free p _ Hp), notify_only_toasts).
    destruct (fetch P _ o) as [r|e].
    + cbn [filter]. rewrite Hj. rewrite attempt_result.
      destruct (fetch P _ o) as [r'|e']; destruct (json r tt) as [d|e''];
        rewrite ?Hn, ?Ho; try (destruct (json r' tt));
        try (destruct (result (notify _ _ _))); rewrite ?Ho, ?Hn;
        rewrite ?app_nil_r; reflexivity.
    + cbn [filter]. destruct (result (attempt _ _ _ _ _ _)); rewrite ?Ho;
        rewrite ?app_nil_r; reflexivity.
Qed.

Lemma append_all_app (l1 l2 : list (string * string)) :
  forall h,
    append_all h (l1 ++ l2) =
    match append_all h l1 with
    | Return h1 => append_all h1 l2
    | Throw e => Throw e
    end.
Proof.
  induction l1 as [|[k v] l1 IH]; intros h; cbn [app append_all];
    [reflexivity|].
  destruct (Headers.append h k v); [apply IH|reflexivity].
Qed.

(** A record with a name that is not a token is rejected. *)
Lemma append_all_rejects (record : list (string * string)) (k v : string) :
  In (k, v) record ->
  Headers.is_header_name k = false ->
  forall h, exists e, append_all h record = Throw e.
Proof.
  intros Hin Hk. induction record as [|[k' v'] record IH]; [contradiction|].
  intros h. cbn [append_all].
  destruct (Headers.append h k' v') as [h'|e] eqn:E; [|exists e; reflexivity].
  destruct Hin as [Hin|Hin]; [|apply IH; exact Hin].
  inversion Hin; subst. unfold Headers.append in E. rewrite Hk in E.
  discriminate.
Qed.

Lemma is_empty_false (x : string) : x <> "" -> Str.is_empty x = false.
Proof. destruct x; [congruence|reflexivity]. Qed.

End Prepared.

(** ** Routing, counting, notifying *)

Section Further.

Variable P : Platform.
Variable this : AppOperation.

(** X1.  Every network call of [getRequest] uses the verb of the registry
    entry, for each of the five verbs. *)
Theorem request_uses_registered_verb (a : Args) (entry : AppOperationRequest)
    (u : string) (o : RequestInit) :
  lookup (request a) (requests this) = Some entry ->
  In (FetchCall u o) (trace (getRequest P this a)) ->
  method_name (method o) = req_method entry.
Proof.
  intros E H. rewrite (getRequest_registered P this a entry E) in H.
  cbv zeta in H.
  repeat match type of H with
         | context [if String.eqb ?x ?y then _ else _] =>
             destruct (String.eqb_spec x y) as [Heq|?];
             [apply fetch_prepared in H as (_ & pp & H & _);
              apply prepare_inv in H as (_ & _ & _ & _ & _ & Hm & _);
              rewrite Hm, Heq; reflexivity|]
         end.
  destruct H.
Qed.

(** X2.  A registry entry whose verb is none of the five (compared as
    written, so lower case counts as another verb) makes [getRequest] throw
    "Unsupported method ..." before anything else is done. *)
Theorem unsupported_verb_throws (a : Args) (entry : AppOperationRequest) :
  lookup (request a) (requests this) = Some entry ->
  ~ supported (req_method entry) ->
  getRequest P this a =
  ([], Throw (Error ("Unsupported method " ++ req_method entry))).
Proof.
  intros E H. rewrite (getRequest_registered P this a entry E). cbv zeta.
  unfold supported in H; cbn [In] in H.
  repeat match goal with
         | |- context [if String.eqb ?x ?y then _ else _] =>
             destruct (String.eqb_spec x y) as [Heq|?];
             [exfalso; apply H; rewrite Heq; tauto|]
         end.
  reflexivity.
Qed.

(** X3.  One call of [getRequest] makes at most one network call, parses a
    response at most once and only after a network call, invokes the
    resolver of dynamic headers at most once and serialises a body at most
    once: there is no retry. *)
Theorem call_does_each_step_once (a : Args) :
  let t := trace (getRequest P this a) in
  List.length (fetch_calls t) <= 1 /\
  List.length (json_calls t) <= List.length (fetch_calls t) /\
  List.length (resolver_calls t) <= 1 /\
  List.length (stringified t) <= 1.
Proof.
  apply (getRequest_cases P this
           (fun c => let t := trace c in
                     List.length (fetch_calls t) <= 1 /\
                     List.length (json_calls t) <= List.length (fetch_calls t) /\
                     List.length (resolver_calls t) <= 1 /\
                     List.length (stringified t) <= 1)).
  - intros u m s params b.
    pose proof (sendRequest_counts P this u m s params b) as H.
    cbv zeta in *. tauto.
  - intros e. cbn. lia.
Qed.

End Further.

(** ** Headers and bodies of the request *)

Section Requests.

Variable P : Platform.
Variable this : AppOperation.

(** X6.  A static or dynamic header whose name is not a valid header name
    (empty, or with a space, say) makes the call throw: the exception
    leaves [sendRequest], no network call is made and nothing is
    notified, suppressed or not. *)
Theorem rejected_header_aborts (u : string) (m : Method) (s : option bool)
    (params : option obj) (b : option Body) (k v : string) :
  baseUrl this <> "" ->
  In (k, v) (staticHeaders this ++ dynamicHeaders this) ->
  Headers.is_header_name k = false ->
  (exists e, result (sendRequest P this u m s params b) = Throw e) /\
  fetch_calls (trace (sendRequest P this u m s params b)) = [] /\
  toasts (trace (sendRequest P this u m s params b)) = [].
Proof.
  intros Hb Hin Hk. apply is_empty_false in Hb.
  destruct (append_all_rejects _ k v Hin Hk
              [("Content-Type", "application/json")]) as [e He].
  rewrite append_all_app in He.
  assert (Hp : exists e', result (prepare P this m params b) = Throw e').
  { rewrite prepare_result. cbv zeta.
    destruct (append_all _ (staticHeaders this)) as [h1|e1];
      [|eexists; reflexivity].
    rewrite He. eexists; reflexivity. }
  destruct Hp as [e' Hp].
  destruct (sendRequest_prepare_throws P this u m s params b e' Hb Hp)
    as (Hr & _ & Hf & Ht).
  split; [exists e'; exact Hr|]. split; assumption.
Qed.

(** X7.  When [JSON.stringify] throws on the body, the exception leaves
    [sendRequest] unconverted: no envelope is synthesized, no network call
    is made and nothing is notified. *)
Theorem stringify_failure_propagates (u : string) (m : Method)
    (s : option bool) (params : option obj) (v : value) (e : exn) :
  baseUrl this <> "" ->
  valid_headers (staticHeaders this) ->
  valid_headers (dynamicHeaders this) ->
  truthy v = true ->
  JSON_stringify P v = Throw e ->
  result (sendRequest P this u m s params (Some (ObjectBody v))) = Throw e /\
  fetch_calls (trace (sendRequest P this u m s params (Some (ObjectBody v))))
    = [] /\
  toasts (trace (sendRequest P this u m s params (Some (ObjectBody v)))) = [].
Proof.
  intros Hb Hs Hd Hv He. apply is_empty_false in Hb.
  assert (Hp : result (prepare P this m params (Some (ObjectBody v)))
               = Throw e).
  { rewrite prepare_result. cbv zeta.
    destruct (append_all_valid _ Hs [("Content-Type", "application/json")])
      as [h1 ->].
    destruct (append_all_valid _ Hd h1) as [h2 ->].
    rewrite Hv, He. reflexivity. }
  destruct (sendRequest_prepare_throws P this u m s params _ e Hb Hp)
    as (Hr & _ & Hf & Ht).
  repeat split; assumption.
Qed.

(** X8.  With a multipart form as body the request carries the form itself,
    unserialised, and its Content-Type reads exactly "multipart/form-data":
    the default and any Content-Type among the static or dynamic headers
    are removed. *)
Theorem multipart_body_passes_through (u : string) (m : Method)
    (s : option bool) (params : option obj) (fd : FormData)
    (u' : string) (o : RequestInit) :
  In (FetchCall u' o)
     (trace (sendRequest P this u m s params (Some (FormBody fd)))) ->
  body o = Some (BodyFormData fd) /\
  Headers.get (headers o) "Content-Type" = Some "multipart/form-data" /\
  stringified (trace (sendRequest P this u m s params (Some (FormBody fd))))
    = [].
Proof.
  intros H. split; [|split].
  - apply fetch_prepared in H as (_ & pp & H & _).
    apply prepare_inv in H as (_ & _ & _ & _ & _ & _ & h3 & _ & _ & H).
    exact H.
  - unfold Headers.get.
    rewrite (outgoing_header_values P this _ _ _ _ _ _ _ "Content-Type" H).
    reflexivity.
  - unfold stringified.
    rewrite sendRequest_before_try by reflexivity.
    destruct (Str.is_empty (baseUrl this)); [reflexivity|].
    rewrite prepare_trace.
    destruct (append_all _ (staticHeaders this)); [|reflexivity].
    destruct (getDynamicHeaders this), (append_all _ (dynamicHeaders this));
      reflexivity.
Qed.

(** X9.  A body that is not a form is serialised exactly once, and the
    request carries the string [JSON.stringify] returned. *)
Theorem object_body_is_serialised (u : string) (m : Method)
    (s : option bool) (params : option obj) (v : value)
    (u' : string) (o : RequestInit) :
  truthy v = true ->
  In (FetchCall u' o)
     (trace (sendRequest P this u m s params (Some (ObjectBody v)))) ->
  (exists str, JSON_stringify P v = Return str /\
               body o = Some (BodyString str)) /\
  stringified (trace (sendRequest P this u m s params (Some (ObjectBody v))))
    = [Stringify v].
Proof.
  intros Hv H. apply fetch_prepared in H as (E & pp & H & _). split.
  - apply prepare_inv in H as (_ & _ & _ & _ & _ & _ & _ & H).
    rewrite Hv in H. exact H.
  - unfold stringified.
    rewrite sendRequest_before_try by reflexivity.
    rewrite E, prepare_trace. rewrite prepare_result in H. cbv zeta in H.
    destruct (append_all _ (staticHeaders this)) as [h1|]; [|discriminate].
    destruct (append_all h1 (dynamicHeaders this)); [|discriminate].
    rewrite Hv. destruct (getDynamicHeaders this); reflexivity.
Qed.

(** X10.  The default Content-Type cannot be overridden by configuration:
    unless the body is a form, the Content-Type of the request reads
    "application/json" followed by whatever the static and the dynamic
    headers say under that name. *)
Theorem default_content_type_stays_first (u : string) (m : Method)
    (s : option bool) (params : option obj) (b : option Body)
    (u' : string) (o : RequestInit) :
  (forall fd, b <> Some (FormBody fd)) ->
  In (FetchCall u' o) (trace (sendRequest P this u m s params b)) ->
  Headers.get (headers o) "Content-Type" =
  Some (Str.join ", "
          ("application/json"
             :: record_values "Content-Type" (staticHeaders this)
             ++ record_values "Content-Type" (dynamicHeaders this))).
Proof.
  intros Hb H. unfold Headers.get.
  rewrite (outgoing_header_values P this _ _ _ _ _ _ _ "Content-Type" H).
  change (Headers.name_eq "Content-Type" "Content-Type") with true.
  destruct b as [[fd|v]|]; try reflexivity.
  exfalso. apply (Hb fd). reflexivity.
Qed.

End Requests.

(** ** The notification that follows each outcome *)

Section Outcomes.

Variable P : Platform.
Variable this : AppOperation.

(** A parsed body: what is returned and what is notified. *)
Lemma sendRequest_answered (u : string) (m : Method) (s : option bool)
    (params : option obj) (b : option Body) (u' : string) (o : RequestInit)
    (r : Response) (data : value) :
  In (FetchCall u' o) (trace (sendRequest P this u m s params b)) ->
  fetch P u' o = Return r ->
  json r tt = Return data ->
  forall t, notify this (default false s) data = (t, Return tt) ->
  result (sendRequest P this u m s params b) = Return data /\
  toasts (trace (sendRequest P this u m s params b)) = t.
Proof.
  intros H Hr Hd t Hn. split.
  - rewrite (sendRequest_parsed P this _ _ _ _ _ _ _ _ _ H Hr Hd), Hn.
    reflexivity.
  - apply fetch_prepared in H as (E & pp & H & ->).
    rewrite (sendRequest_toasts P this u m s params b o pp E H), Hr, Hd, Hn.
    apply app_nil_r.
Qed.






(** X15.  A parsed body with any other status (401, 404, none at all, ...)
    is returned as it is and never notified. *)
Theorem other_status_is_silent (u : string) (m : Method)
    (s : option bool) (params : option obj) (b : option Body) (u' : string)
    (o : RequestInit) (r : Response) (data st : value) :
  In (FetchCall u' o) (trace (sendRequest P this u m s params b)) ->
  fetch P u' o = Return r ->
  json r tt = Return data ->
  get_prop data "status" = Return st ->
  noted st = false ->
  result (sendRequest P this u m s params b) = Return data /\
  toasts (trace (sendRequest P this u m s params b)) = [].
Proof.
  intros H Hr Hd Hst Hn.
  apply (sendRequest_answered _ _ _ _ _ _ _ _ _ H Hr Hd).
  destruct (default false s).
  - assert (Ht := notify_suppressed this data).
    assert (Hres := notify_suppressed_result this data). rewrite Hst in Hres.
    destruct (notify this true data) as [t res]. cbn in Ht, Hres. subst.
    reflexivity.
  - rewrite (notify_unsuppressed this _ _ Hst). unfold noted in Hn.
    repeat (apply orb_false_iff in Hn as [Hn ?]).
    repeat match goal with Heq : is_num st _ = false |- _ =>
                             rewrite Heq; clear Heq end.
    reflexivity.
Qed.

(** X16.  With notifications suppressed every parsed body other than
    [null] is returned as it is, whatever its status and its [errors], and
    nothing is notified. *)
Theorem suppressed_body_is_returned (u : string) (m : Method)
    (params : option obj) (b : option Body) (u' : string)
    (o : RequestInit) (r : Response) (data : value) :
  In (FetchCall u' o) (trace (sendRequest P this u m (Some true) params b)) ->
  fetch P u' o = Return r ->
  json r tt = Return data ->
  data <> Null -> data <> Undefined ->
  result (sendRequest P this u m (Some true) params b) = Return data /\
  toasts (trace (sendRequest P this u m (Some true) params b)) = [].
Proof.
  intros H Hr Hd Hnull Hundef.
  apply (sendRequest_answered _ _ _ _ _ _ _ _ _ H Hr Hd). cbn [default].
  assert (Ht := notify_suppressed this data).
  assert (Hres := notify_suppressed_result this data).
  destruct (notify this true data) as [t res]. cbn in Ht, Hres. subst.
  destruct data; try congruence; reflexivity.
Qed.


End Outcomes.

(** ** The mutators *)

Section ObjectMore.

Context {A : Type}.
Implicit Types (o : list (string * A)) (key k : string) (v x : A).

Lemma update_update o key v1 v2 :
  Object.update key v2 (Object.update key v1 o) = Object.update key v2 o.
Proof.
  induction o as [|[k x] o IH]; [reflexivity|]. cbn [Object.update].
  destruct (String.eqb key k) eqn:E; cbn [Object.update]; rewrite E;
    [|rewrite IH]; reflexivity.
Qed.

Lemma update_insert_index o n key v1 v2 :
  lookup key o = None ->
  Object.update key v2 (Object.insert_index n key v1 o)
    = Object.insert_index n key v2 o.
Proof.
  assert (Hhead : forall o', Object.update key v2 ((key, v1) :: o')
                             = (key, v2) :: o').
  { intros o'. cbn [Object.update]. rewrite String.eqb_refl. reflexivity. }
  induction o as [|[k x] o IH]; intros H; cbn [Object.insert_index].
  - apply Hhead.
  - cbn [lookup] in H. destruct (String.eqb key k) eqn:E; [discriminate|].
    destruct (Object.array_index k) as [n'|]; [destruct (N.ltb n n')|];
      try apply Hhead.
    cbn [Object.update]. rewrite E, (IH H). reflexivity.
Qed.

Lemma update_app_end o key v1 v2 :
  lookup key o = None ->
  Object.update key v2 (o ++ [(key, v1)]) = (o ++ [(key, v2)])%list.
Proof.
  induction o as [|[k x] o IH]; intros H; cbn [app Object.update].
  - rewrite String.eqb_refl. reflexivity.
  - cbn [lookup] in H. destruct (String.eqb key k); [discriminate|].
    rewrite (IH H). reflexivity.
Qed.

(** Of two assignments to one key the second decides. *)
Lemma set_set o key v1 v2 :
  Object.set key v2 (Object.set key v1 o) = Object.set key v2 o.
Proof.
  destruct (lookup key o) as [x|] eqn:E.
  - unfold Object.set at 1.
    rewrite ObjectFacts.lookup_set_same by (right; congruence).
    unfold Object.set. rewrite E. apply update_update.
  - destruct (String.eqb key "__proto__") eqn:Ep.
    + assert (Hs : forall v, Object.set key v o = o)
        by (intros v; unfold Object.set; rewrite E, Ep; reflexivity).
      rewrite !Hs. reflexivity.
    + unfold Object.set at 1.
      rewrite ObjectFacts.lookup_set_same
        by (left; apply String.eqb_neq; exact Ep).
      unfold Object.set. rewrite E, Ep.
      destruct (Object.array_index key) as [n|].
      * apply update_insert_index; exact E.
      * apply update_app_end; exact E.
Qed.

Lemma remove_set_absent o key v :
  lookup key o = None -> Object.remove key (Object.set key v o) = o.
Proof.
  intros E. unfold Object.set. rewrite E.
  destruct (String.eqb key "__proto__");
    [apply ObjectFacts.remove_absent; exact E|].
  destruct (Object.array_index key) as [n|].
  - apply ObjectFacts.remove_insert_index; exact E.
  - apply ObjectFacts.remove_app_end; exact E.
Qed.

Lemma keys_set o key v k :
  In k (keys (Object.set key v o)) -> k = key \/ In k (keys o).
Proof.
  intros H. destruct (String.eqb_spec k key) as [->|Hne]; [left; reflexivity|].
  right. destruct (in_dec string_dec k (keys o)) as [Hin|Hnot]; [exact Hin|].
  exfalso. apply ObjectFacts.lookup_None_keys in Hnot.
  assert (Hl : lookup k (Object.set key v o) = None).
  { unfold Object.set. destruct (lookup key o) as [x|] eqn:E.
    - rewrite ObjectFacts.lookup_update. apply String.eqb_neq in Hne.
      rewrite Hne. exact Hnot.
    - destruct (String.eqb key "__proto__"); [exact Hnot|].
      apply String.eqb_neq in Hne.
      destruct (Object.array_index key) as [n|].
      + rewrite ObjectFacts.lookup_insert_index by exact E.
        rewrite Hne. exact Hnot.
      + rewrite ObjectFacts.lookup_app_end by exact E.
        rewrite Hne. exact Hnot. }
  apply ObjectFacts.lookup_None_keys in Hl. contradiction.
Qed.

End ObjectMore.

(** A key that alone bears its header name holds that header's only value. *)
Lemma single_match (o : list (string * string)) (key v : string) :
  NoDup (keys o) ->
  lookup key o = Some v ->
  (forall k, In k (keys o) -> Headers.name_eq k key = true -> k = key) ->
  filter (Headers.matches key) o = [(key, v)].
Proof.
  unfold keys. induction o as [|[k x] o IH]; intros Hnd Hl Hu; [discriminate|].
  cbn [map fst] in *. inversion Hnd as [|? ? Hk Hnd']; subst.
  cbn [lookup filter] in *. unfold Headers.matches at 1. cbn [fst].
  destruct (String.eqb key k) eqn:E.
  - apply String.eqb_eq in E; subst k. inversion Hl; subst x.
    unfold Headers.name_eq. rewrite String.eqb_refl. f_equal.
    assert (Hnone : forall l, (forall kv, In kv l -> In (fst kv) (map fst o)) ->
                              filter (Headers.matches key) l = []).
    { induction l as [|kv l IHl]; intros Hsub; [reflexivity|].
      cbn [filter]. unfold Headers.matches at 1.
      destruct (Headers.name_eq (fst kv) key) eqn:En.
      - exfalso. apply Hk.
        rewrite <- (Hu (fst kv)); [apply Hsub; left; reflexivity| |exact En].
        right. apply Hsub; left; reflexivity.
      - apply IHl. intros kv' Hin. apply Hsub; right; exact Hin. }
    apply Hnone. intros kv Hin. apply in_map; exact Hin.
  - destruct (Headers.name_eq k key) eqn:En.
    + apply String.eqb_neq in E. exfalso. apply E. symmetry.
      apply Hu; [left; reflexivity|exact En].
    + apply IH; [exact Hnd'|exact Hl|].
      intros k' Hin. apply Hu. right; exact Hin.
Qed.

Lemma no_match_after_remove (o : list (string * string)) (key : string) :
  (forall k, In k (keys o) -> Headers.name_eq k key = true -> k = key) ->
  filter (Headers.matches key) (Object.remove key o) = [].
Proof.
  unfold keys, Object.remove. intros Hu.
  induction o as [|[k x] o IH]; [reflexivity|]. cbn [filter fst map] in *.
  assert (IH' := IH (fun k' Hin => Hu k' (or_intror Hin))).
  destruct (String.eqb key k) eqn:E; cbn [negb filter]; [exact IH'|].
  unfold Headers.matches at 1. cbn [fst].
  destruct (Headers.name_eq k key) eqn:En; [|exact IH'].
  apply String.eqb_neq in E. exfalso. apply E. symmetry.
  apply Hu; [left; reflexivity|exact En].
Qed.

Section Mutators.

Variable P : Platform.
Variable this : AppOperation.

(** X18.  Reading after writing: after [setStaticHeader(key, value)] the
    record of static headers holds [value] under [key], after
    [deleteStaticHeader(key)] it holds nothing there, and in both cases
    every other key holds what it held.  (The key [__proto__] is apart.) *)
Theorem static_header_read_after_write (key value k : string) :
  key <> "__proto__" ->
  lookup k (staticHeaders (setStaticHeader this key value)) =
    (if String.eqb k key then Some value else lookup k (staticHeaders this))
  /\
  lookup k (staticHeaders (deleteStaticHeader this key)) =
    (if String.eqb k key then None else lookup k (staticHeaders this)).
Proof.
  intros H.
  split; [apply ObjectFacts.lookup_set; exact H|apply ObjectFacts.lookup_remove].
Qed.

(** X20.  Of two calls of [setStaticHeader] with one key the second
    decides, and the header keeps its place: setting twice is setting once
    with the last value; in particular the call is idempotent. *)
Theorem static_header_last_write_wins (key v1 v2 : string) :
  setStaticHeader (setStaticHeader this key v1) key v2
    = setStaticHeader this key v2.
Proof.
  unfold setStaticHeader. cbn [baseUrl requests staticHeaders
                               getDynamicHeaders showToast].
  rewrite set_set. reflexivity.
Qed.

(** X21.  Deleting a header that is not set changes nothing, and deleting a
    header that was newly set gives back the object as it was. *)
Theorem static_header_set_then_delete (key value : string) :
  lookup key (staticHeaders this) = None ->
  deleteStaticHeader this key = this /\
  deleteStaticHeader (setStaticHeader this key value) key = this.
Proof.
  intros H. unfold deleteStaticHeader, setStaticHeader.
  cbn [baseUrl requests staticHeaders getDynamicHeaders showToast].
  rewrite (remove_set_absent _ _ _ H), (ObjectFacts.remove_absent _ _ H).
  destruct this; split; reflexivity.
Qed.

(** X23.  A header set with [setStaticHeader] is sent with the next
    request: where no other static or dynamic header bears that name, the
    request carries exactly the value set, trimmed. *)
Theorem set_header_is_sent (key value : string) (u : string) (m : Method)
    (s : option bool) (params : option obj) (b : option Body)
    (u' : string) (o : RequestInit) :
  key <> "__proto__" ->
  Object.wf (staticHeaders this) ->
  (forall k, In k (keys (staticHeaders this)) ->
             Headers.name_eq k key = true -> k = key) ->
  record_values key (dynamicHeaders this) = [] ->
  Headers.name_eq "Content-Type" key = false ->
  In (FetchCall u' o)
     (trace (sendRequest P (setStaticHeader this key value) u m s params b)) ->
  Headers.get (headers o) key = Some (Headers.normalize value).
Proof.
  intros Hp Hwf Hu Hd Hct H. unfold Headers.get.
  rewrite (outgoing_header_values P _ _ _ _ _ _ _ _ key H), Hct.
  change (dynamicHeaders (setStaticHeader this key value))
    with (dynamicHeaders this).
  rewrite Hd, app_nil_r.
  change (staticHeaders (setStaticHeader this key value))
    with (Object.set key value (staticHeaders this)).
  unfold record_values. rewrite (single_match _ key value).
  - reflexivity.
  - apply (ObjectFacts.wf_set _ key value Hwf).
  - apply ObjectFacts.lookup_set_same. left; exact Hp.
  - intros k Hin Hk. apply keys_set in Hin as [->|Hin]; [reflexivity|].
    apply Hu; assumption.
Qed.

(** X24.  A header removed with [deleteStaticHeader] is not sent any more:
    where no other static or dynamic header bears that name, the next
    request has no such header. *)
Theorem deleted_header_is_not_sent (key : string) (u : string) (m : Method)
    (s : option bool) (params : option obj) (b : option Body)
    (u' : string) (o : RequestInit) :
  (forall k, In k (keys (staticHeaders this)) ->
             Headers.name_eq k key = true -> k = key) ->
  record_values key (dynamicHeaders this) = [] ->
  Headers.name_eq "Content-Type" key = false ->
  In (FetchCall u' o)
     (trace (sendRequest P (deleteStaticHeader this key) u m s params b)) ->
  Headers.get (headers o) key = None.
Proof.
  intros Hu Hd Hct H. unfold Headers.get.
  rewrite (outgoing_header_values P _ _ _ _ _ _ _ _ key H), Hct.
  change (dynamicHeaders (deleteStaticHeader this key))
    with (dynamicHeaders this).
  rewrite Hd, app_nil_r.
  change (staticHeaders (deleteStaticHeader this key))
    with (Object.remove key (staticHeaders this)).
  unfold record_values. rewrite (no_match_after_remove _ key Hu).
  reflexivity.
Qed.

End Mutators.

(** ** Resolvers and the constructor *)

Section Configuration.

Variable P : Platform.

(** X26.  After [setDynamicHeadersResolver] the headers of the former
    resolver are gone: under any name but Content-Type a request carries
    the static values followed by those the new resolver returns. *)
Theorem resolver_is_replaced_wholesale (this : AppOperation)
    (resolver : unit -> option (list (string * string)))
    (u : string) (m : Method) (s : option bool) (params : option obj)
    (b : option Body) (u' : string) (o : RequestInit) (name : string) :
  Headers.name_eq "Content-Type" name = false ->
  In (FetchCall u' o)
     (trace (sendRequest P (setDynamicHeadersResolver this resolver)
                         u m s params b)) ->
  Headers.values (headers o) name =
  (record_values name (staticHeaders this)
     ++ record_values name (default [] (resolver tt)))%list.
Proof.
  intros Hct H.
  rewrite (outgoing_header_values P _ _ _ _ _ _ _ _ name H), Hct.
  reflexivity.
Qed.

(** X27.  An object constructed without options sends Content-Type and
    nothing else, calls no resolver and never notifies. *)
Theorem default_object_sends_content_type_only (baseUrl : string)
    (requests : list (string * AppOperationRequest))
    (u : string) (m : Method) (s : option bool) (params : option obj)
    (b : option Body) :
  let this := constructor baseUrl requests None in
  (forall u' o,
     In (FetchCall u' o) (trace (sendRequest P this u m s params b)) ->
     headers o =
     [("Content-Type",
       match b with
       | Some (FormBody _) => "multipart/form-data"
       | _ => "application/json"
       end)]) /\
  resolver_calls (trace (sendRequest P this u m s params b)) = [] /\
  toasts (trace (sendRequest P this u m s params b)) = [].
Proof.
  cbv zeta. split; [|split].
  - intros u' o H. apply fetch_prepared in H as (_ & pp & H & _).
    rewrite prepare_result in H. cbv zeta in H.
    cbn [constructor staticHeaders dynamicHeaders getDynamicHeaders default
         append_all] in H.
    destruct b as [[fd|v]|].
    + inversion H; reflexivity.
    + destruct (truthy v); [destruct (JSON_stringify P v)|];
        inversion H; reflexivity.
    + inversion H; reflexivity.
  - unfold resolver_calls. rewrite sendRequest_before_try by reflexivity.
    destruct (Str.is_empty _); [reflexivity|]. rewrite prepare_trace.
    cbn [constructor staticHeaders dynamicHeaders getDynamicHeaders default
         append_all].
    destruct b as [[fd|v]|]; try reflexivity.
    destruct (truthy v); reflexivity.
  - apply sendRequest_no_handler. reflexivity.
Qed.

End Configuration.

(** ** The query string at its edges *)

(** X29.  Parameters that are all [undefined] or [null], like no parameters
    at all, give the empty query string: no [?] is appended to the URL. *)
Theorem nullish_parameters_give_no_query (params : obj) :
  (forall k v, In (k, v) params -> not_nullish v = false) ->
  parseParams params = "".
Proof.
  intros H. unfold parseParams.
  assert (Hl : forall k, not_nullish (opt_value (lookup k params)) = false).
  { intros k. destruct (lookup k params) as [v|] eqn:E; [|reflexivity].
    cbn [opt_value].
    assert (Hin : In (k, v) params).
    { clear H. induction params as [|[k' v'] o IH]; [discriminate|].
      cbn [lookup] in E. destruct (String.eqb k k') eqn:Ek.
      - apply String.eqb_eq in Ek. inversion E; subst. left; reflexivity.
      - right. apply IH; exact E. }
    apply (H k v Hin). }
  rewrite (filter_ext _ (fun _ => false)) by exact Hl.
  rewrite filter_false. reflexivity.
Qed.

(** X30.  Values are copied into the query string as they are: a value that
    contains [&] and [=] yields the very query string of two separate
    parameters. *)
Theorem unescaped_value_reads_as_two_parameters (k v k' v' : string) :
  k <> k' ->
  parseParams [(k, Str (v ++ "&" ++ k' ++ "=" ++ v'))]
    = parseParams [(k, Str v); (k', Str v')].
Proof.
  intros Hne. unfold parseParams, keys. cbn [map fst filter lookup].
  rewrite !String.eqb_refl.
  assert (E : String.eqb k' k = false)
    by (apply String.eqb_neq; congruence).
  rewrite E. cbn [opt_value not_nullish appendParams lookup Nat.eqb to_string].
  rewrite !String.eqb_refl, E. cbn [opt_value to_string].
  change ("" ++ ?x) with x.
  rewrite !append_assoc. reflexivity.
Qed.

(** * The further properties at concrete calls *)

Import Cases.

Ltac in_trace := repeat (first [left; reflexivity | right]).

(** X1 at a login through [plain]: the request is a POST. *)
Lemma request_uses_registered_verb_witness :
  lookup (request login_call) (requests plain)
    = Some (mkRequest "POST" "auth/login") /\
  In (FetchCall login_url login_request)
     (trace (getRequest (server welcome) plain login_call)) /\
  method_name (method login_request) = "POST".
Proof.
  assert (H : In (FetchCall login_url login_request)
                 (trace (getRequest (server welcome) plain login_call)))
    by in_trace.
  split; [reflexivity|]. split; [exact H|].
  exact (request_uses_registered_verb (server welcome) plain login_call
           (mkRequest "POST" "auth/login") _ _ eq_refl H).
Defined.

(** X2 at a registry that spells GET in lower case. *)
Lemma unsupported_verb_throws_witness :
  ~ supported "get" /\
  getRequest (server welcome) lowercase (call "ping")
    = ([], Throw (Error "Unsupported method get")).
Proof.
  assert (H : ~ supported "get").
  { intros [H|[H|[H|[H|[H|[]]]]]]; discriminate H. }
  split; [exact H|].
  exact (unsupported_verb_throws (server welcome) lowercase (call "ping")
           (mkRequest "get" "ping") eq_refl H).
Defined.

(** X6 at an object whose static header is named "System Key". *)
Lemma rejected_header_aborts_witness :
  In ("System Key", "k")
     (staticHeaders misnamed ++ dynamicHeaders misnamed) /\
  Headers.is_header_name "System Key" = false /\
  (exists e, result (sendRequest (server welcome) misnamed "profile/" GET
                                 None None None) = Throw e) /\
  fetch_calls (trace (sendRequest (server welcome) misnamed "profile/" GET
                                  None None None)) = [] /\
  toasts (trace (sendRequest (server welcome) misnamed "profile/" GET
                             None None None)) = [].
Proof.
  assert (Hin : In ("System Key", "k")
                   (staticHeaders misnamed ++ dynamicHeaders misnamed))
    by (left; reflexivity).
  assert (Hb : baseUrl misnamed <> "") by discriminate.
  split; [exact Hin|]. split; [reflexivity|].
  exact (rejected_header_aborts (server welcome) misnamed "profile/" GET
           None None None "System Key" "k" Hb Hin eq_refl).
Defined.

(** X7 at a login whose body cannot be serialised. *)
Lemma stringify_failure_propagates_witness :
  JSON_stringify unserialisable (Obj [])
    = Throw (TypeError "Converting circular structure to JSON") /\
  result (sendRequest unserialisable plain "auth/login" POST None None
                      empty_body)
    = Throw (TypeError "Converting circular structure to JSON") /\
  fetch_calls (trace (sendRequest unserialisable plain "auth/login" POST
                                  None None empty_body)) = [] /\
  toasts (trace (sendRequest unserialisable plain "auth/login" POST None
                             None empty_body)) = [].
Proof.
  assert (Hb : baseUrl plain <> "") by discriminate.
  assert (Hv : valid_headers (@nil (string * string))) by constructor.
  split; [reflexivity|].
  exact (stringify_failure_propagates unserialisable plain "auth/login" POST
           None None (Obj [])
           (TypeError "Converting circular structure to JSON")
           Hb Hv Hv eq_refl eq_refl).
Defined.

(** X8 at an upload through [plain]. *)
Lemma multipart_body_passes_through_witness :
  In (FetchCall login_url
        (mkRequestInit POST [("Content-Type", "multipart/form-data")]
                       (Some (BodyFormData upload))))
     (trace (sendRequest (server welcome) plain "auth/login" POST None None
                         (Some (FormBody upload)))) /\
  Headers.get [("Content-Type", "multipart/form-data")] "Content-Type"
    = Some "multipart/form-data".
Proof.
  assert (H : In (FetchCall login_url
                    (mkRequestInit POST
                       [("Content-Type", "multipart/form-data")]
                       (Some (BodyFormData upload))))
                 (trace (sendRequest (server welcome) plain "auth/login" POST
                                     None None (Some (FormBody upload)))))
    by in_trace.
  split; [exact H|].
  exact (proj1 (proj2 (multipart_body_passes_through (server welcome) plain
                         "auth/login" POST None None upload _ _ H))).
Defined.

(** X9 at a login with the empty object as body. *)
Lemma object_body_is_serialised_witness :
  In (FetchCall login_url login_request)
     (trace (sendRequest (server welcome) plain "auth/login" POST None None
                         empty_body)) /\
  stringified (trace (sendRequest (server welcome) plain "auth/login" POST
                                  None None empty_body))
    = [Stringify (Obj [])].
Proof.
  assert (H : In (FetchCall login_url login_request)
                 (trace (sendRequest (server welcome) plain "auth/login" POST
                                     None None empty_body)))
    by in_trace.
  split; [exact H|].
  exact (proj2 (object_body_is_serialised (server welcome) plain "auth/login"
                  POST None None (Obj []) _ _ eq_refl H)).
Defined.

(** X10 at an object that configures "content-type: text/plain". *)
Lemma default_content_type_stays_first_witness :
  In (FetchCall "https://example.com/api/v1/profile/"
        (mkRequestInit GET
           [("Content-Type", "application/json");
            ("Content-Type", "text/plain")] None))
     (trace (sendRequest (server welcome) texty "profile/" GET (Some true)
                         None None)) /\
  Headers.get [("Content-Type", "application/json");
               ("Content-Type", "text/plain")] "Content-Type"
    = Some "application/json, text/plain".
Proof.
  assert (H : In (FetchCall "https://example.com/api/v1/profile/"
                    (mkRequestInit GET
                       [("Content-Type", "application/json");
                        ("Content-Type", "text/plain")] None))
                 (trace (sendRequest (server welcome) texty "profile/" GET
                                     (Some true) None None)))
    by in_trace.
  assert (Hb : forall fd, @None Body <> Some (FormBody fd))
    by (intros fd; discriminate).
  split; [exact H|].
  exact (default_content_type_stays_first (server welcome) texty "profile/"
           GET (Some true) None None _ _ Hb H).
Defined.





(** X15 at a login answered with status 404. *)
Lemma other_status_is_silent_witness :
  In (FetchCall login_url login_request)
     (trace (sendRequest (server not_found) plain "auth/login" POST None None
                         empty_body)) /\
  noted (Num 404) = false /\
  result (sendRequest (server not_found) plain "auth/login" POST None None
                      empty_body) = Return not_found /\
  toasts (trace (sendRequest (server not_found) plain "auth/login" POST None
                             None empty_body)) = [].
Proof.
  assert (H : In (FetchCall login_url login_request)
                 (trace (sendRequest (server not_found) plain "auth/login"
                                     POST None None empty_body)))
    by in_trace.
  split; [exact H|]. split; [reflexivity|].
  exact (other_status_is_silent (server not_found) plain "auth/login" POST
           None None empty_body _ _ (answer not_found) not_found (Num 404)
           H eq_refl eq_refl eq_refl eq_refl).
Defined.

(** X16 at a suppressed login answered with status 422 and empty errors. *)
Lemma suppressed_body_is_returned_witness :
  In (FetchCall login_url login_request)
     (trace (sendRequest (server invalid) plain "auth/login" POST (Some true)
                         None empty_body)) /\
  result (sendRequest (server invalid) plain "auth/login" POST (Some true)
                      None empty_body) = Return invalid /\
  toasts (trace (sendRequest (server invalid) plain "auth/login" POST
                             (Some true) None empty_body)) = [].
Proof.
  assert (H : In (FetchCall login_url login_request)
                 (trace (sendRequest (server invalid) plain "auth/login" POST
                                     (Some true) None empty_body)))
    by in_trace.
  assert (Hn : invalid <> Null) by discriminate.
  assert (Hu : invalid <> Undefined) by discriminate.
  split; [exact H|].
  exact (suppressed_body_is_returned (server invalid) plain "auth/login" POST
           None empty_body _ _ (answer invalid) invalid
           H eq_refl eq_refl Hn Hu).
Defined.


(** X21 at a token set on [plain] and deleted again. *)
Lemma static_header_set_then_delete_witness :
  lookup "X-Token" (staticHeaders plain) = None /\
  deleteStaticHeader plain "X-Token" = plain /\
  deleteStaticHeader (setStaticHeader plain "X-Token" "t") "X-Token" = plain.
Proof.
  split; [reflexivity|].
  exact (static_header_set_then_delete plain "X-Token" "t" eq_refl).
Defined.

(** X23 at a token set on [plain] with blanks around its value. *)
Lemma set_header_is_sent_witness :
  In (FetchCall "https://example.com/api/v1/profile/"
        (mkRequestInit GET
           [("Content-Type", "application/json"); ("X-Token", "t")] None))
     (trace (sendRequest (server welcome)
               (setStaticHeader plain "X-Token" " t ") "profile/" GET
               (Some true) None None)) /\
  Headers.get [("Content-Type", "application/json"); ("X-Token", "t")]
              "X-Token" = Some "t".
Proof.
  assert (H : In (FetchCall "https://example.com/api/v1/profile/"
                    (mkRequestInit GET
                       [("Content-Type", "application/json");
                        ("X-Token", "t")] None))
                 (trace (sendRequest (server welcome)
                           (setStaticHeader plain "X-Token" " t ") "profile/"
                           GET (Some true) None None)))
    by in_trace.
  assert (Hwf : Object.wf (staticHeaders plain)) by (split; constructor).
  assert (Hu : forall k, In k (keys (staticHeaders plain)) ->
                         Headers.name_eq k "X-Token" = true -> k = "X-Token")
    by (intros k []).
  split; [exact H|].
  assert (Hp : "X-Token" <> "__proto__") by discriminate.
  exact (set_header_is_sent (server welcome) plain "X-Token" " t " "profile/"
           GET (Some true) None None _ _ Hp Hwf Hu eq_refl eq_refl H).
Defined.

(** X24 at a token set on [plain] and deleted again. *)
Lemma deleted_header_is_not_sent_witness :
  In (FetchCall "https://example.com/api/v1/profile/"
        (mkRequestInit GET json_headers None))
     (trace (sendRequest (server welcome)
               (deleteStaticHeader (setStaticHeader plain "X-Token" "t")
                                   "X-Token")
               "profile/" GET (Some true) None None)) /\
  Headers.get json_headers "X-Token" = None.
Proof.
  assert (H : In (FetchCall "https://example.com/api/v1/profile/"
                    (mkRequestInit GET json_headers None))
                 (trace (sendRequest (server welcome)
                           (deleteStaticHeader
                              (setStaticHeader plain "X-Token" "t") "X-Token")
                           "profile/" GET (Some true) None None)))
    by in_trace.
  assert (Hu : forall k,
             In k (keys (staticHeaders (setStaticHeader plain "X-Token" "t"))) ->
             Headers.name_eq k "X-Token" = true -> k = "X-Token").
  { intros k [<-|[]] _. reflexivity. }
  split; [exact H|].
  exact (deleted_header_is_not_sent (server welcome)
           (setStaticHeader plain "X-Token" "t") "X-Token" "profile/" GET
           (Some true) None None _ _ Hu eq_refl eq_refl H).
Defined.

(** X26 at [localized] whose resolver is replaced by one answering "fr". *)
Lemma resolver_is_replaced_wholesale_witness :
  In (FetchCall "https://example.com/api/v1/profile/"
        (mkRequestInit GET
           [("Content-Type", "application/json"); ("Accept-Language", "en");
            ("Accept-Language", "fr")] None))
     (trace (sendRequest (server welcome)
               (setDynamicHeadersResolver localized
                  (fun _ => Some [("Accept-Language", "fr")]))
               "profile/" GET (Some true) None None)) /\
  Headers.values
    [("Content-Type", "application/json"); ("Accept-Language", "en");
     ("Accept-Language", "fr")] "Accept-Language" = ["en"; "fr"].
Proof.
  assert (H : In (FetchCall "https://example.com/api/v1/profile/"
                    (mkRequestInit GET
                       [("Content-Type", "application/json");
                        ("Accept-Language", "en"); ("Accept-Language", "fr")]
                       None))
                 (trace (sendRequest (server welcome)
                           (setDynamicHeadersResolver localized
                              (fun _ => Some [("Accept-Language", "fr")]))
                           "profile/" GET (Some true) None None)))
    by in_trace.
  split; [exact H|].
  exact (resolver_is_replaced_wholesale (server welcome) localized
           (fun _ => Some [("Accept-Language", "fr")]) "profile/" GET
           (Some true) None None _ _ "Accept-Language" eq_refl H).
Defined.

(** X27 at an upload through an object constructed without options. *)
Lemma default_object_sends_content_type_only_witness :
  In (FetchCall login_url
        (mkRequestInit POST [("Content-Type", "multipart/form-data")]
                       (Some (BodyFormData upload))))
     (trace (sendRequest (server welcome)
               (constructor Api.DEFAULT_API_URL Api.requests None)
               "auth/login" POST None None (Some (FormBody upload)))) /\
  headers (mkRequestInit POST [("Content-Type", "multipart/form-data")]
                         (Some (BodyFormData upload)))
    = [("Content-Type", "multipart/form-data")].
Proof.
  assert (H : In (FetchCall login_url
                    (mkRequestInit POST
                       [("Content-Type", "multipart/form-data")]
                       (Some (BodyFormData upload))))
                 (trace (sendRequest (server welcome)
                           (constructor Api.DEFAULT_API_URL Api.requests None)
                           "auth/login" POST None None
                           (Some (FormBody upload)))))
    by in_trace.
  split; [exact H|].
  exact (proj1 (default_object_sends_content_type_only (server welcome)
                  Api.DEFAULT_API_URL Api.requests "auth/login" POST None
                  None (Some (FormBody upload))) _ _ H).
Defined.

(** X29 at the parameters [{a: null, b: undefined}]. *)
Lemma nullish_parameters_give_no_query_witness :
  parseParams [("a", Null); ("b", Undefined)] = "".
Proof.
  apply nullish_parameters_give_no_query.
  intros k v [H|[H|[]]]; inversion H; reflexivity.
Defined.

(** X30 at [{a: "1&b=2"}] against [{a: "1", b: "2"}]. *)
Lemma unescaped_value_reads_as_two_parameters_witness :
  "a" <> "b" /\
  parseParams [("a", Str "1&b=2")]
    = parseParams [("a", Str "1"); ("b", Str "2")].
Proof.
  assert (H : "a" <> "b") by discriminate.
  split; [exact H|].
  exact (unescaped_value_reads_as_two_parameters "a" "1" "b" "2" H).
Defined.

(** X18 at a token set on, and deleted from, [plain]. *)
Lemma static_header_read_after_write_witness :
  "X-Token" <> "__proto__" /\
  lookup "X-Token" (staticHeaders (setStaticHeader plain "X-Token" "t"))
    = Some "t" /\
  lookup "X-Token" (staticHeaders (deleteStaticHeader plain "X-Token"))
    = None.
Proof.
  assert (Hp : "X-Token" <> "__proto__") by discriminate.
  split; [exact Hp|].
  exact (static_header_read_after_write plain "X-Token" "t" "X-Token" Hp).
Defined.

(** * The class when callbacks throw *)

(** ** Computations that end abruptly with any value *)

Lemma full_trace_bind {A B : Type} (m : Full.M A) (k : A -> Full.M B) :
  Full.trace (Full.bind m k) =
  match Full.result m with
  | Full.Normal a => (Full.trace m ++ Full.trace (k a))%list
  | Full.Abrupt _ => Full.trace m
  end.
Proof.
  destruct m as [t [a|v]]; cbn; [destruct (k a)|]; reflexivity.
Qed.

Lemma full_result_bind {A B : Type} (m : Full.M A) (k : A -> Full.M B) :
  Full.result (Full.bind m k) =
  match Full.result m with
  | Full.Normal a => Full.result (k a)
  | Full.Abrupt v => Full.Abrupt v
  end.
Proof.
  destruct m as [t [a|v]]; cbn; [destruct (k a)|]; reflexivity.
Qed.

Lemma full_trace_try_catch {A : Type} (m : Full.M A)
    (h : value -> Full.M A) :
  Full.trace (Full.try_catch m h) =
  match Full.result m with
  | Full.Normal _ => Full.trace m
  | Full.Abrupt v => (Full.trace m ++ Full.trace (h v))%list
  end.
Proof.
  destruct m as [t [a|v]]; cbn; [|destruct (h v)]; reflexivity.
Qed.

Lemma full_result_try_catch {A : Type} (m : Full.M A)
    (h : value -> Full.M A) :
  Full.result (Full.try_catch m h) =
  match Full.result m with
  | Full.Normal a => Full.Normal a
  | Full.Abrupt v => Full.result (h v)
  end.
Proof.
  destruct m as [t [a|v]]; cbn; [|destruct (h v)]; reflexivity.
Qed.

Lemma full_pair {A : Type} (m : Full.M A) :
  m = (Full.trace m, Full.result m).
Proof. destruct m; reflexivity. Qed.

(** A computation of no result followed by nothing is itself. *)
Lemma full_bind_ret_tt (m : Full.M unit) :
  Full.bind m (fun _ => Full.ret tt) = m.
Proof.
  destruct m as [t [[]|v]]; cbn; rewrite ?app_nil_r; reflexivity.
Qed.


Lemma full_all_ret {A : Type} (Q : event -> Prop) (a : A) :
  Full.all Q (Full.ret a).
Proof. constructor. Qed.

Lemma full_all_lift {A : Type} (Q : event -> Prop) (c : Full.completion A) :
  Full.all Q (Full.lift c).
Proof. constructor. Qed.

Lemma full_all_emit (Q : event -> Prop) (ev : event) :
  Q ev -> Full.all Q (Full.emit ev).
Proof. intros H; repeat constructor; exact H. Qed.

Lemma full_all_bind {A B : Type} (Q : event -> Prop) (m : Full.M A)
    (k : A -> Full.M B) :
  Full.all Q m -> (forall a, Full.all Q (k a)) -> Full.all Q (Full.bind m k).
Proof.
  unfold Full.all; intros Hm Hk. rewrite full_trace_bind.
  destruct (Full.result m); [apply Forall_app; split; auto|exact Hm].
Qed.

Lemma full_all_try_catch {A : Type} (Q : event -> Prop) (m : Full.M A)
    (h : value -> Full.M A) :
  Full.all Q m -> (forall v, Full.all Q (h v)) ->
  Full.all Q (Full.try_catch m h).
Proof.
  unfold Full.all; intros Hm Hh. rewrite full_trace_try_catch.
  destruct (Full.result m); [exact Hm|apply Forall_app; split; auto].
Qed.

Ltac full_events :=
  repeat first
    [ apply full_all_lift | apply full_all_ret
    | apply full_all_emit; reflexivity
    | apply full_all_bind; [|intro]
    | match goal with
      | |- Full.all _ (if ?b then _ else _) => destruct b
      | |- Full.all _ (match ?x with _ => _ end) => destruct x
      | |- Full.all _ (let (_, _) := ?x in _) => destruct x
      end ].

(** A trace of toasts has no other event. *)
Lemma full_toast_free (p : event -> bool) (t : list event) :
  (forall type msg, p (Toast type msg) = false) ->
  Forall (fun ev => is_toast ev = true) t -> filter p t = [].
Proof.
  intros Hp. induction 1 as [|ev t Hev _ IH]; [reflexivity|].
  destruct ev; try discriminate Hev. cbn [filter]. rewrite Hp. exact IH.
Qed.

Lemma full_toasts_all (t : list event) :
  Forall (fun ev => is_toast ev = true) t -> toasts t = t.
Proof.
  induction 1 as [|ev t Hev _ IH]; [reflexivity|].
  unfold toasts in *. cbn [filter]. rewrite Hev, IH. reflexivity.
Qed.

Lemma full_toasts_none (t : list event) :
  Forall (fun ev => is_toast ev = false /\ is_fetch ev = false) t ->
  toasts t = [].
Proof.
  induction 1 as [|ev t [Hev _] _ IH]; [reflexivity|].
  unfold toasts in *. cbn [filter]. rewrite Hev. exact IH.
Qed.

(** ** The parts of [sendRequest], callbacks throwing *)

Section FullParts.

Variable P : Full.Platform.
Variable this : Full.AppOperation.

(** A toast is one call of the handler, which ends as the handler does. *)
Lemma full_toast_call (type : ToastType) (msg : value) :
  Full.toast this type msg =
  match Full.showToast this with
  | Some handler => ([Toast type msg], handler type msg)
  | None => ([], Full.Normal tt)
  end.
Proof.
  unfold Full.toast. destruct (Full.showToast this) as [h|]; [|reflexivity].
  cbn. destruct (h type msg); reflexivity.
Qed.

Lemma full_toast_trace (type : ToastType) (msg : value) :
  Full.trace (Full.toast this type msg) = [Toast type msg] \/
  Full.trace (Full.toast this type msg) = [].
Proof.
  rewrite full_toast_call. destruct (Full.showToast this); [left|right];
    reflexivity.
Qed.

Lemma full_toast_returns (type : ToastType) (msg : value) :
  Full.handler_returns this ->
  Full.result (Full.toast this type msg) = Full.Normal tt.
Proof.
  intros H. rewrite full_toast_call.
  destruct (Full.showToast this) as [h|] eqn:E; [|reflexivity].
  exact (H h type msg E).
Qed.

(** The toast logic in closed form, for a body whose [status] can be read:
    at most one toast, and the logic ends as that toast does. *)
Lemma full_notify_unsuppressed (data st : value) :
  get_prop data "status" = Return st ->
  Full.notify this false data =
  if is_num st 200 || is_num st 201 then
    if truthy (get_prop_opt data "message")
    then Full.toast this success (get_prop_opt data "message")
    else Full.ret tt
  else if is_num st 422 then
    match first_error data with
    | Return msg =>
        if truthy msg then Full.toast this error msg else Full.ret tt
    | Throw e => ([], Full.Abrupt (Full.of_exn e))
    end
  else if (is_num st 400 || is_num st 500)
          && truthy (get_prop_opt data "message")
  then Full.toast this error (get_prop_opt data "message")
  else Full.ret tt.
Proof.
  intros Hst.
  pose proof (get_prop_non_null data st "status" "message" Hst) as Hm.
  pose proof (get_prop_non_null data st "status" "errors" Hst) as He.
  unfold Full.notify, first_error. cbn [negb]. rewrite Hst, Hm, He.
  cbn [Full.raise Full.lift].
  assert (Hz : forall n k, Z.eqb n k = true -> n = k)
    by (intros n k H; apply Z.eqb_eq; exact H).
  assert (Hb : forall (m : Full.M unit) (k : unit -> Full.M unit),
             (forall u, k u = Full.ret tt) -> Full.bind m k = m).
  { intros m k Hk. destruct m as [t [[]|v]]; cbn; [|reflexivity].
    rewrite Hk. cbn. rewrite app_nil_r. reflexivity. }
  assert (Hl : forall (A B : Type) (a : A) (k : A -> Full.M B),
             Full.bind (Full.lift (Full.Normal a)) k = k a).
  { intros A B a k. cbn. destruct (k a); reflexivity. }
  assert (Hr : forall (A B : Type) (a : A) (k : A -> Full.M B),
             Full.bind (Full.ret a) k = k a).
  { intros A B a k. cbn. destruct (k a); reflexivity. }
  rewrite !Hl. cbv beta. rewrite !andb_true_r.
  destruct st as [| |bo|n| | |]; cbn [is_num orb andb]; rewrite ?Hl;
    try reflexivity.
  destruct (Z.eqb n 200) eqn:E200; [apply Hz in E200; subst n|];
    cbn [Z.eqb Pos.eqb orb andb].
  { destruct (truthy (get_prop_opt data "message"));
      [apply Hb; intros; reflexivity | rewrite Hr; reflexivity]. }
  destruct (Z.eqb n 201) eqn:E201; [apply Hz in E201; subst n|];
    cbn [Z.eqb Pos.eqb orb andb].
  { destruct (truthy (get_prop_opt data "message"));
      [apply Hb; intros; reflexivity | rewrite Hr; reflexivity]. }
  rewrite Hr.
  destruct (Z.eqb n 422) eqn:E422; [apply Hz in E422; subst n|];
    cbn [Z.eqb Pos.eqb orb andb].
  { destruct (truthy (get_prop_opt data "errors")).
    - destruct (get_elem _ _) as [entry|e]; [|reflexivity].
      cbn [Full.raise]. rewrite Hl.
      destruct (get_prop entry "0") as [msg|e]; [|reflexivity].
      cbn [Full.raise]. rewrite Hl. reflexivity.
    - rewrite Hr. reflexivity. }
  destruct (Z.eqb n 400) eqn:E400; [apply Hz in E400; subst n|];
    cbn [Z.eqb Pos.eqb orb andb].
  { destruct (truthy (get_prop_opt data "message")); reflexivity. }
  destruct (Z.eqb n 500); cbn [orb andb]; [|reflexivity].
  destruct (truthy (get_prop_opt data "message")); reflexivity.
Qed.


(** A body whose [status] cannot be read makes the toast logic throw. *)
Lemma full_notify_null (s : bool) (data : value) (e : exn) :
  get_prop data "status" = Throw e ->
  Full.notify this s data = ([], Full.Abrupt (Full.of_exn e)).
Proof.
  intros H. unfold Full.notify. rewrite H. destruct s; reflexivity.
Qed.

(** With notifications suppressed only the read of [status] remains. *)
Lemma full_notify_suppressed (data : value) :
  Full.notify this true data =
  ([], match get_prop data "status" with
       | Return _ => Full.Normal tt
       | Throw e => Full.Abrupt (Full.of_exn e)
       end).
Proof.
  unfold Full.notify. cbn [negb].
  destruct (get_prop data "status") as [st|e]; [|reflexivity].
  cbn [Full.raise]. cbn. rewrite !andb_false_r.
  destruct (is_num st 422); reflexivity.
Qed.

(** The toast logic does nothing, or throws a [TypeError] before any toast,
    or is one toast. *)
Lemma full_notify_cases (s : bool) (data : value) :
  Full.notify this s data = ([], Full.Normal tt) \/
  (exists e, Full.notify this s data = ([], Full.Abrupt (Full.of_exn e))) \/
  (exists type msg, Full.notify this s data = Full.toast this type msg).
Proof.
  destruct s.
  - rewrite full_notify_suppressed.
    destruct (get_prop data "status") as [st|e]; [left|right; left; exists e];
      reflexivity.
  - destruct (get_prop data "status") as [st|e] eqn:Hst.
    + rewrite (full_notify_unsuppressed data st Hst).
      repeat match goal with
             | |- context [if ?c then _ else _] => destruct c
             | |- context [match first_error ?d with _ => _ end] =>
                 destruct (first_error d) as [?|e]
             end;
        first [ left; reflexivity
              | right; left; eexists; reflexivity
              | right; right; eexists _, _; reflexivity ].
    + right; left; exists e. apply full_notify_null; exact Hst.
Qed.

(** The events of the toast logic are toasts, at most one. *)
Lemma full_notify_trace (s : bool) (data : value) :
  Full.trace (Full.notify this s data) = [] \/
  exists type msg, Full.trace (Full.notify this s data) = [Toast type msg].
Proof.
  destruct (full_notify_cases s data) as [H|[[e H]|(type & msg & H)]];
    rewrite H; try (left; reflexivity).
  destruct (full_toast_trace type msg) as [E|E]; rewrite E;
    [right; eexists _, _|left]; reflexivity.
Qed.


(** The [catch] block in closed form. *)
Lemma full_on_error_eq (s : bool) (thrown : value) :
  Full.on_error this s thrown =
  match Full.userMessage (Full.errorMessage thrown) with
  | Full.Normal text =>
      Full.bind (if negb s then Full.toast this error (Str text)
                 else Full.ret tt)
        (fun _ => Full.ret (Obj [("status", Num 500); ("message", Str text);
                                 ("error", Full.errorMessage thrown)]))
  | Full.Abrupt v => ([], Full.Abrupt v)
  end.
Proof.
  unfold Full.on_error. cbv zeta.
  destruct (Full.userMessage (Full.errorMessage thrown)) as [text|v];
    [|reflexivity].
  cbn [Full.lift Full.bind]. 
  destruct (Full.bind _ _); reflexivity.
Qed.

(** The events of the [catch] block are toasts, at most one: the toast of
    the classified message. *)
Lemma full_on_error_trace (s : bool) (thrown : value) :
  Full.trace (Full.on_error this s thrown) = [] \/
  exists text,
    Full.userMessage (Full.errorMessage thrown) = Full.Normal text /\
    Full.trace (Full.on_error this s thrown) = [Toast error (Str text)].
Proof.
  rewrite full_on_error_eq.
  destruct (Full.userMessage _) as [text|v]; [|left; reflexivity].
  rewrite full_trace_bind.
  destruct s; cbn [negb]; [left; reflexivity|].
  destruct (full_toast_trace error (Str text)) as [E|E];
    destruct (Full.result (Full.toast this error (Str text)));
    rewrite E; cbn;
    first [left; reflexivity | right; exists text; split; reflexivity].
Qed.



(** Before the [try] block nothing is notified and nothing is sent. *)
Lemma full_prepare_silent (method : Method) (params : option obj)
    (body : option Body) :
  Full.all (fun ev => is_toast ev = false /\ is_fetch ev = false)
           (Full.prepare P this method params body).
Proof.
  unfold Full.prepare. full_events; apply full_all_emit; split; reflexivity.
Qed.


(** The [try] block, step by step. *)
Lemma full_attempt_eq (s : bool) (u : string) (o : RequestInit)
    (pp : string) :
  Full.attempt P this s u o pp =
  match Full.fetch P (Full.baseUrl this ++ u ++ pp) o with
  | Full.Normal r =>
      match Full.json r tt with
      | Full.Normal data =>
          ((FetchCall (Full.baseUrl this ++ u ++ pp) o :: JsonCall ::
              Full.trace (Full.notify this s data))%list,
           match Full.result (Full.notify this s data) with
           | Full.Normal _ => Full.Normal data
           | Full.Abrupt v => Full.Abrupt v
           end)
      | Full.Abrupt v =>
          ([FetchCall (Full.baseUrl this ++ u ++ pp) o; JsonCall],
           Full.Abrupt v)
      end
  | Full.Abrupt v =>
      ([FetchCall (Full.baseUrl this ++ u ++ pp) o], Full.Abrupt v)
  end.
Proof.
  unfold Full.attempt. cbv zeta. cbn [Full.bind Full.emit Full.lift].
  destruct (Full.fetch P _ o) as [r|v]; [|reflexivity].
  cbn. destruct (Full.json r tt) as [data|v]; [|reflexivity].
  destruct (Full.notify this s data) as [t [[]|v]]; cbn;
    rewrite ?app_nil_r; reflexivity.
Qed.

(** [sendRequest] without a base URL. *)
Lemma full_sendRequest_unset (u : string) (m : Method) (s : option bool)
    (params : option obj) (b : option Body) :
  Str.is_empty (Full.baseUrl this) = true ->
  Full.sendRequest P this u m s params b =
  Full.bind (if negb (default false s)
             then Full.toast this error (Str "API configuration error")
             else Full.ret tt)
    (fun _ => Full.ret
       (Obj [("status", Num 500);
             ("message", Str "API base URL is not configured. Please set the baseUrl when constructing AppOperation.")])).
Proof. intros E. unfold Full.sendRequest. rewrite E. reflexivity. Qed.

(** [sendRequest] with a base URL: what precedes the [try] block, then the
    [try] block and its [catch]. *)
Lemma full_sendRequest_set (u : string) (m : Method) (s : option bool)
    (params : option obj) (b : option Body) :
  Str.is_empty (Full.baseUrl this) = false ->
  Full.sendRequest P this u m s params b =
  match Full.result (Full.prepare P this m params b) with
  | Full.Normal (o, pp) =>
      ((Full.trace (Full.prepare P this m params b) ++
        Full.trace (Full.try_catch
                      (Full.attempt P this (default false s) u o pp)
                      (Full.on_error this (default false s))))%list,
       Full.result (Full.try_catch
                      (Full.attempt P this (default false s) u o pp)
                      (Full.on_error this (default false s))))
  | Full.Abrupt v =>
      (Full.trace (Full.prepare P this m params b), Full.Abrupt v)
  end.
Proof.
  intros E. unfold Full.sendRequest. rewrite E. cbv zeta.
  destruct (Full.prepare P this m params b) as [t [[o pp]|v]];
    [|reflexivity].
  cbn [Full.bind Full.result Full.trace fst snd].
  destruct (Full.try_catch _ _); reflexivity.
Qed.

(** [getRequest] is [sendRequest] or a throw that precedes everything. *)
Lemma full_getRequest_cases (Q : Full.M value -> Prop) (a : Args) :
  (forall u m s params b, Q (Full.sendRequest P this u m s params b)) ->
  (forall e, Q ([], Full.Abrupt (Full.of_exn e))) ->
  Q (Full.getRequest P this a).
Proof.
  intros Hs Ht.
  unfold Full.getRequest, Full.delete, Full.get, Full.patch, Full.post,
    Full.put, Full.lift, Full.raise.
  destruct (lookup (request a) (Full.requests this));
    repeat match goal with
           | |- context [if ?c then _ else _] => destruct c
           end; auto.
Qed.


End FullParts.

(** ** Where a network call comes from, and what follows it *)

Section FullCalls.

Variable P : Full.Platform.
Variable this : Full.AppOperation.

Lemma full_only_toasts_notify (s : bool) (data : value) :
  Forall (fun ev => is_toast ev = true)
         (Full.trace (Full.notify this s data)).
Proof.
  destruct (full_notify_trace this s data) as [E|(type & msg & E)]; rewrite E;
    repeat constructor.
Qed.

Lemma full_only_toasts_on_error (s : bool) (thrown : value) :
  Forall (fun ev => is_toast ev = true)
         (Full.trace (Full.on_error this s thrown)).
Proof.
  destruct (full_on_error_trace this s thrown) as [E|(text & _ & E)];
    rewrite E; repeat constructor.
Qed.



(** What [sendRequest] returns once [prepare] has returned: the body, or
    what the [catch] block makes of the thrown value. *)
Lemma full_sendRequest_result (u : string) (m : Method) (s : option bool)
    (params : option obj) (b : option Body) (o : RequestInit) (pp : string) :
  Str.is_empty (Full.baseUrl this) = false ->
  Full.result (Full.prepare P this m params b) = Full.Normal (o, pp) ->
  Full.result (Full.sendRequest P this u m s params b) =
  match Full.fetch P (Full.baseUrl this ++ u ++ pp) o with
  | Full.Normal r =>
      match Full.json r tt with
      | Full.Normal data =>
          match Full.result (Full.notify this (default false s) data) with
          | Full.Normal _ => Full.Normal data
          | Full.Abrupt v =>
              Full.result (Full.on_error this (default false s) v)
          end
      | Full.Abrupt v => Full.result (Full.on_error this (default false s) v)
      end
  | Full.Abrupt v => Full.result (Full.on_error this (default false s) v)
  end.
Proof.
  intros E Hp. rewrite (full_sendRequest_set P this u m s params b E), Hp.
  cbn [Full.result snd]. rewrite full_result_try_catch, full_attempt_eq.
  destruct (Full.fetch P _ o) as [r|v]; [|reflexivity].
  destruct (Full.json r tt) as [d|v]; [|reflexivity].
  destruct (Full.notify this (default false s) d) as [t [[]|v]]; reflexivity.
Qed.

(** The toasts of [sendRequest] once [prepare] has returned. *)
Lemma full_sendRequest_toasts (u : string) (m : Method) (s : option bool)
    (params : option obj) (b : option Body) :
  Str.is_empty (Full.baseUrl this) = false ->
  toasts (Full.trace (Full.sendRequest P this u m s params b)) =
  match Full.result (Full.prepare P this m params b) with
  | Full.Normal (o, pp) =>
      match Full.fetch P (Full.baseUrl this ++ u ++ pp) o with
      | Full.Normal r =>
          match Full.json r tt with
          | Full.Normal data =>
              (Full.trace (Full.notify this (default false s) data) ++
               match Full.result (Full.notify this (default false s) data) with
               | Full.Normal _ => []
               | Full.Abrupt v =>
                   Full.trace (Full.on_error this (default false s) v)
               end)%list
          | Full.Abrupt v =>
              Full.trace (Full.on_error this (default false s) v)
          end
      | Full.Abrupt v => Full.trace (Full.on_error this (default false s) v)
      end
  | Full.Abrupt _ => []
  end.
Proof.
  intros E. rewrite (full_sendRequest_set P this u m s params b E).
  pose proof (full_toasts_none _ (full_prepare_silent P this m params b))
    as Hp.
  assert (Ho : forall v,
             toasts (Full.trace (Full.on_error this (default false s) v))
             = Full.trace (Full.on_error this (default false s) v))
    by (intros v; apply full_toasts_all, full_only_toasts_on_error).
  assert (Hn : forall d,
             toasts (Full.trace (Full.notify this (default false s) d))
             = Full.trace (Full.notify this (default false s) d))
    by (intros d; apply full_toasts_all, full_only_toasts_notify).
  destruct (Full.result (Full.prepare P this m params b)) as [[o pp]|v];
    cbn [Full.trace fst]; [|exact Hp].
  rewrite toasts_app, Hp. cbn [app].
  rewrite full_trace_try_catch, full_attempt_eq.
  destruct (Full.fetch P _ o) as [r|v]; cbn [Full.trace Full.result fst snd].
  - destruct (Full.json r tt) as [d|v]; cbn [Full.trace Full.result fst snd].
    + specialize (Hn d).
      destruct (Full.notify this (default false s) d) as [t [[]|v]];
        cbn [Full.trace Full.result fst snd] in *.
      * unfold toasts at 1. cbn [filter is_toast]. rewrite app_nil_r.
        exact Hn.
      * rewrite <- !app_comm_cons. unfold toasts at 1. cbn [filter is_toast].
        fold (toasts (t ++ fst (Full.on_error this (default false s) v))).
        rewrite toasts_app. f_equal; [exact Hn|apply Ho].
    + unfold toasts at 1. cbn [app filter is_toast]. apply Ho.
  - unfold toasts at 1. cbn [app filter is_toast]. apply Ho.
Qed.

End FullCalls.

(** ** When a call returns, and how often it notifies *)

Section FullClaims.

Variable P : Full.Platform.
Variable this : Full.AppOperation.


(** The toasts of one [sendRequest]: none, one, or the toast whose handler
    threw followed by the toast of the [catch] block. *)
Lemma full_sendRequest_notifies (u : string) (m : Method) (s : option bool)
    (params : option obj) (b : option Body) :
  toasts (Full.trace (Full.sendRequest P this u m s params b)) = [] \/
  (exists ev,
     toasts (Full.trace (Full.sendRequest P this u m s params b)) = [ev]) \/
  (exists handler type msg thrown text,
     Full.showToast this = Some handler /\
     handler type msg = Full.Abrupt thrown /\
     Full.userMessage (Full.errorMessage thrown) = Full.Normal text /\
     toasts (Full.trace (Full.sendRequest P this u m s params b))
       = [Toast type msg; Toast error (Str text)]).
Proof.
  assert (Ho : forall f v,
             Full.trace (Full.on_error this f v) = [] \/
             exists text,
               Full.trace (Full.on_error this f v) = [Toast error (Str text)]).
  { intros f v. destruct (full_on_error_trace this f v) as [E|(text & _ & E)];
      [left|right; exists text]; exact E. }
  destruct (Str.is_empty (Full.baseUrl this)) eqn:Eb.
  - rewrite (full_sendRequest_unset P this u m s params b Eb).
    rewrite full_trace_bind.
    assert (H1 : Full.trace
                   (if negb (default false s)
                    then Full.toast this error (Str "API configuration error")
                    else Full.ret tt) = [] \/
                 Full.trace
                   (if negb (default false s)
                    then Full.toast this error (Str "API configuration error")
                    else Full.ret tt)
                   = [Toast error (Str "API configuration error")]).
    { destruct (negb _); [|left; reflexivity].
      destruct (full_toast_trace this error (Str "API configuration error"))
        as [E|E]; [right|left]; exact E. }
    destruct (Full.result _); [cbn [Full.trace Full.ret fst];
                               rewrite app_nil_r|];
      (destruct H1 as [->| ->];
       [left; reflexivity|right; left; eexists; reflexivity]).
  - rewrite (full_sendRequest_toasts P this u m s params b Eb).
    destruct (Full.result (Full.prepare P this m params b)) as [[o pp]|v];
      [|left; reflexivity].
    destruct (Full.fetch P _ o) as [r|v];
      [|destruct (Ho (default false s) v) as [->|[text ->]];
        [left; reflexivity|right; left; eexists; reflexivity]].
    destruct (Full.json r tt) as [d|v];
      [|destruct (Ho (default false s) v) as [->|[text ->]];
        [left; reflexivity|right; left; eexists; reflexivity]].
    destruct (full_notify_cases this (default false s) d)
      as [E|[[e E]|(type & msg & E)]]; rewrite E.
    + left; reflexivity.
    + cbn [Full.trace Full.result fst snd app].
      destruct (Ho (default false s) (Full.of_exn e)) as [->|[text ->]];
        [left; reflexivity|right; left; eexists; reflexivity].
    + rewrite full_toast_call.
      destruct (Full.showToast this) as [h|] eqn:Eh; [|left; reflexivity].
      cbn [Full.trace Full.result fst snd].
      destruct (h type msg) as [[]|v] eqn:Ev;
        [right; left; eexists; reflexivity|].
      destruct (full_on_error_trace this (default false s) v)
        as [->|(text & Hu & ->)];
        [right; left; eexists; reflexivity|].
      right; right. exists h, type, msg, v, text. repeat split; assumption.
Qed.

(** X4.  One call invokes the toast handler at most twice, and at most once
    when the handler returns.  Where it is invoked twice, the first
    invocation threw inside the [try] block and the second is the [catch]
    block notifying the message it chose for what was thrown. *)
Theorem handler_called_twice_at_most (a : Args) :
  List.length (toasts (Full.trace (Full.getRequest P this a))) <= 2 /\
  (Full.handler_returns this ->
   List.length (toasts (Full.trace (Full.getRequest P this a))) <= 1) /\
  (forall first second,
     toasts (Full.trace (Full.getRequest P this a)) = [first; second] ->
     exists handler type msg thrown text,
       Full.showToast this = Some handler /\
       first = Toast type msg /\
       handler type msg = Full.Abrupt thrown /\
       Full.userMessage (Full.errorMessage thrown) = Full.Normal text /\
       second = Toast error (Str text)).
Proof.
  apply (full_getRequest_cases P this
           (fun c =>
              List.length (toasts (Full.trace c)) <= 2 /\
              (Full.handler_returns this ->
               List.length (toasts (Full.trace c)) <= 1) /\
              (forall first second,
                 toasts (Full.trace c) = [first; second] ->
                 exists handler type msg thrown text,
                   Full.showToast this = Some handler /\
                   first = Toast type msg /\
                   handler type msg = Full.Abrupt thrown /\
                   Full.userMessage (Full.errorMessage thrown)
                     = Full.Normal text /\
                   second = Toast error (Str text)))).
  - intros u m s params b.
    destruct (full_sendRequest_notifies u m s params b)
      as [->|[[ev ->]|(h & type & msg & v & text & Eh & Ev & Hu & ->)]].
    + cbn. repeat split; try lia. intros ? ? H; discriminate H.
    + cbn. repeat split; try lia. intros ? ? H; discriminate H.
    + cbn [List.length]. split; [lia|]. split.
      * intros Hh. rewrite (Hh h type msg Eh) in Ev. discriminate Ev.
      * intros first second H. inversion H; subst.
        exists h, type, msg, v, text. repeat split; assumption.
  - intros e. cbn. repeat split; try lia. intros ? ? H; discriminate H.
Qed.

End FullClaims.

(** ** Replacing the handler *)

Section FullHandlers.

Variable P : Full.Platform.

(** Two objects with one registry dispatch alike. *)
Lemma full_getRequest_cases2 (Q : Full.M value -> Full.M value -> Prop)
    (this1 this2 : Full.AppOperation) (a : Args) :
  Full.requests this1 = Full.requests this2 ->
  (forall u m s params b,
     Q (Full.sendRequest P this1 u m s params b)
       (Full.sendRequest P this2 u m s params b)) ->
  (forall v, Q ([], Full.Abrupt v) ([], Full.Abrupt v)) ->
  Q (Full.getRequest P this1 a) (Full.getRequest P this2 a).
Proof.
  intros Hr Hs Ht.
  unfold Full.getRequest, Full.delete, Full.get, Full.patch, Full.post,
    Full.put, Full.lift, Full.raise.
  rewrite Hr.
  destruct (lookup (request a) (Full.requests this2));
    repeat match goal with
           | |- context [if ?c then _ else _] => destruct c
           end; auto.
Qed.

(** The events of [sendRequest] other than toasts: the handler has no part
    in them. *)
Lemma full_sendRequest_non_toasts (this : Full.AppOperation)
    (p : event -> bool) (u : string) (m : Method) (s : option bool)
    (params : option obj) (b : option Body) :
  (forall type msg, p (Toast type msg) = false) ->
  filter p (Full.trace (Full.sendRequest P this u m s params b)) =
  if Str.is_empty (Full.baseUrl this) then []
  else (filter p (Full.trace (Full.prepare P this m params b)) ++
        match Full.result (Full.prepare P this m params b) with
        | Full.Normal (o, pp) =>
            filter p
              (FetchCall (Full.baseUrl this ++ u ++ pp) o ::
               match Full.fetch P (Full.baseUrl this ++ u ++ pp) o with
               | Full.Normal _ => [JsonCall]
               | Full.Abrupt _ => []
               end)
        | Full.Abrupt _ => []
        end)%list.
Proof.
  intros Hp.
  assert (Ho : forall f v,
             filter p (Full.trace (Full.on_error this f v)) = [])
    by (intros f v; apply (full_toast_free p _ Hp),
                      full_only_toasts_on_error).
  assert (Hn : forall f d,
             filter p (Full.trace (Full.notify this f d)) = [])
    by (intros f d; apply (full_toast_free p _ Hp),
                      full_only_toasts_notify).
  destruct (Str.is_empty (Full.baseUrl this)) eqn:E.
  - rewrite (full_sendRequest_unset P this u m s params b E).
    rewrite full_trace_bind.
    assert (H1 : filter p (Full.trace
                   (if negb (default false s)
                    then Full.toast this error (Str "API configuration error")
                    else Full.ret tt)) = []).
    { destruct (negb _); [|reflexivity].
      destruct (full_toast_trace this error (Str "API configuration error"))
        as [->| ->]; cbn [filter]; rewrite ?Hp; reflexivity. }
    destruct (Full.result _); [cbn [Full.trace Full.ret fst];
                               rewrite app_nil_r|]; exact H1.
  - rewrite (full_sendRequest_set P this u m s params b E).
    destruct (Full.result (Full.prepare P this m params b)) as [[o pp]|v];
      cbn [Full.trace fst]; [|rewrite app_nil_r; reflexivity].
    rewrite filter_app. f_equal.
    rewrite full_trace_try_catch, full_attempt_eq.
    destruct (Full.fetch P _ o) as [r|v]; cbn [Full.trace Full.result fst snd].
    + destruct (Full.json r tt) as [d|v];
        cbn [Full.trace Full.result fst snd].
      * specialize (Hn (default false s) d).
        destruct (Full.notify this (default false s) d) as [t [[]|v]];
          cbn [Full.trace Full.result fst snd] in *;
          rewrite <- ?app_comm_cons; cbn [filter];
          rewrite ?filter_app, ?Hn, ?Ho, ?app_nil_r; reflexivity.
      * rewrite <- ?app_comm_cons. cbn [filter].
        rewrite ?filter_app, ?Ho. cbn [app filter]. reflexivity.
    + rewrite <- ?app_comm_cons. cbn [filter app]. rewrite Ho. reflexivity.
Qed.

(** What the toast logic returns when the handler returns. *)
Lemma full_notify_result (this : Full.AppOperation) (s : bool)
    (data : value) :
  Full.handler_returns this ->
  Full.result (Full.notify this s data) =
  match get_prop data "status" with
  | Return st =>
      if negb s && is_num st 422 then
        match first_error data with
        | Return _ => Full.Normal tt
        | Throw e => Full.Abrupt (Full.of_exn e)
        end
      else Full.Normal tt
  | Throw e => Full.Abrupt (Full.of_exn e)
  end.
Proof.
  intros Hh. destruct s; cbn [negb andb].
  - rewrite full_notify_suppressed. cbn [Full.result snd].
    destruct (get_prop data "status"); reflexivity.
  - destruct (get_prop data "status") as [st|e] eqn:Hst;
      [|rewrite (full_notify_null this false data e Hst); reflexivity].
    rewrite (full_notify_unsuppressed this data st Hst).
    destruct st as [| |bo|n| | |]; cbn [is_num orb andb];
      try reflexivity.
    destruct (Z.eqb n 200) eqn:E200;
      [apply Z.eqb_eq in E200; subst n|]; cbn [Z.eqb Pos.eqb orb andb].
    { destruct (truthy _); [apply full_toast_returns; exact Hh|reflexivity]. }
    destruct (Z.eqb n 201) eqn:E201;
      [apply Z.eqb_eq in E201; subst n|]; cbn [Z.eqb Pos.eqb orb andb].
    { destruct (truthy _); [apply full_toast_returns; exact Hh|reflexivity]. }
    destruct (Z.eqb n 422).
    { destruct (first_error data) as [msg|e]; [|reflexivity].
      destruct (truthy msg); [apply full_toast_returns; exact Hh|reflexivity]. }
    destruct ((_ || _) && _); [apply full_toast_returns; exact Hh|reflexivity].
Qed.

(** What the [catch] block returns when the handler returns. *)
Lemma full_on_error_result (this : Full.AppOperation) (s : bool)
    (thrown : value) :
  Full.handler_returns this ->
  Full.result (Full.on_error this s thrown) =
  match Full.userMessage (Full.errorMessage thrown) with
  | Full.Normal text =>
      Full.Normal (Obj [("status", Num 500); ("message", Str text);
                        ("error", Full.errorMessage thrown)])
  | Full.Abrupt v => Full.Abrupt v
  end.
Proof.
  intros Hh. rewrite full_on_error_eq.
  destruct (Full.userMessage _) as [text|v]; [|reflexivity].
  rewrite full_result_bind. destruct s; cbn [negb]; [reflexivity|].
  rewrite (full_toast_returns this _ _ Hh). reflexivity.
Qed.

(** X25.  Replacing the toast handler never changes what a later call
    sends: the same network call, parse, resolver call and serialisation
    happen, whatever the handlers do.  The call also returns the same
    result, provided the old handler and the new one return. *)
Theorem replaced_handler_changes_toasts_only (this : Full.AppOperation)
    (handler : ToastType -> value -> Full.completion unit) (a : Args) :
  filter (fun ev => negb (is_toast ev))
         (Full.trace (Full.getRequest P (Full.setToastHandler this handler) a))
    = filter (fun ev => negb (is_toast ev))
             (Full.trace (Full.getRequest P this a)) /\
  (Full.handler_returns this ->
   (forall type message, handler type message = Full.Normal tt) ->
   Full.result (Full.getRequest P (Full.setToastHandler this handler) a)
     = Full.result (Full.getRequest P this a)).
Proof.
  apply (full_getRequest_cases2
           (fun c1 c2 =>
              filter (fun ev => negb (is_toast ev)) (Full.trace c1)
                = filter (fun ev => negb (is_toast ev)) (Full.trace c2) /\
              (Full.handler_returns this ->
               (forall type message, handler type message = Full.Normal tt) ->
               Full.result c1 = Full.result c2))).
  - reflexivity.
  - intros u m s params b. split.
    + rewrite !full_sendRequest_non_toasts by reflexivity. reflexivity.
    + intros Hh Hnew.
      assert (Hh' : Full.handler_returns (Full.setToastHandler this handler)).
      { intros h type msg Hsome. cbn in Hsome. inversion Hsome; subst.
        apply Hnew. }
      destruct (Str.is_empty (Full.baseUrl this)) eqn:E.
      * rewrite (full_sendRequest_unset P this u m s params b E).
        rewrite (full_sendRequest_unset P (Full.setToastHandler this handler)
                   u m s params b E).
        rewrite !full_result_bind. destruct (negb _); [|reflexivity].
        rewrite (full_toast_returns this _ _ Hh).
        rewrite (full_toast_returns _ _ _ Hh'). reflexivity.
      * assert (Hp : Full.prepare P (Full.setToastHandler this handler)
                       m params b = Full.prepare P this m params b)
          by reflexivity.
        destruct (Full.result (Full.prepare P this m params b))
          as [[o pp]|v] eqn:Hr.
        -- rewrite (full_sendRequest_result P this u m s params b o pp E Hr).
           rewrite (full_sendRequest_result P
                      (Full.setToastHandler this handler) u m s params b o pp
                      E (eq_trans (f_equal Full.result Hp) Hr)).
           change (Full.baseUrl (Full.setToastHandler this handler))
             with (Full.baseUrl this).
           destruct (Full.fetch P _ o) as [r|v];
             [|rewrite !full_on_error_result by assumption; reflexivity].
           destruct (Full.json r tt) as [d|v];
             [|rewrite !full_on_error_result by assumption; reflexivity].
           rewrite !full_notify_result by assumption.
           destruct (get_prop d "status") as [st|e];
             [destruct (negb _ && _); [destruct (first_error d)|]|];
             rewrite ?full_on_error_result by assumption; reflexivity.
        -- rewrite (full_sendRequest_set P this u m s params b E), Hr.
           rewrite (full_sendRequest_set P (Full.setToastHandler this handler)
                      u m s params b E), Hp, Hr.
           reflexivity.
  - intros v. split; reflexivity.
Qed.

End FullHandlers.

(** ** The class whose callbacks return is the other one restricted *)

Lemma up_bind {A B : Type} (m : M A) (k : A -> M B) :
  up (bind m k) = Full.bind (up m) (fun a => up (k a)).
Proof.
  destruct m as [t [a|e]]; cbn; [destruct (k a)|]; reflexivity.
Qed.

Lemma full_bind_ext {A B : Type} (m m' : Full.M A) (k k' : A -> Full.M B) :
  m = m' -> (forall a, k a = k' a) -> Full.bind m k = Full.bind m' k'.
Proof.
  intros <- Hk. destruct m as [t [a|v]]; cbn; [rewrite Hk|]; reflexivity.
Qed.

Lemma up_try_catch {A : Type} (m : M A) (h : exn -> M A)
    (h' : value -> Full.M A) :
  (forall e, h' (Full.of_exn e) = up (h e)) ->
  up (try_catch m h) = Full.try_catch (up m) h'.
Proof.
  intros Hh. destruct m as [t [a|e]]; cbn; [reflexivity|].
  rewrite Hh. destruct (h e); reflexivity.
Qed.

(** One step of a proof that two computations of the same shape agree. *)
Ltac same_shape :=
  repeat first
    [ reflexivity
    | rewrite up_bind; apply full_bind_ext; [|intro]
    | match goal with
      | |- _ = up (if ?c then _ else _) => destruct c
      | |- _ = up (match ?x with _ => _ end) => destruct x
      end ].

Section Restriction.

Variable P : Platform.
Variable this : AppOperation.

Lemma up_toast (type : ToastType) (msg : value) :
  Full.toast (up_object this) type msg = up (toast this type msg).
Proof.
  unfold Full.toast, toast, up_object. cbn [Full.showToast].
  destruct (showToast this) as [h|]; [|reflexivity].
  cbn. destruct (h type msg). reflexivity.
Qed.

Lemma up_notify (s : bool) (data : value) :
  Full.notify (up_object this) s data = up (notify this s data).
Proof.
  unfold Full.notify, notify. same_shape; apply up_toast.
Qed.

Lemma up_userMessage (m : string) :
  Full.userMessage (Str m) = Full.Normal (userMessage m).
Proof.
  unfold Full.userMessage, userMessage. cbn [Full.includes].
  destruct (Str.includes m "Network request failed"); [reflexivity|].
  destruct (Str.includes m "Failed to fetch"); [reflexivity|].
  destruct (Str.includes m "JSON"); reflexivity.
Qed.

Lemma up_errorMessage (e : exn) :
  Full.errorMessage (Full.of_exn e) =
  Str (if Str.is_empty (message e) then "Unknown error" else message e).
Proof.
  unfold Full.errorMessage, Full.of_exn, get_prop_opt. cbn.
  destruct (message e); reflexivity.
Qed.

Lemma up_on_error (s : bool) (e : exn) :
  Full.on_error (up_object this) s (Full.of_exn e) = up (on_error this s e).
Proof.
  rewrite full_on_error_eq, up_errorMessage, up_userMessage.
  unfold on_error. cbv zeta. same_shape. apply up_toast.
Qed.

Lemma up_prepare (m : Method) (params : option obj) (b : option Body) :
  Full.prepare (up_platform P) (up_object this) m params b
    = up (prepare P this m params b).
Proof.
  unfold Full.prepare, prepare. cbn [up_object Full.staticHeaders
    Full.getDynamicHeaders up_platform Full.JSON_stringify].
  same_shape.
Qed.

Lemma up_attempt (s : bool) (u : string) (o : RequestInit) (pp : string) :
  Full.attempt (up_platform P) (up_object this) s u o pp
    = up (attempt P this s u o pp).
Proof.
  rewrite full_attempt_eq.
  unfold attempt. cbv zeta.
  cbn [up_object Full.baseUrl up_platform Full.fetch].
  destruct (fetch P _ o) as [r|e]; [|reflexivity].
  cbn [up_response Full.json bind emit lift].
  destruct (json r tt) as [d|e]; [|reflexivity].
  cbn [Full.raise]. rewrite up_notify.
  destruct (notify this s d) as [t [[]|e]]; cbn; rewrite ?app_nil_r;
    reflexivity.
Qed.

Lemma up_sendRequest (u : string) (m : Method) (s : option bool)
    (params : option obj) (b : option Body) :
  Full.sendRequest (up_platform P) (up_object this) u m s params b
    = up (sendRequest P this u m s params b).
Proof.
  unfold Full.sendRequest, sendRequest. cbv zeta.
  change (Full.baseUrl (up_object this)) with (baseUrl this).
  destruct (Str.is_empty (baseUrl this)).
  - same_shape. apply up_toast.
  - rewrite up_bind. apply full_bind_ext; [apply up_prepare|].
    intros [o pp]. rewrite up_attempt. symmetry. apply up_try_catch.
    intros e. apply up_on_error.
Qed.

(** The class whose callbacks return and whose platform throws [Error]
    objects is the class of [Full] at such callbacks and such a platform:
    the same events, the same result. *)
Lemma up_getRequest (a : Args) :
  Full.getRequest (up_platform P) (up_object this) a
    = up (getRequest P this a).
Proof.
  unfold Full.getRequest, getRequest, Full.delete, Full.get, Full.patch,
    Full.post, Full.put, delete, get, patch, post, put.
  cbv zeta. change (Full.requests (up_object this)) with (requests this).
  destruct (lookup (request a) (requests this));
    repeat match goal with
           | |- context [if ?c then _ else _] => destruct c
           end; first [apply up_sendRequest | reflexivity].
Qed.

End Restriction.

(** ** The exported instance in its environment *)

(** Without the URL variable the instance is [Api.appOperation]. *)
Lemma kit_instance_without_url (key : option string) :
  Kit.appOperation (mkEnv None key) = Api.appOperation key.
Proof. reflexivity. Qed.

Section Exported.

Variable P : Platform.

(** X28.  The instance the kit exports takes its base URL from the
    environment, falling back to the example URL only where the variable is
    unset: every request goes to that URL, and with the variable set to the
    empty string no request is made at all and every call is answered with
    the configuration error.  It sends the system key of the environment
    as System-Key exactly when that key is a non-empty string, and, having
    no handler, never notifies. *)
Theorem kit_instance_follows_environment (env : Env)
    (u : string) (m : Method) (s : option bool) (params : option obj)
    (b : option Body) :
  (forall u' o,
     In (FetchCall u' o)
        (trace (sendRequest P (Kit.appOperation env) u m s params b)) ->
     (exists pp,
        u' = match EXPO_PUBLIC_API_URL env with
             | Some base => base
             | None => "https://example.com/api/v1/"
             end ++ u ++ pp) /\
     Headers.get (headers o) "System-Key" =
     match EXPO_PUBLIC_SYSTEM_KEY env with
     | Some k => if Str.is_empty k then None else Some (Headers.normalize k)
     | None => None
     end) /\
  (EXPO_PUBLIC_API_URL env = Some "" ->
   sendRequest P (Kit.appOperation env) u m s params b =
   ([], Return (Obj [("status", Num 500);
                     ("message", Str "API base URL is not configured. Please set the baseUrl when constructing AppOperation.")]))) /\
  toasts (trace (sendRequest P (Kit.appOperation env) u m s params b)) = [].
Proof.
  split; [|split].
  - intros u' o H. split.
    + apply fetch_prepared in H as (_ & pp & _ & ->). exists pp.
      destruct env as [[base|] key]; reflexivity.
    + unfold Headers.get.
      rewrite (outgoing_header_values P _ _ _ _ _ _ _ _ "System-Key" H).
      change (Headers.name_eq "Content-Type" "System-Key") with false.
      cbv iota.
      change (dynamicHeaders (Kit.appOperation env))
        with (@nil (string * string)).
      destruct env as [base [k|]]; [|reflexivity].
      cbn [Kit.appOperation Kit.DEFAULT_SYSTEM_KEY EXPO_PUBLIC_SYSTEM_KEY
           constructor opt_staticHeaders default staticHeaders].
      destruct (Str.is_empty k); reflexivity.
  - intros Hurl. rewrite sendRequest_unset.
    + destruct (default false s); reflexivity.
    + destruct env as [base key]. cbn in Hurl. subst base. reflexivity.
  - apply sendRequest_no_handler. reflexivity.
Qed.

End Exported.

(** * The class with throwing callbacks at concrete calls *)

Import Throwing.


(** A handler that throws where the base URL is missing: the toast is
    outside any [try] block, and what the handler throws leaves
    [getRequest]. *)
Lemma throwing_handler_propagates :
  Full.getRequest (up_platform (server welcome)) touchy_unconfigured
                  (call Api.LOGIN)
    = ([Toast error (Str "API configuration error")],
       Full.Abrupt no_container).
Proof. reflexivity. Qed.

(** A handler that throws in the [catch] block: the network is down, the
    toast of the classified message throws, and that leaves [getRequest]. *)
Lemma throwing_handler_in_catch_propagates :
  Full.getRequest (up_platform (offline "Failed to fetch")) touchy
                  (call Api.LOGIN)
    = ([FetchCall "https://example.com/api/v1/auth/login"
          (mkRequestInit POST json_headers None);
        Toast error (Str "Network error. Please check your connection.")],
       Full.Abrupt no_container).
Proof. reflexivity. Qed.

(** A resolver that throws: it is called before the [try] block, nothing
    is sent, and what it throws leaves [getRequest]. *)
Lemma throwing_resolver_propagates :
  Full.getRequest (up_platform (server welcome)) signed_out
                  (call Api.LOGIN)
    = ([DynamicHeaders], Full.Abrupt (Full.of_exn (Error "No session"))).
Proof. reflexivity. Qed.

(** A rejection whose message is a number: [errorMessage.includes] is not
    a function, the [catch] block throws, and no envelope is returned. *)
Lemma unsearchable_message_propagates :
  ~ Full.searchable (Full.errorMessage status_only) /\
  Full.getRequest (rejecting status_only) (up_object plain)
                  (call Api.GET_PROFILE)
    = ([FetchCall "https://example.com/api/v1/profile/"
          (mkRequestInit GET json_headers None)],
       Full.Abrupt
         (Full.of_exn (TypeError "errorMessage.includes is not a function"))).
Proof. split; [intros []|reflexivity]. Qed.

(** X4 at a login that the server welcomes, the handler returning: one
    toast. *)
Lemma handler_called_twice_at_most_witness :
  Full.handler_returns (up_object plain) /\
  List.length
    (toasts (Full.trace (Full.getRequest (up_platform (server welcome))
                           (up_object plain) login_call))) <= 1.
Proof.
  assert (Hh : Full.handler_returns (up_object plain)).
  { intros h type msg H. inversion H; subst. reflexivity. }
  split; [exact Hh|].
  exact (proj1 (proj2 (handler_called_twice_at_most
                         (up_platform (server welcome)) (up_object plain)
                         login_call)) Hh).
Defined.

(** A handler that throws on the success toast is called a second time, by
    the [catch] block, and the caller gets the envelope of a failure in
    place of the body the server sent. *)
Lemma throwing_handler_is_called_twice :
  Full.getRequest (up_platform (server welcome)) fussy login_call
    = ([Stringify (Obj []);
        FetchCall login_url login_request;
        JsonCall;
        Toast success (Str "Welcome");
        Toast error (Str "Something went wrong")],
       Full.Normal (Obj [("status", Num 500);
                         ("message", Str "Something went wrong");
                         ("error", Str "Toast container is not mounted")])).
Proof. reflexivity. Qed.

(** X25 at a login: a handler that returns is installed on the object that
    has one, and the call returns the body as before. *)
Lemma replaced_handler_changes_toasts_only_witness :
  Full.handler_returns (up_object plain) /\
  Full.result (Full.getRequest (up_platform (server welcome))
                 (Full.setToastHandler (up_object plain)
                    (fun _ _ => Full.Normal tt))
                 login_call)
    = Full.Normal welcome.
Proof.
  assert (Hh : Full.handler_returns (up_object plain)).
  { intros h type msg H. inversion H; subst. reflexivity. }
  split; [exact Hh|].
  rewrite (proj2 (replaced_handler_changes_toasts_only (up_platform (server welcome))
                    (up_object plain) (fun _ _ => Full.Normal tt) login_call)
             Hh (fun _ _ => eq_refl)).
  reflexivity.
Defined.

(** X28 in an environment that sets both variables. *)
Lemma kit_instance_follows_environment_witness :
  In (FetchCall "https://staging.example.com/profile/"
        (mkRequestInit GET
           [("Content-Type", "application/json"); ("System-Key", "abc")] None))
     (trace (sendRequest (server welcome) (Kit.appOperation Kit.staging)
                         "profile/" GET (Some true) None None)) /\
  Headers.get [("Content-Type", "application/json"); ("System-Key", "abc")]
              "System-Key" = Some "abc" /\
  EXPO_PUBLIC_API_URL Kit.blank = Some "" /\
  sendRequest (server welcome) (Kit.appOperation Kit.blank)
              "profile/" GET (Some true) None None
    = ([], Return (Obj [("status", Num 500);
                        ("message", Str "API base URL is not configured. Please set the baseUrl when constructing AppOperation.")])).
Proof.
  assert (H : In (FetchCall "https://staging.example.com/profile/"
                    (mkRequestInit GET
                       [("Content-Type", "application/json");
                        ("System-Key", "abc")] None))
                 (trace (sendRequest (server welcome)
                           (Kit.appOperation Kit.staging) "profile/" GET
                           (Some true) None None)))
    by (left; reflexivity).
  split; [exact H|]. split.
  - exact (proj2 (proj1 (kit_instance_follows_environment (server welcome)
                           Kit.staging "profile/" GET (Some true) None None)
                    _ _ H)).
  - split; [reflexivity|].
    exact (proj1 (proj2 (kit_instance_follows_environment (server welcome)
                           Kit.blank "profile/" GET (Some true) None None))
             eq_refl).
Defined.
